(** * monzo/verifiedsms: sender-side hash derivation and verification workflow

    A shallow embedding of the Go packages [data_munging], [hashing],
    [oauth2] and [verifiedsms], with the properties of the natural-language
    specification stated and proved over it.

    Conventions.
    - A Go [string] is a Rocq [string] (a sequence of bytes, not of runes);
      a Go [[]byte] is a [list byte].
    - [*big.Int] and [int] are [Z]; a [rune] is a [Z].
    - A Go function returning [(T, error)] returns an [outcome T]; a run-time
      panic is an outcome of its own.
    - Pointer arguments ([*Agent], [*ecdsa.PrivateKey], [*ecdsa.PublicKey])
      are records: the data model gives every agent a private key.
    - Operations of packages outside the repository that the claims do not
      depend on (JSON, base64, X.509, HKDF, the network) are fields of the
      class [GoLib]; those the claims depend on ([strings.TrimSpace], UTF-8
      decoding, [unicode.IsSpace], [io.ReadFull], [big.Int.Bytes]) are
      written out. *)

From Stdlib Require Import ZArith List String Ascii Bool Lia.
From Stdlib Require Import Strings.Byte.
From stdpp Require Import base tactics option list strings gmap pretty.

Local Open Scope Z_scope.

(** ** Bytes and Go strings *)

Module GoString.

(** The numeric value of a byte, [0 <= bv b < 256]. *)
Definition bv (b : byte) : Z := Z.of_N (Byte.to_N b).

(** [[]byte(s)] *)
Definition bytes_of (s : string) : list byte := list_byte_of_string s.

(** [string(b)] *)
Definition of_bytes (b : list byte) : string := string_of_list_byte b.

(** [s[i]] for an index in range. *)
Definition byteAt (s : list byte) (i : nat) : Z :=
  match s !! i with Some b => bv b | None => 0 end.

End GoString.

Import GoString.

(** ** Package unicode/utf8 *)

Module utf8.

Definition RuneError : Z := 0xFFFD.
Definition RuneSelf : Z := 0x80.
Definition UTFMax : nat := 4.

Definition maskx : Z := 0x3F.
Definition mask2 : Z := 0x1F.
Definition mask3 : Z := 0x0F.
Definition mask4 : Z := 0x07.

Definition locb : Z := 0x80.
Definition hicb : Z := 0xBF.

(** Entries of the table [first]: the low three bits are the size of the
    encoding, the high four bits index [acceptRanges]. *)
Definition xx : Z := 0xF1.
Definition as_ : Z := 0xF0.
Definition s1 : Z := 0x02.
Definition s2 : Z := 0x13.
Definition s3 : Z := 0x03.
Definition s4 : Z := 0x23.
Definition s5 : Z := 0x34.
Definition s6 : Z := 0x04.
Definition s7 : Z := 0x44.

(** [first[b]], the table written by ranges. *)
Definition first (b : Z) : Z :=
  if b <? 0x80 then as_
  else if b <? 0xC2 then xx
  else if b <? 0xE0 then s1
  else if b =? 0xE0 then s2
  else if b <? 0xED then s3
  else if b =? 0xED then s4
  else if b <? 0xF0 then s3
  else if b =? 0xF0 then s5
  else if b <? 0xF4 then s6
  else if b =? 0xF4 then s7
  else xx.

Record acceptRange := { lo : Z; hi : Z }.

Definition acceptRanges (i : Z) : acceptRange :=
  if i =? 0 then {| lo := locb; hi := hicb |}
  else if i =? 1 then {| lo := 0xA0; hi := hicb |}
  else if i =? 2 then {| lo := locb; hi := 0x9F |}
  else if i =? 3 then {| lo := 0x90; hi := hicb |}
  else if i =? 4 then {| lo := locb; hi := 0x8F |}
  else {| lo := 0; hi := 0 |}.

(** [utf8.DecodeRuneInString]: the first rune of [s] and its width in
    bytes; [(RuneError, 0)] on the empty string and [(RuneError, 1)] on an
    invalid encoding. *)
Definition DecodeRuneInString (s : list byte) : Z * nat :=
  let n := length s in
  if (n <? 1)%nat then (RuneError, 0%nat) else
  let s0 := byteAt s 0 in
  let x := first s0 in
  if as_ <=? x then
    (* mask := rune(x) << 31 >> 31 on int32: all ones when bit 0 of x is
       set (x = xx), zero otherwise (x = as) *)
    let mask := if Z.testbit x 0 then -1 else 0 in
    (Z.lor (Z.land s0 (Z.lnot mask)) (Z.land RuneError mask), 1%nat)
  else
  let sz := Z.to_nat (Z.land x 7) in
  let accept := acceptRanges (Z.shiftr x 4) in
  if (n <? sz)%nat then (RuneError, 1%nat) else
  let s1 := byteAt s 1 in
  if (s1 <? lo accept) || (hi accept <? s1) then (RuneError, 1%nat) else
  if (sz <=? 2)%nat then
    (Z.lor (Z.shiftl (Z.land s0 mask2) 6) (Z.land s1 maskx), 2%nat)
  else
  let s2 := byteAt s 2 in
  if (s2 <? locb) || (hicb <? s2) then (RuneError, 1%nat) else
  if (sz <=? 3)%nat then
    (Z.lor (Z.lor (Z.shiftl (Z.land s0 mask3) 12)
                  (Z.shiftl (Z.land s1 maskx) 6))
           (Z.land s2 maskx), 3%nat)
  else
  let s3 := byteAt s 3 in
  if (s3 <? locb) || (hicb <? s3) then (RuneError, 1%nat) else
  (Z.lor (Z.lor (Z.lor (Z.shiftl (Z.land s0 mask4) 18)
                       (Z.shiftl (Z.land s1 maskx) 12))
                (Z.shiftl (Z.land s2 maskx) 6))
         (Z.land s3 maskx), 4%nat).

(** [utf8.RuneStart]: the byte is not a continuation byte. *)
Definition RuneStart (b : Z) : bool := negb (Z.land b 0xC0 =? 0x80).

(** The loop [for start--; start >= lim; start-- { if RuneStart(s[start])
    { break } }] of [DecodeLastRuneInString]. [k] counts the positions
    still to visit, [start] is the position under test; the result is the
    value of [start] after the loop, as an integer (it may be [lim - 1]). *)
Fixpoint lastRuneStart (s : list byte) (k : nat) (start : Z) : Z :=
  match k with
  | O => start
  | S k' =>
      if RuneStart (byteAt s (Z.to_nat start)) then start
      else lastRuneStart s k' (start - 1)
  end.

(** [utf8.DecodeLastRuneInString]: the last rune of [s] and its width. *)
Definition DecodeLastRuneInString (s : list byte) : Z * nat :=
  let end_ := Z.of_nat (length s) in
  if end_ =? 0 then (RuneError, 0%nat) else
  let start := end_ - 1 in
  let r := byteAt s (Z.to_nat start) in
  if r <? RuneSelf then (r, 1%nat) else
  let lim := Z.max 0 (end_ - Z.of_nat UTFMax) in
  (* the loop visits start = end-2, ..., lim *)
  let start := lastRuneStart s (Z.to_nat (end_ - 1 - lim)) (end_ - 2) in
  let start := if start <? 0 then 0 else start in
  let '(r, size) := DecodeRuneInString (drop (Z.to_nat start) s) in
  if negb (start + Z.of_nat size =? end_) then (RuneError, 1%nat)
  else (r, size).

End utf8.

(** ** Package unicode *)

Module unicode.

Definition MaxLatin1 : Z := 0xFF.

(** The 16-bit ranges of the table [White_Space], as [(lo, hi)]. *)
Definition White_Space : list (Z * Z) :=
  [ (0x0009, 0x000d); (0x0020, 0x0020); (0x0085, 0x0085);
    (0x00a0, 0x00a0); (0x1680, 0x1680); (0x2000, 0x200a);
    (0x2028, 0x2029); (0x202f, 0x202f); (0x205f, 0x205f);
    (0x3000, 0x3000) ].

Definition inRanges (t : list (Z * Z)) (r : Z) : bool :=
  existsb (fun '(l, h) => (l <=? r) && (r <=? h)) t.

(** [unicode.IsSpace] *)
Definition IsSpace (r : Z) : bool :=
  if (0 <=? r) && (r <=? MaxLatin1) then
    (r =? 9) || (r =? 10) || (r =? 11) || (r =? 12) || (r =? 13)
    || (r =? 32) || (r =? 0x85) || (r =? 0xA0)
  else inRanges White_Space r.

End unicode.

(** ** Package strings *)

Module strings.

(** [asciiSpace[c] == 1] *)
Definition asciiSpace (c : Z) : bool :=
  (c =? 9) || (c =? 10) || (c =? 11) || (c =? 12) || (c =? 13) || (c =? 32).

(** [indexFunc(s, f, false)] together with the slice [s[i:]] of
    [TrimLeftFunc]: the range loop decodes one rune after the other and
    stops at the first one that [f] rejects; when there is none the
    result is the empty string. [fuel] bounds the number of runes, each
    of which takes at least one byte. *)
Fixpoint trimLeftLoop (f : Z -> bool) (fuel : nat) (s : list byte)
  : list byte :=
  match fuel with
  | O => []
  | S fuel' =>
      match s with
      | [] => []
      | _ =>
          let '(r, w) := utf8.DecodeRuneInString s in
          if f r then trimLeftLoop f fuel' (drop w s) else s
      end
  end.

(** [strings.TrimLeftFunc] *)
Definition TrimLeftFunc (s : list byte) (f : Z -> bool) : list byte :=
  trimLeftLoop f (length s) s.

(** [lastIndexFunc(s, f, false)]: [Some i] for index [i], [None] for -1.
    The loop variable [i] runs down from [len(s)]. *)
Fixpoint lastIndexLoop (f : Z -> bool) (fuel : nat) (s : list byte)
                       (i : nat) : option nat :=
  match fuel with
  | O => None
  | S fuel' =>
      if (0 <? i)%nat then
        let '(r, size) := utf8.DecodeLastRuneInString (take i s) in
        let i := (i - size)%nat in
        if negb (f r) then Some i else lastIndexLoop f fuel' s i
      else None
  end.

Definition lastIndexFunc (s : list byte) (f : Z -> bool) : option nat :=
  lastIndexLoop f (S (length s)) s (length s).

(** [strings.TrimRightFunc] *)
Definition TrimRightFunc (s : list byte) (f : Z -> bool) : list byte :=
  match lastIndexFunc s f with
  | Some i =>
      if utf8.RuneSelf <=? byteAt s i then
        let '(_, wid) := utf8.DecodeRuneInString (drop i s) in
        take (i + wid) s
      else take (i + 1) s
  | None => take 0 s       (* i = -1, then i++ *)
  end.

(** [strings.TrimFunc] *)
Definition TrimFunc (s : list byte) (f : Z -> bool) : list byte :=
  TrimRightFunc (TrimLeftFunc s f) f.

(** Outcome of one of the two ASCII scanning loops of [TrimSpace]: the
    loop stopped by [break] or by running off the string, or it met a
    byte outside ASCII. In both cases [rest] is what is left of the
    string on the side the loop works on. *)
Inductive scan :=
| Stopped (rest : list byte)
| NonASCII (rest : list byte).

(** The loop [for ; start < len(s); start++]; the argument is
    [s[start:]]. *)
Fixpoint scanStart (s : list byte) : scan :=
  match s with
  | [] => Stopped []
  | c :: s' =>
      if utf8.RuneSelf <=? bv c then NonASCII s
      else if asciiSpace (bv c) then scanStart s'
      else Stopped s
  end.

(** The loop [for ; stop > start; stop--]; the argument is
    [s[start:stop]] reversed, and so is [rest]. *)
Fixpoint scanStop (r : list byte) : scan :=
  match r with
  | [] => Stopped []
  | c :: r' =>
      if utf8.RuneSelf <=? bv c then NonASCII r
      else if asciiSpace (bv c) then scanStop r'
      else Stopped r
  end.

Definition TrimSpaceBytes (s : list byte) : list byte :=
  match scanStart s with
  | NonASCII rest => TrimFunc rest unicode.IsSpace
  | Stopped rest =>
      match scanStop (rev rest) with
      | NonASCII r => TrimFunc (rev r) unicode.IsSpace
      | Stopped r => rev r
      end
  end.

(** [strings.TrimSpace] *)
Definition TrimSpace (s : string) : string :=
  of_bytes (TrimSpaceBytes (bytes_of s)).

End strings.

(** ** Package data_munging *)

Module data_munging.

(** [GetAllIterationsOfSMSMessage] *)
Definition GetAllIterationsOfSMSMessage (smsMessage : string) : list string :=
  let iterations := [smsMessage] in
  let trimmedMessage := strings.TrimSpace smsMessage in
  if bool_decide (trimmedMessage ≠ smsMessage) then
    iterations ++ [smsMessage]
  else iterations.

End data_munging.

(** ** Package terrors (github.com/monzo/terrors) *)

Module terrors.

Definition ErrPreconditionFailed : string := "precondition_failed".
Definition ErrInternalService : string := "internal_service".

(** Error values, as the terms that build them. [Foreign] is an error of
    another package (encoding/json, encoding/base64, crypto/x509,
    net/http, hkdf); [Propagate] is [terrors.Propagate], left
    uninterpreted; the two others are the constructors of the same name,
    with their code, message and params. *)
Inductive error :=
| Foreign (pkg msg : string)
| PreconditionFailed (code message : string) (params : gmap string string)
| InternalService (code message : string) (params : gmap string string)
| Propagate (err : error).

(** The error is of kind PreconditionFailed, however often propagated. *)
Fixpoint isPreconditionFailed (e : error) : bool :=
  match e with
  | PreconditionFailed _ _ _ => true
  | Propagate e' => isPreconditionFailed e'
  | _ => false
  end.

End terrors.

Import terrors.

(** ** Results and effects *)

(** What a call of a Go function comes to: it returns a value with a nil
    error, returns a non-nil error, or panics. *)
Inductive outcome (A : Type) :=
| Ok (a : A)
| Err (e : error)
| Panic (reason : string).
Arguments Ok {A} a.
Arguments Err {A} e.
Arguments Panic {A} reason.

(** What a library function with the signature [(T, error)] returns. *)
Definition result (A : Type) : Type := (error + A)%type.

(** The outcome of a call that returned. *)
Definition returned {A} (r : result A) : outcome A :=
  match r with
  | inl err => Err err
  | inr a => Ok a
  end.

Definition isOk {A} (o : outcome A) : bool :=
  match o with Ok _ => true | _ => false end.

Definition isErr {A} (o : outcome A) : bool :=
  match o with Err _ => true | _ => false end.

#[global] Instance outcome_ret : MRet outcome := fun A a => Ok a.
#[global] Instance outcome_bind : MBind outcome := fun A B f o =>
  match o with
  | Ok a => f a
  | Err e => Err e
  | Panic r => Panic r
  end.

(** [v, err := c; if err != nil { return ..., terrors.Propagate(err) }] *)
Definition propagated {A} (o : outcome A) : outcome A :=
  match o with
  | Err e => Err (Propagate e)
  | _ => o
  end.

(** [big.Int] *)
Module big.

(** The bytes of [n >= 0], least significant first, without zero bytes at
    the top. *)
Fixpoint bytesLE (fuel : nat) (n : Z) : list byte :=
  match fuel with
  | O => []
  | S fuel' =>
      if n =? 0 then []
      else default x00 (Byte.of_N (Z.to_N (n mod 256)))
             :: bytesLE fuel' (n / 256)
  end.

(** [x.Bytes()]: the absolute value of [x] as a big-endian byte slice. *)
Definition Bytes (x : Z) : list byte :=
  rev (bytesLE (S (Z.to_nat (Z.log2 (Z.abs x)))) (Z.abs x)).

(** [x.String()]: the decimal representation. *)
Definition String (x : Z) : string := pretty x.

End big.

(** ** Package crypto/elliptic *)

Module elliptic.

Record CurveParams := {
  P : Z;          (* the order of the underlying field *)
  N : Z;          (* the order of the base point *)
  B : Z;          (* the constant of the curve equation *)
  Gx : Z; Gy : Z; (* the base point *)
  BitSize : Z;
  Name : string
}.

Definition P384 : CurveParams := {|
  P := 2^384 - 2^128 - 2^96 + 2^32 - 1;
  N := 39402006196394479212279040100143613805079739270465446667946905279627659399113263569398956308152294913554433653942643;
  B := 0xb3312fa7e23ee7e4988e056be3f82d19181d9c6efe8141120314088f5013875ac656398d8a2ed19d2a85c8edd3ec2aef;
  Gx := 0xaa87ca22be8b05378eb1c71ef320ad746e1d3b628ba79b9859f741e082542a385502f25dbf55296c3a545e3872760ab7;
  Gy := 0x3617de4a96262c6f5d9e98bf9292dc29f8f41dbd289a147ce9da3113b5f0b8c00a60b1ce1d7e819d7a431d7c90ea0e5f;
  BitSize := 384;
  Name := "P-384"
|}.

Definition P256 : CurveParams := {|
  P := 2^256 - 2^224 + 2^192 + 2^96 - 1;
  N := 115792089210356248762697446949407573529996955224135760342422259061068512044369;
  B := 0x5ac635d8aa3a93e7b3ebbd55769886bc651d06b0cc53b0f63bce3c3e27d2604b;
  Gx := 0x6b17d1f2e12c4247f8bce6e563a440f277037d812deb33a0f4a13945d898c296;
  Gy := 0x4fe342e2fe1a7f9b8ee7eb4a7c0f9e162bce33576b315ececbb6406837bf51f5;
  BitSize := 256;
  Name := "P-256"
|}.

(** [curve.polynomial(x)]: x³ - 3x + b, reduced. *)
Definition polynomial (curve : CurveParams) (x : Z) : Z :=
  (x * x * x - 3 * x + B curve) mod P curve.

(** The curve equation y² = x³ - 3x + b over the field of [curve]. *)
Definition satisfiesEquation (curve : CurveParams) (x y : Z) : bool :=
  polynomial curve x =? (y * y) mod P curve.

(** [IsOnCurve] as the package has it since Go 1.17.7: the coordinates
    are field elements and satisfy the equation. *)
Definition IsOnCurve (curve : CurveParams) (x y : Z) : bool :=
  if (x <? 0) || (P curve <=? x) || (y <? 0) || (P curve <=? y) then false
  else satisfiesEquation curve x y.

End elliptic.

(** ** Package crypto/ecdsa and the keys of crypto/x509 *)

Module ecdsa.

Record PublicKey := {
  Curve : elliptic.CurveParams;
  X : Z;
  Y : Z
}.

(** A private key is represented by its fields, with a number for [D]:
    a nil [*ecdsa.PrivateKey] or a nil [D], on which [D.Bytes()] panics in
    Go, has no representation here, and nothing below speaks of a run with
    such a key. *)
Record PrivateKey := {
  Public : PublicKey;
  D : Z
}.

End ecdsa.

Module x509.

(** The dynamic types of the value [ParsePKIXPublicKey] returns. *)
Inductive PublicKey :=
| RSA (n e : Z)
| DSA (p q g y : Z)
| ECDSA (k : ecdsa.PublicKey)
| Ed25519 (k : list byte)
| X25519 (k : list byte).

End x509.

(** ** Package encoding/pem, net/http, golang.org/x/oauth2/jwt *)

Module pem.
Record Block := { Type_ : string; Bytes : list byte }.
End pem.

Module http.

Record Request := {
  Method : string;
  URL : string;
  Header : gmap string (list string);
  Body : string
}.

(** [request.Header.Set(key, value)] for a key in canonical form. *)
Definition Header_Set (r : Request) (key value : string) : Request :=
  {| Method := Method r; URL := URL r;
     Header := <[key := [value]]> (Header r); Body := Body r |}.

Record Response := {
  StatusCode : Z;
  Status : string;
  ResponseBody : string
}.

End http.

Module jwt.

(** [jwt.Config], with the context its client was made with. *)
Record Config (C : Type) := {
  Email : string;
  PrivateKey : list byte;
  Scopes : list string;
  TokenURL : string;
  ctx : C
}.
Arguments Email {C} c.
Arguments PrivateKey {C} c.
Arguments Scopes {C} c.
Arguments TokenURL {C} c.
Arguments ctx {C} c.

End jwt.

Module google.
Definition JWTTokenURL : string := "https://oauth2.googleapis.com/token".
End google.

(** ** The wire types of package verifiedsms *)

Record verifiedSMSResponseUserKeys := {
  PhoneNumber : string;
  PublicKey : string
}.

Record verifiedSMSResponse := {
  UserKeys : list verifiedSMSResponseUserKeys
}.

Record messageSubmissionToGoogle := {
  Hash : string;
  AgentId : string
}.

Record batchSubmitRequest := {
  Messages : list messageSubmissionToGoogle
}.

Record serviceAccountDetails := {
  PrivateKeyPEM : string;
  ClientEmail : string
}.

(** ** What the program does to the world *)

(** The operations a run performs that the specification speaks of, in the
    order they happen: requests handed to the HTTP client, the calls of the
    orchestrator into the variant generator and into hash derivation, and
    scalar multiplications on the curve.

    [EvDo] is a call of the program to [client.Do], with the request the
    program hands over. What the client's transport sends of its own within
    such a call is not an event: the client of [jwt.Config.Client] first
    posts a token grant to the configuration's [TokenURL] when it holds no
    valid token. That traffic belongs to the library behind
    [http_Client_Do]; statements about events are statements about the
    program's calls, not about every message on the wire. *)
Inductive event (C : Type) :=
| EvDo (client : jwt.Config C) (request : http.Request)
| EvExpand (smsMessage : string)
| EvHash (publicKey : string) (smsMessage : list byte)
| EvScalarMult (x y : Z) (k : list byte).
Arguments EvDo {C} client request.
Arguments EvExpand {C} smsMessage.
Arguments EvHash {C} publicKey smsMessage.
Arguments EvScalarMult {C} x y k.

(** ** The packages outside the repository *)

(** The library operations and external services the program calls and
    whose results the properties below do not look into. Each may fail the
    way its Go signature allows, by returning an error. The network answers
    a request as a function of everything that happened before it. *)
Class GoLib := {
  context_Context : Type;
  json_Marshal_phoneNumbers : gmap string (list string) -> result string;
  json_Marshal_batchSubmitRequest : batchSubmitRequest -> result string;
  json_Unmarshal_serviceAccountDetails : string -> result serviceAccountDetails;
  json_Decode_verifiedSMSResponse : string -> result verifiedSMSResponse;
  pem_Decode : list byte -> option pem.Block;
  (* the validation http.NewRequest performs on method and URL *)
  http_NewRequest_check : string -> string -> option error;
  http_Client_Do :
    list (event context_Context) -> jwt.Config context_Context -> http.Request
    -> result http.Response;
  base64_EncodeToString : list byte -> string;
  base64_DecodeString : string -> result (list byte);
  x509_ParsePKIXPublicKey : list byte -> result x509.PublicKey;
  (* elliptic.P384().IsOnCurve and .ScalarMult *)
  P384_IsOnCurve : Z -> Z -> bool;
  P384_ScalarMult : Z -> Z -> list byte -> Z * Z;
  (* the whole output of HKDF-SHA256 for (secret, salt, info) *)
  hkdf_sha256_stream : list byte -> list byte -> list byte -> list byte;
  (* IsOnCurve accepts only points that satisfy the curve equation *)
  P384_IsOnCurve_equation : forall x y,
    P384_IsOnCurve x y = true ->
    elliptic.satisfiesEquation elliptic.P384 x y = true
}.

Abbreviation trace := (list (event context_Context)).

(** A client is represented by the configuration and context it was made
    from. The program calls [GetHttpClient] once for the lookup and once
    more for the submission, and so uses two clients, each with a token
    source of its own; the representation does not tell two clients of one
    configuration apart, and no statement below relies on their being one
    client. *)
Abbreviation Client := (jwt.Config context_Context).

Section Effects.

Context {L : GoLib}.

(** A computation that may extend the trace. *)
Definition M (A : Type) : Type := trace -> outcome A * trace.

#[global] Instance M_ret : MRet M := fun A a t => (Ok a, t).
#[global] Instance M_bind : MBind M := fun A B f c t =>
  match c t with
  | (Ok a, t') => f a t'
  | (Err e, t') => (Err e, t')
  | (Panic r, t') => (Panic r, t')
  end.

(** A call without effect. *)
Definition lift {A} (o : outcome A) : M A := fun t => (o, t).

(** Record an event. *)
Definition emit (e : event context_Context) : M unit :=
  fun t => (Ok tt, t ++ [e]).

(** [return ..., err] *)
Definition throw {A} (e : error) : M A := fun t => (Err e, t).

(** [v, err := c; if err != nil { return ..., terrors.Propagate(err) }] *)
Definition checked {A} (c : M A) : M A := fun t =>
  let '(o, t') := c t in (propagated o, t').

(** [for _, x := range xs { acc = body(acc, x) }], left as soon as the body
    returns from the function. *)
Fixpoint rangeM {A B} (body : B -> A -> M B) (xs : list A) (acc : B) : M B :=
  match xs with
  | [] => mret acc
  | x :: xs' => acc' ← body acc x; rangeM body xs' acc'
  end.

End Effects.

(** ** Package golang.org/x/crypto/hkdf and io *)

Module hkdf.
Section WithLib.
Context {L : GoLib}.

(** The reader [hkdf.New] returns: the output not read yet. *)
Record reader := { remaining : list byte }.

(** [hkdf.New(sha256.New, secret, salt, info)] *)
Definition New (secret salt info : list byte) : reader :=
  {| remaining := hkdf_sha256_stream secret salt info |}.

(** [f.Read(p)] with [len(p) = n]: either all [n] bytes or none and an
    error. *)
Definition Read (f : reader) (n : nat) : list byte * option error * reader :=
  if (length (remaining f) <? n)%nat
  then ([], Some (Foreign "hkdf" "hkdf: entropy limit reached"), f)
  else (take n (remaining f), None, {| remaining := drop n (remaining f) |}).

End WithLib.
End hkdf.

Module io.
Section WithLib.
Context {L : GoLib}.

(** [io.ReadFull(r, buf)] with [buf = make([]byte, n)], for the reader
    above: the loop of [ReadAtLeast] runs while fewer than [n] bytes are
    read and no error occurred, and this reader delivers all or nothing
    in one [Read]. The result is the filled buffer. *)
Definition ReadFull (r : hkdf.reader) (n : nat) : outcome (list byte) :=
  if (n =? 0)%nat then Ok []
  else
    match hkdf.Read r n with
    | (buf, None, _) => Ok buf
    | (_, Some err, _) => Err err
    end.

End WithLib.
End io.

(** ** Package hashing *)

Module hashing.
Section WithLib.
Context {L : GoLib}.

(** [getPublicKeyFromPublicKeyPayload] *)
Definition getPublicKeyFromPublicKeyPayload (publicKeyPayload : string)
  : outcome ecdsa.PublicKey :=
  publicKeyBytes ← propagated (returned (base64_DecodeString publicKeyPayload));
  publicKey ← propagated (returned (x509_ParsePKIXPublicKey publicKeyBytes));
  (* the type assertion of publicKey to a pointer to ecdsa.PublicKey,
     in its two-result form *)
  match publicKey with
  | x509.ECDSA ecdsaPublicKey => Ok ecdsaPublicKey
  | _ => Err (InternalService ErrInternalService
                "failed to unmarshal into ECDSA" ∅)
  end.

(** [ecdhDeriveSecret] *)
Definition ecdhDeriveSecret (privateKey : ecdsa.PrivateKey)
                            (publicKey : ecdsa.PublicKey)
  : M (list byte) :=
  if negb (P384_IsOnCurve (ecdsa.X publicKey) (ecdsa.Y publicKey)) then
    throw (PreconditionFailed ErrPreconditionFailed
      ("Verified SMS Public Keys should be on curve secp384r1 (elliptic.P384) but this public key is "
       +:+ "not on this curve.")
      (<["public_key.x" := big.String (ecdsa.X publicKey)]>
       (<["public_key.y" := big.String (ecdsa.Y publicKey)]>
        (<["public_key.curve_name" :=
             elliptic.Name (ecdsa.Curve publicKey)]> ∅))))
  else
    let k := big.Bytes (ecdsa.D privateKey) in
    _ ← emit (EvScalarMult (ecdsa.X publicKey) (ecdsa.Y publicKey) k);
    let '(sharedSecret, _) :=
      P384_ScalarMult (ecdsa.X publicKey) (ecdsa.Y publicKey) k in
    mret (big.Bytes sharedSecret).

(** [deriveHashForSMSMessage] *)
Definition deriveHashForSMSMessage (sharedSecret smsMessageContent : list byte)
  : outcome (list byte) :=
  let kdf := hkdf.New sharedSecret [] smsMessageContent in
  hash ← propagated (io.ReadFull kdf 32);
  Ok hash.

(** [GetHashForSMSMessage] *)
Definition GetHashForSMSMessage (publicKeyString : string)
                                (agentPrivateKey : ecdsa.PrivateKey)
                                (smsMessage : list byte)
  : M (list byte) :=
  publicKey ← checked (lift (getPublicKeyFromPublicKeyPayload publicKeyString));
  sharedSecret ← checked (ecdhDeriveSecret agentPrivateKey publicKey);
  lift (deriveHashForSMSMessage sharedSecret smsMessage).

End WithLib.
End hashing.

(** ** Package oauth2 *)

Module oauth2.
Section WithLib.
Context {L : GoLib}.

Definition Scope : string := "https://www.googleapis.com/auth/verifiedsms".

(** [GetHttpClient]. [pem.Decode] returns a nil block when the input
    holds no PEM data, and [block.Bytes] then panics. *)
Definition GetHttpClient (ctx : context_Context) (serviceAccountJSON : string)
  : outcome Client :=
  serviceAccount ←
    propagated (returned (json_Unmarshal_serviceAccountDetails
                            serviceAccountJSON));
  match pem_Decode (bytes_of (PrivateKeyPEM serviceAccount)) with
  | None => Panic "invalid memory address or nil pointer dereference"
  | Some block =>
      Ok {| jwt.Email := ClientEmail serviceAccount;
            jwt.PrivateKey := pem.Bytes block;
            jwt.Scopes := [Scope];
            jwt.TokenURL := google.JWTTokenURL;
            jwt.ctx := ctx |}
  end.

End WithLib.
End oauth2.

(** ** Package verifiedsms *)

Section verifiedsms.

Context {L : GoLib}.

Definition ApiGetPublicKeysUrl : string :=
  "https://verifiedsms.googleapis.com/v1/enabledUserKeys:batchGet".
Definition ApiSubmitHashesUrl : string :=
  "https://verifiedsms.googleapis.com/v1/messages:batchCreate".
Definition ContentTypeHeader : string := "application/json".
Definition UserAgentHeader : string := "monzo/verifiedsms".

Record Partner := { ServiceAccountJSONFile : string }.

Record Agent := {
  ID : string;
  PrivateKey : ecdsa.PrivateKey
}.

(** [http.NewRequest(method, url, bytes.NewReader(body))] *)
Definition http_NewRequest (method url body : string) : outcome http.Request :=
  match http_NewRequest_check method url with
  | Some err => Err err
  | None => Ok {| http.Method := method; http.URL := url;
                  http.Header := ∅; http.Body := body |}
  end.

(** [client.Do(request)]: one event for the call, with the request as the
    program built it. *)
Definition Do (client : Client) (request : http.Request) : M http.Response :=
  fun t => (returned (http_Client_Do t client request),
            t ++ [EvDo client request]).

Definition badStatus (httpResponse : http.Response) : bool :=
  (http.StatusCode httpResponse <? 200) || (299 <? http.StatusCode httpResponse).

(** [GetPhoneNumberPublicKeys] *)
Definition GetPhoneNumberPublicKeys (partner : Partner) (ctx : context_Context)
                                    (phoneNumber : string)
  : M (list string) :=
  requestBody ← checked (lift (returned (json_Marshal_phoneNumbers
                             {[ "phoneNumbers"%string := [phoneNumber] ]})));
  request ← checked (lift (http_NewRequest "POST" ApiGetPublicKeysUrl requestBody));
  let request := http.Header_Set request "Content-Type" ContentTypeHeader in
  let request := http.Header_Set request "User-Agent" UserAgentHeader in
  client ← checked (lift (oauth2.GetHttpClient ctx (ServiceAccountJSONFile partner)));
  httpResponse ← checked (Do client request);
  if badStatus httpResponse then
    throw (InternalService ErrInternalService
             ("bad response from Google: " +:+ http.Status httpResponse) ∅)
  else
  response ← checked (lift (returned (json_Decode_verifiedSMSResponse
                                    (http.ResponseBody httpResponse))));
  let publicKeys :=
    fold_left (fun publicKeys keys =>
                 if bool_decide (PhoneNumber keys = phoneNumber)
                 then publicKeys ++ [PublicKey keys]
                 else publicKeys)
              (UserKeys response) [] in
  mret publicKeys.

(** The body of the inner loop of [MarkSMSAsVerified]. *)
Definition hashEntry (agent : Agent) (publicKey : string)
                     (messagesToGoogle : list messageSubmissionToGoogle)
                     (smsMessageEntry : string)
  : M (list messageSubmissionToGoogle) :=
  _ ← emit (EvHash publicKey (bytes_of smsMessageEntry));
  hash ← checked (hashing.GetHashForSMSMessage publicKey (PrivateKey agent)
                (bytes_of smsMessageEntry));
  mret (messagesToGoogle ++
          [{| Hash := base64_EncodeToString hash; AgentId := ID agent |}]).

(** [MarkSMSAsVerified]: [Ok b] is [(b, nil)], [Err e] is [(false, e)]. *)
Definition MarkSMSAsVerified (partner : Partner) (ctx : context_Context)
                             (phoneNumber : string) (agent : Agent)
                             (smsMessage : string)
  : M bool :=
  publicKeys ← checked (GetPhoneNumberPublicKeys partner ctx phoneNumber);
  if (length publicKeys =? 0)%nat then mret false else
  _ ← emit (EvExpand smsMessage);
  let smsMessages := data_munging.GetAllIterationsOfSMSMessage smsMessage in
  messagesToGoogle ←
    rangeM (fun messagesToGoogle publicKey =>
              rangeM (hashEntry agent publicKey) smsMessages messagesToGoogle)
           publicKeys [];
  let requestStruct := {| Messages := messagesToGoogle |} in
  requestBody ← checked (lift (returned (json_Marshal_batchSubmitRequest
                                       requestStruct)));
  request ← checked (lift (http_NewRequest "POST" ApiSubmitHashesUrl requestBody));
  let request := http.Header_Set request "Content-Type" ContentTypeHeader in
  let request := http.Header_Set request "User-Agent" UserAgentHeader in
  client ← checked (lift (oauth2.GetHttpClient ctx (ServiceAccountJSONFile partner)));
  httpResponse ← checked (Do client request);
  if badStatus httpResponse then
    throw (InternalService ErrInternalService
             ("bad response from Google: " +:+ http.Status httpResponse) ∅)
  else mret true.

End verifiedsms.

(** ** Vocabulary of the specification *)

(** The message starts with white space: its first rune is a space. *)
Definition hasLeadingSpace (s : string) : bool :=
  unicode.IsSpace (fst (utf8.DecodeRuneInString (bytes_of s))).

(** The message ends with white space: its last rune is a space. *)
Definition hasTrailingSpace (s : string) : bool :=
  unicode.IsSpace (fst (utf8.DecodeLastRuneInString (bytes_of s))).

(** The number a big-endian byte slice stands for. *)
Definition valueBE (b : list byte) : Z :=
  fold_left (fun acc x => acc * 256 + bv x) b 0.

Section SpecVocabulary.

Context {L : GoLib}.

(** What hash derivation returns for a (public key, message) pair; by
    [GetHashForSMSMessage_run] below it is the same in every run. *)
Definition hashOutcome (publicKey : string) (agentPrivateKey : ecdsa.PrivateKey)
                       (smsMessage : list byte) : outcome (list byte) :=
  fst (hashing.GetHashForSMSMessage publicKey agentPrivateKey smsMessage []).

(** The events of one hash derivation. *)
Definition hashEvents (publicKey : string) (agentPrivateKey : ecdsa.PrivateKey)
                      (smsMessage : list byte) : trace :=
  snd (hashing.GetHashForSMSMessage publicKey agentPrivateKey smsMessage []).

(** The hash of a pair whose derivation succeeds. *)
Definition hashOf (publicKey : string) (agentPrivateKey : ecdsa.PrivateKey)
                  (smsMessage : list byte) : list byte :=
  match hashOutcome publicKey agentPrivateKey smsMessage with
  | Ok hash => hash
  | _ => []
  end.

(** The entry submitted for a (public key, variant) pair. *)
Definition submission (agent : Agent) (publicKey variant : string)
  : messageSubmissionToGoogle :=
  {| Hash := base64_EncodeToString
               (hashOf publicKey (PrivateKey agent) (bytes_of variant));
     AgentId := ID agent |}.

(** The batch for keys × variants: keys outermost, variants innermost. *)
Definition batchOf (agent : Agent) (publicKeys variants : list string)
  : list messageSubmissionToGoogle :=
  flat_map (fun publicKey => map (submission agent publicKey) variants)
           publicKeys.

(** The request with the headers the program sets. *)
Definition requestTo (url body : string) : http.Request :=
  {| http.Method := "POST"; http.URL := url;
     http.Header := <["User-Agent"%string := [UserAgentHeader]]>
                      (<["Content-Type"%string := [ContentTypeHeader]]> ∅);
     http.Body := body |}.

(** The last leg of [MarkSMSAsVerified]: marshal the batch, build the
    request, get a client, send, and read the status. *)
Definition submitRun (partner : Partner) (ctx : context_Context)
                     (batch : list messageSubmissionToGoogle) (t : trace)
  : outcome bool * trace :=
  match json_Marshal_batchSubmitRequest {| Messages := batch |} with
  | inl e => (Err (Propagate e), t)
  | inr requestBody =>
      match http_NewRequest_check "POST" ApiSubmitHashesUrl with
      | Some e => (Err (Propagate e), t)
      | None =>
          match oauth2.GetHttpClient ctx (ServiceAccountJSONFile partner) with
          | Err e => (Err (Propagate e), t)
          | Panic r => (Panic r, t)
          | Ok client =>
              let request := requestTo ApiSubmitHashesUrl requestBody in
              (match http_Client_Do t client request with
               | inl e => Err (Propagate e)
               | inr httpResponse =>
                   if badStatus httpResponse then
                     Err (InternalService ErrInternalService
                            ("bad response from Google: "
                             +:+ http.Status httpResponse) ∅)
                   else Ok true
               end, t ++ [EvDo client request])
          end
      end
  end.

(** The event is a request sent over HTTP. *)
Definition isRequest (e : event context_Context) : bool :=
  match e with EvDo _ _ => true | _ => false end.

(** The event is a request to the submission endpoint. *)
Definition isSubmission (e : event context_Context) : bool :=
  match e with
  | EvDo _ request => bool_decide (http.URL request = ApiSubmitHashesUrl)
  | _ => false
  end.

End SpecVocabulary.

(** ** Vocabulary for the runs of the orchestrator *)

Section RunVocabulary.

Context {L : GoLib}.

(** The shared secret [ecdhDeriveSecret] computes for a key it accepts. *)
Definition secretOf (privateKey : ecdsa.PrivateKey) (publicKey : ecdsa.PublicKey)
  : list byte :=
  big.Bytes (fst (P384_ScalarMult (ecdsa.X publicKey) (ecdsa.Y publicKey)
                    (big.Bytes (ecdsa.D privateKey)))).

(** The scalar multiplication [ecdhDeriveSecret] performs for a key it
    accepts. *)
Definition scalarMultOf (privateKey : ecdsa.PrivateKey)
                        (publicKey : ecdsa.PublicKey) : event context_Context :=
  EvScalarMult (ecdsa.X publicKey) (ecdsa.Y publicKey)
               (big.Bytes (ecdsa.D privateKey)).

(** One turn of the two loops of [MarkSMSAsVerified], for a (key, variant)
    pair. *)
Definition pairStep (agent : Agent)
                    (messagesToGoogle : list messageSubmissionToGoogle)
                    (pair : string * string)
  : M (list messageSubmissionToGoogle) :=
  hashEntry agent (fst pair) messagesToGoogle (snd pair).

(** The events of that turn. *)
Definition pairEvents (agent : Agent) (pair : string * string) : trace :=
  EvHash (fst pair) (bytes_of (snd pair))
  :: hashEvents (fst pair) (PrivateKey agent) (bytes_of (snd pair)).

(** The derivation for the pair succeeds. *)
Definition pairOk (agent : Agent) (pair : string * string) : bool :=
  isOk (hashOutcome (fst pair) (PrivateKey agent) (bytes_of (snd pair))).

(** The requests among the events. *)
Definition requestsOf (evs : trace) : trace := List.filter isRequest evs.

End RunVocabulary.

(** ** An in-memory double of the libraries and of the two services

    Used for the examples: encodings are transparent, the key container
    format is a table of four payloads, the lookup service knows one phone
    number, and the curve arithmetic is that of P-384 for the scalar 1. *)

Module Fake.

Definition phoneWithKeys : string := "+447700900461".

Definition generator384 : ecdsa.PublicKey :=
  {| ecdsa.Curve := elliptic.P384;
     ecdsa.X := elliptic.Gx elliptic.P384;
     ecdsa.Y := elliptic.Gy elliptic.P384 |}.

Definition generator256 : ecdsa.PublicKey :=
  {| ecdsa.Curve := elliptic.P256;
     ecdsa.X := elliptic.Gx elliptic.P256;
     ecdsa.Y := elliptic.Gy elliptic.P256 |}.

Definition parseKey (b : list byte) : result x509.PublicKey :=
  let s := of_bytes b in
  if bool_decide (s = "EC-P384"%string) then inr (x509.ECDSA generator384)
  else if bool_decide (s = "EC-P256"%string) then inr (x509.ECDSA generator256)
  else if bool_decide (s = "ED25519"%string) then inr (x509.Ed25519 [])
  else if bool_decide (s = "RSA"%string) then inr (x509.RSA 3233 17)
  else inl (Foreign "x509" "failed to parse public key").

Definition decodeResponse (body : string) : result verifiedSMSResponse :=
  if bool_decide (body = phoneWithKeys) then
    inr {| UserKeys :=
             [ {| PhoneNumber := phoneWithKeys; PublicKey := "EC-P384" |};
               {| PhoneNumber := "+447700900999"; PublicKey := "EC-P256" |};
               {| PhoneNumber := phoneWithKeys; PublicKey := "RSA" |} ] |}
  else if bool_decide (body = "+447700900123"%string) then
    inr {| UserKeys :=
             [ {| PhoneNumber := "+447700900123"; PublicKey := "EC-P384" |} ] |}
  else if bool_decide (body = "garbage"%string) then
    inl (Foreign "json" "invalid character")
  else inr {| UserKeys := [] |}.

(** The lookup service echoes the request body, which [decodeResponse]
    reads as a phone number; the submission service accepts everything. *)
Definition serve (request : http.Request) : result http.Response :=
  inr {| http.StatusCode := 200; http.Status := "200 OK";
         http.ResponseBody := http.Body request |}.

#[refine] Definition lib : GoLib := {|
  context_Context := unit;
  json_Marshal_phoneNumbers m :=
    inr (String.concat "," (default [] (m !! "phoneNumbers"%string)));
  json_Marshal_batchSubmitRequest r :=
    inr (String.concat ";"
           (map (fun m => Hash m +:+ ":" +:+ AgentId m) (Messages r)));
  json_Unmarshal_serviceAccountDetails s :=
    if bool_decide (s = EmptyString)
    then inl (Foreign "json" "unexpected end of JSON input")
    else inr {| PrivateKeyPEM := s; ClientEmail := "sa@example.com" |};
  json_Decode_verifiedSMSResponse := decodeResponse;
  pem_Decode b :=
    if bool_decide (b = []) then None
    else Some {| pem.Type_ := "PRIVATE KEY"; pem.Bytes := b |};
  http_NewRequest_check _ _ := None;
  http_Client_Do _ _ request := serve request;
  base64_EncodeToString := of_bytes;
  base64_DecodeString s := inr (bytes_of s);
  x509_ParsePKIXPublicKey := parseKey;
  P384_IsOnCurve := elliptic.IsOnCurve elliptic.P384;
  P384_ScalarMult x y _ := (x, y);
  hkdf_sha256_stream secret _ info :=
    take (255 * 32) (info ++ secret ++ repeat x00 (255 * 32))
|}.
Proof.
  intros x y. unfold elliptic.IsOnCurve. by case_match.
Defined.

Definition partner : Partner := {| ServiceAccountJSONFile := "foobar" |}.

Definition agent : Agent :=
  {| ID := "barbaz";
     PrivateKey := {| ecdsa.Public := generator384; ecdsa.D := 1 |} |}.

(** The client [oauth2.GetHttpClient] makes for [partner]. *)
Definition client : jwt.Config unit :=
  {| jwt.Email := "sa@example.com";
     jwt.PrivateKey := bytes_of "foobar";
     jwt.Scopes := [oauth2.Scope];
     jwt.TokenURL := google.JWTTokenURL;
     jwt.ctx := tt |}.

(** [partner.MarkSMSAsVerified] and [partner.GetPhoneNumberPublicKeys]
    on the double. *)
Definition mark : string -> Agent -> string -> M (L := lib) bool :=
  MarkSMSAsVerified (L := lib) partner tt.
Definition resolve : string -> M (L := lib) (list string) :=
  GetPhoneNumberPublicKeys (L := lib) partner tt.

End Fake.


(** ** A double whose services fail

    As [Fake], except that the lookup service answers 503 for one phone
    number, the submission service answers 500 or, for one message, cannot
    be reached, and the service-account file ["no-pem"] holds a key that is
    not PEM. *)

Module Flaky.

Definition phoneDown : string := "+447700900503".

Definition serve (request : http.Request) : result http.Response :=
  if bool_decide (http.URL request = ApiSubmitHashesUrl) then
    inr {| http.StatusCode := 500;
           http.Status := "500 Internal Server Error";
           http.ResponseBody := EmptyString |}
  else if bool_decide (http.Body request = phoneDown) then
    inr {| http.StatusCode := 503;
           http.Status := "503 Service Unavailable";
           http.ResponseBody := EmptyString |}
  else Fake.serve request.

(** The message has been expanded in the run so far. *)
Definition expanded (msg : string) (t : list (event unit)) : bool :=
  existsb (fun e => match e with
                    | EvExpand m => bool_decide (m = msg)
                    | _ => false
                    end) t.

(** The connection to the submission service breaks for the message
    ["offline"]. *)
Definition network (t : list (event unit)) (request : http.Request)
  : result http.Response :=
  if bool_decide (http.URL request = ApiSubmitHashesUrl) && expanded "offline" t
  then inl (Foreign "net/http" "connection reset by peer")
  else serve request.

#[refine] Definition lib : GoLib := {|
  context_Context := unit;
  json_Marshal_phoneNumbers := json_Marshal_phoneNumbers (GoLib := Fake.lib);
  json_Marshal_batchSubmitRequest :=
    json_Marshal_batchSubmitRequest (GoLib := Fake.lib);
  json_Unmarshal_serviceAccountDetails s :=
    inr {| PrivateKeyPEM := s; ClientEmail := "sa@example.com" |};
  json_Decode_verifiedSMSResponse := Fake.decodeResponse;
  pem_Decode b :=
    if bool_decide (of_bytes b = "no-pem"%string) then None
    else Some {| pem.Type_ := "PRIVATE KEY"; pem.Bytes := b |};
  http_NewRequest_check _ _ := None;
  http_Client_Do t _ request := network t request;
  base64_EncodeToString := of_bytes;
  base64_DecodeString s := inr (bytes_of s);
  x509_ParsePKIXPublicKey := Fake.parseKey;
  P384_IsOnCurve := elliptic.IsOnCurve elliptic.P384;
  P384_ScalarMult x y _ := (x, y);
  hkdf_sha256_stream := hkdf_sha256_stream (GoLib := Fake.lib)
|}.
Proof.
  intros x y. unfold elliptic.IsOnCurve. by case_match.
Defined.

Definition partnerNoPem : Partner := {| ServiceAccountJSONFile := "no-pem" |}.

Definition mark : string -> Agent -> string -> M (L := lib) bool :=
  MarkSMSAsVerified (L := lib) Fake.partner tt.
Definition resolve : string -> M (L := lib) (list string) :=
  GetPhoneNumberPublicKeys (L := lib) Fake.partner tt.

End Flaky.

(** * Properties *)

(** ** Runs on concrete inputs *)

Example trim_hello : strings.TrimSpace "  hello  " = "hello"%string.
Proof. vm_compute. reflexivity. Qed.

(* a tab before, a line feed after *)
Example trim_tabs :
  strings.TrimSpace (String "009" ("a b" ++ String "010" EmptyString))
  = "a b"%string.
Proof. vm_compute. reflexivity. Qed.

(* U+00A0 is C2 A0, U+2003 is E2 80 83 *)
Example trim_nbsp :
  strings.TrimSpace
    (String "194" (String "160"
       ("x" ++ String "226" (String "128" (String "131" EmptyString)))))
  = "x"%string.
Proof. vm_compute. reflexivity. Qed.

(* a stray continuation byte and a truncated encoding are not space *)
Example trim_invalid :
  strings.TrimSpace (String "160" (" x " ++ String "194" EmptyString))
  = String "160" (" x " ++ String "194" EmptyString).
Proof. vm_compute. reflexivity. Qed.

Example decode_euro :
  utf8.DecodeRuneInString [xe2; x82; xac; x21] = (0x20AC, 3%nat) /\
  utf8.DecodeLastRuneInString [x21; xe2; x82; xac] = (0x20AC, 3%nat).
Proof. split; reflexivity. Qed.

Example decode_overlong :
  utf8.DecodeRuneInString [xc0; x80] = (utf8.RuneError, 1%nat).
Proof. reflexivity. Qed.

Example variants_hello :
  data_munging.GetAllIterationsOfSMSMessage "hello!" = ["hello!"%string].
Proof. vm_compute. reflexivity. Qed.

Example big_Bytes_258 : big.Bytes 258 = [x01; x02] /\ big.Bytes 0 = [].
Proof. split; reflexivity. Qed.

Example big_String_neg : big.String (-42) = "-42"%string.
Proof. reflexivity. Qed.

Example P384_generator_on_curve :
  elliptic.IsOnCurve elliptic.P384
    (elliptic.Gx elliptic.P384) (elliptic.Gy elliptic.P384) = true /\
  elliptic.IsOnCurve elliptic.P384
    (elliptic.Gx elliptic.P256) (elliptic.Gy elliptic.P256) = false.
Proof. split; vm_compute; reflexivity. Qed.

Example fake_mark_hello :
  fst (MarkSMSAsVerified (L := Fake.lib) Fake.partner tt "+447700900123"
         Fake.agent "hello!" []) = Ok true.
Proof. vm_compute. reflexivity. Qed.

Example fake_mark_nokeys :
  MarkSMSAsVerified (L := Fake.lib) Fake.partner tt "+447700900000"
         Fake.agent "hello!" []
  = (Ok false, [EvDo Fake.client (requestTo ApiGetPublicKeysUrl "+447700900000")]).
Proof. vm_compute. reflexivity. Qed.

(** ** Bytes, runes and white space *)

Section Utf8Facts.

Import utf8.

Lemma bv_range (b : byte) : 0 <= bv b < 256.
Proof.
  unfold bv. pose proof (Byte.to_N_bounded b). lia.
Qed.

Lemma byteAt_cons_0 (b : byte) (s : list byte) : byteAt (b :: s) 0 = bv b.
Proof. reflexivity. Qed.

Lemma byteAt_drop (s : list byte) (i j : nat) :
  byteAt (drop i s) j = byteAt s (i + j).
Proof. unfold byteAt. by rewrite lookup_drop. Qed.

(** Outside ASCII and the invalid bytes, [first] holds a size of 2, 3 or 4. *)
Lemma first_size (b : Z) :
  (as_ <=? first b) = false ->
  (2 <= Z.to_nat (Z.land (first b) 7) <= 4)%nat.
Proof.
  unfold first.
  repeat (case_match; [vm_compute; try discriminate; intros; lia | ]).
  vm_compute. discriminate.
Qed.

Lemma first_ascii (b : Z) : b < RuneSelf -> first b = as_.
Proof.
  unfold first, RuneSelf. intros Hb.
  destruct (Z.ltb_spec b 0x80); [done | lia].
Qed.

(** An ASCII byte decodes to itself, with width 1. *)
Lemma DecodeRuneInString_ascii (b : byte) (s : list byte) :
  bv b < RuneSelf -> DecodeRuneInString (b :: s) = (bv b, 1%nat).
Proof.
  intros Hb. unfold DecodeRuneInString.
  cbn [length Nat.ltb Nat.leb]. rewrite byteAt_cons_0, first_ascii by done.
  cbn -[Z.land Z.lor Z.lnot bv].
  f_equal. change (Z.lnot 0) with (-1).
  rewrite Z.land_m1_r, Z.land_0_r, Z.lor_0_r. done.
Qed.

(** A rune takes at least one byte and no more than there are. *)
Lemma DecodeRuneInString_width (s : list byte) :
  s <> [] ->
  (1 <= snd (DecodeRuneInString s) <= length s)%nat.
Proof.
  intros Hs. destruct s as [|b s]; [done|].
  unfold DecodeRuneInString.
  set (n := length (b :: s)).
  assert (1 <= n)%nat by (subst n; cbn; lia).
  destruct (Nat.ltb_spec n 1); [lia|].
  destruct (as_ <=? first (byteAt (b :: s) 0)) eqn:Hfirst; [cbn; lia|].
  pose proof (first_size _ Hfirst) as Hsz.
  set (sz := Z.to_nat (Z.land (first (byteAt (b :: s) 0)) 7)) in *.
  destruct (Nat.ltb_spec n sz); [cbn; lia|].
  repeat (case_match; cbn [snd]; try lia).
  all: repeat match goal with
       | H : (_ <=? _)%nat = true |- _ => apply Nat.leb_le in H
       | H : (_ <=? _)%nat = false |- _ => apply Nat.leb_gt in H
       end; lia.
Qed.

Lemma DecodeRuneInString_single (b : byte) :
  snd (DecodeRuneInString [b]) = 1%nat.
Proof.
  pose proof (DecodeRuneInString_width [b]) as H. cbn [length] in H.
  specialize (H ltac:(done)). lia.
Qed.

Lemma lastRuneStart_le (s : list byte) (k : nat) (start : Z) :
  lastRuneStart s k start <= start.
Proof.
  revert start. induction k as [|k IH]; intros start; cbn; [lia|].
  case_match; [lia|]. specialize (IH (start - 1)). lia.
Qed.

(** The last rune of a non-empty string: its width [size] is between 1
    and the length, and decoding forwards from where it starts gives the
    same width; it starts with an ASCII byte only when it is that byte. *)
Lemma DecodeLastRuneInString_width (s : list byte) (r : Z) (size : nat) :
  s <> [] ->
  DecodeLastRuneInString s = (r, size) ->
  (1 <= size <= length s)%nat /\
  (if RuneSelf <=? byteAt s (length s - size)
   then snd (DecodeRuneInString (drop (length s - size) s)) = size
   else size = 1%nat).
Proof.
  intros Hs. unfold DecodeLastRuneInString.
  assert (Hn : (1 <= length s)%nat) by (destruct s; [done | cbn; lia]).
  destruct (Z.eqb_spec (Z.of_nat (length s)) 0); [lia|].
  replace (Z.to_nat (Z.of_nat (length s) - 1)) with (length s - 1)%nat by lia.
  destruct (Z.ltb_spec (byteAt s (length s - 1)) RuneSelf) as [Hlt|Hge].
  { intros [= <- <-]. split; [lia|].
    destruct (Z.leb_spec RuneSelf (byteAt s (length s - 1))); [lia | done]. }
  set (start0 := lastRuneStart s _ _).
  assert (Hstart0 : start0 <= Z.of_nat (length s) - 2)
    by apply lastRuneStart_le.
  set (start := if start0 <? 0 then 0 else start0).
  assert (Hstart : 0 <= start < Z.of_nat (length s)).
  { subst start. destruct (Z.ltb_spec start0 0); lia. }
  clearbody start. clear start0 Hstart0.
  destruct (DecodeRuneInString (drop (Z.to_nat start) s)) as [r' size'] eqn:Hdec.
  destruct (Z.eqb_spec (start + Z.of_nat size') (Z.of_nat (length s))) as [Heq|Hne];
    cbn [negb].
  - intros [= <- <-].
    replace (length s - size')%nat with (Z.to_nat start) by lia.
    split; [lia|]. rewrite Hdec. cbn [snd].
    destruct (Z.leb_spec RuneSelf (byteAt s (Z.to_nat start))) as [|Hascii]; [done|].
    destruct (drop (Z.to_nat start) s) as [|b t] eqn:Hdrop.
    { apply (f_equal length) in Hdrop. rewrite length_drop in Hdrop.
      cbn in Hdrop. lia. }
    assert (Hb : byteAt s (Z.to_nat start) = bv b).
    { rewrite <- (Nat.add_0_r (Z.to_nat start)), <- byteAt_drop, Hdrop.
      reflexivity. }
    rewrite DecodeRuneInString_ascii in Hdec by lia.
    by inversion Hdec.
  - intros [= <- <-]. split; [lia|].
    destruct (Z.leb_spec RuneSelf (byteAt s (length s - 1))); [|lia].
    destruct (drop (length s - 1) s) as [|b t] eqn:Hdrop.
    { apply (f_equal length) in Hdrop. rewrite length_drop in Hdrop.
      cbn in Hdrop. lia. }
    assert (t = []) as ->.
    { apply (f_equal length) in Hdrop. rewrite length_drop in Hdrop.
      cbn in Hdrop. destruct t; [done | cbn in Hdrop; lia]. }
    apply DecodeRuneInString_single.
Qed.

(** A string that ends with an ASCII byte has that byte as last rune. *)
Lemma DecodeLastRuneInString_ascii (s : list byte) (b : byte) :
  bv b < RuneSelf ->
  DecodeLastRuneInString (s ++ [b]) = (bv b, 1%nat).
Proof.
  intros Hb. unfold DecodeLastRuneInString.
  rewrite length_app. cbn [length].
  destruct (Z.eqb_spec (Z.of_nat (length s + 1)) 0); [lia|].
  replace (Z.to_nat (Z.of_nat (length s + 1) - 1)) with (length s) by lia.
  assert (byteAt (s ++ [b]) (length s) = bv b) as ->.
  { unfold byteAt. by rewrite list_lookup_middle. }
  destruct (Z.ltb_spec (bv b) RuneSelf); [done | lia].
Qed.

(** On ASCII, [unicode.IsSpace] is the table [asciiSpace]. *)
Lemma IsSpace_ascii (c : Z) :
  0 <= c < RuneSelf -> unicode.IsSpace c = strings.asciiSpace c.
Proof.
  unfold RuneSelf, unicode.IsSpace, unicode.MaxLatin1, strings.asciiSpace.
  intros Hc.
  destruct (Z.leb_spec 0 c); [|lia].
  destruct (Z.leb_spec c 0xFF); [|lia]. cbn [andb].
  destruct (Z.eqb_spec c 0x85); [lia|].
  destruct (Z.eqb_spec c 0xA0); [lia|].
  by rewrite !orb_false_r.
Qed.

End Utf8Facts.

(** ** [big.Int.Bytes] *)

Section BigFacts.

Lemma bv_of_N (n : Z) :
  0 <= n < 256 -> bv (default x00 (Byte.of_N (Z.to_N n))) = n.
Proof.
  intros Hn. unfold bv.
  destruct (Byte.of_N (Z.to_N n)) as [b|] eqn:Hb.
  - apply Byte.to_of_N in Hb. unfold default; cbn [from_option id].
    rewrite Hb. lia.
  - pose proof (Byte.to_of_N_option_map (Z.to_N n)) as Hmap.
    rewrite Hb in Hmap. cbn [option_map] in Hmap.
    destruct (N.leb_spec (Z.to_N n) 255); [done | lia].
Qed.

(** The fuel of [bytesLE] is enough: the bytes stand for the number. *)
Lemma bytesLE_value (fuel : nat) (n : Z) :
  0 <= n < 256 ^ Z.of_nat fuel ->
  fold_right (fun x acc => acc * 256 + bv x) 0 (big.bytesLE fuel n) = n.
Proof.
  revert n. induction fuel as [|fuel IH]; intros n Hn.
  - cbn in *. lia.
  - cbn [big.bytesLE]. destruct (Z.eqb_spec n 0) as [->|Hnz]; [done|].
    cbn [fold_right].
    rewrite bv_of_N by (apply Z.mod_pos_bound; lia).
    rewrite IH.
    + pose proof (Z.div_mod n 256 ltac:(lia)). lia.
    + rewrite Nat2Z.inj_succ, Z.pow_succ_r in Hn by lia.
      split; [apply Z.div_pos; lia|].
      apply Z.div_lt_upper_bound; lia.
Qed.

Lemma Bytes_value (x : Z) : valueBE (big.Bytes x) = Z.abs x.
Proof.
  unfold valueBE, big.Bytes.
  rewrite <- fold_left_rev_right, rev_involutive.
  set (n := Z.abs x). assert (0 <= n) by (subst n; lia).
  apply bytesLE_value.
  destruct (Z.eq_dec n 0) as [->|Hnz].
  { split; [lia|]. apply Z.pow_pos_nonneg; lia. }
  pose proof (Z.log2_spec n ltac:(lia)) as [_ Hlt].
  pose proof (Z.log2_nonneg n).
  split; [lia|].
  rewrite Nat2Z.inj_succ, Z2Nat.id by lia.
  eapply Z.lt_le_trans; [exact Hlt|].
  apply Z.pow_le_mono_l. lia.
Qed.

End BigFacts.

(** ** [strings.TrimSpace] on strings without surrounding white space *)

Section TrimFacts.

Import utf8 strings.

(** The loops never run out of fuel: any amount that covers the string
    gives the same result. *)
Lemma trimLeftLoop_fuel (f : Z -> bool) (fuel1 fuel2 : nat) (s : list byte) :
  (length s <= fuel1)%nat -> (length s <= fuel2)%nat ->
  trimLeftLoop f fuel1 s = trimLeftLoop f fuel2 s.
Proof.
  revert fuel2 s. induction fuel1 as [|fuel1 IH]; intros fuel2 s H1 H2.
  - destruct s; [|cbn in H1; lia]. by destruct fuel2.
  - destruct s as [|b s]; [by destruct fuel2|].
    destruct fuel2 as [|fuel2]; [cbn in H2; lia|].
    cbn [trimLeftLoop].
    pose proof (DecodeRuneInString_width (b :: s) ltac:(done)) as Hw.
    destruct (DecodeRuneInString (b :: s)) as [r w]. cbn [snd] in Hw.
    destruct (f r); [|done].
    apply IH; rewrite length_drop; cbn [length] in *; lia.
Qed.

Lemma lastIndexLoop_fuel (f : Z -> bool) (s : list byte)
                         (fuel1 fuel2 i : nat) :
  (i <= length s)%nat -> (i < fuel1)%nat -> (i < fuel2)%nat ->
  lastIndexLoop f fuel1 s i = lastIndexLoop f fuel2 s i.
Proof.
  revert fuel2 i. induction fuel1 as [|fuel1 IH]; intros fuel2 i Hi H1 H2;
    [lia|].
  destruct fuel2 as [|fuel2]; [lia|]. cbn [lastIndexLoop].
  destruct (Nat.ltb_spec 0 i); [|done].
  assert (Hlen : length (take i s) = i) by (rewrite length_take; lia).
  assert (Hne : take i s <> []) by (intros Hnil; rewrite Hnil in Hlen; cbn in Hlen; lia).
  destruct (DecodeLastRuneInString (take i s)) as [r size] eqn:Hlast.
  destruct (DecodeLastRuneInString_width _ _ _ Hne Hlast) as [Hsize _].
  rewrite Hlen in Hsize.
  destruct (f r); cbn [negb]; [|done].
  apply IH; lia.
Qed.

Lemma TrimLeftFunc_id (f : Z -> bool) (s : list byte) :
  f (fst (DecodeRuneInString s)) = false -> TrimLeftFunc s f = s.
Proof.
  intros Hf. unfold TrimLeftFunc. destruct s as [|b s]; [done|].
  cbn [length trimLeftLoop].
  destruct (DecodeRuneInString (b :: s)) as [r w]. cbn [fst] in Hf.
  by rewrite Hf.
Qed.

Lemma TrimRightFunc_id (f : Z -> bool) (s : list byte) :
  f (fst (DecodeLastRuneInString s)) = false -> TrimRightFunc s f = s.
Proof.
  intros Hf. unfold TrimRightFunc, lastIndexFunc.
  destruct (decide (s = [])) as [->|Hs]; [done|].
  assert (0 < length s)%nat by (destruct s; [done | cbn; lia]).
  cbn [lastIndexLoop].
  destruct (Nat.ltb_spec 0 (length s)); [|lia].
  rewrite firstn_all.
  destruct (DecodeLastRuneInString s) as [r size] eqn:Hlast.
  cbn [fst] in Hf. rewrite Hf. cbn [negb].
  destruct (DecodeLastRuneInString_width s r size Hs Hlast) as [Hsize Hfwd].
  destruct (RuneSelf <=? byteAt s (length s - size)).
  - destruct (DecodeRuneInString (drop (length s - size) s)) as [r' wid].
    cbn [snd] in Hfwd. subst wid.
    replace (length s - size + size)%nat with (length s) by lia.
    apply firstn_all.
  - subst size.
    replace (length s - 1 + 1)%nat with (length s) by lia.
    apply firstn_all.
Qed.

Lemma TrimFunc_id (f : Z -> bool) (s : list byte) :
  f (fst (DecodeRuneInString s)) = false ->
  f (fst (DecodeLastRuneInString s)) = false ->
  TrimFunc s f = s.
Proof.
  intros Hl Hr. unfold TrimFunc.
  rewrite TrimLeftFunc_id by done. by apply TrimRightFunc_id.
Qed.

(** A string whose first and last runes are not white space is left as
    it is. *)
Lemma TrimSpaceBytes_id (s : list byte) :
  unicode.IsSpace (fst (DecodeRuneInString s)) = false ->
  unicode.IsSpace (fst (DecodeLastRuneInString s)) = false ->
  TrimSpaceBytes s = s.
Proof.
  intros Hl Hr. unfold TrimSpaceBytes.
  destruct s as [|c s]; [done|].
  cbn [scanStart].
  destruct (Z.leb_spec RuneSelf (bv c)) as [|Hc].
  { by apply TrimFunc_id. }
  pose proof (bv_range c). pose proof Hl as Hl0.
  rewrite DecodeRuneInString_ascii in Hl by done. cbn [fst] in Hl.
  rewrite IsSpace_ascii in Hl by lia. rewrite Hl.
  destruct (rev (c :: s)) as [|d r] eqn:Hrev.
  { apply (f_equal length) in Hrev. rewrite length_rev in Hrev. done. }
  assert (Hs : c :: s = rev r ++ [d]).
  { rewrite <- (rev_involutive (c :: s)), Hrev. reflexivity. }
  cbn [scanStop].
  destruct (Z.leb_spec RuneSelf (bv d)) as [|Hd].
  { rewrite <- Hrev, rev_involutive. by apply TrimFunc_id. }
  pose proof (bv_range d).
  rewrite Hs, DecodeLastRuneInString_ascii in Hr by done. cbn [fst] in Hr.
  rewrite IsSpace_ascii in Hr by lia. rewrite Hr.
  rewrite Hs. cbn [rev]. done.
Qed.

Lemma TrimSpace_id (s : string) :
  hasLeadingSpace s = false -> hasTrailingSpace s = false ->
  TrimSpace s = s.
Proof.
  unfold hasLeadingSpace, hasTrailingSpace, TrimSpace. intros Hl Hr.
  rewrite TrimSpaceBytes_id by done.
  apply string_of_list_byte_of_string.
Qed.

End TrimFacts.

(** ** The variant generator *)

Section Variants.

Import data_munging.

Lemma GetAllIterationsOfSMSMessage_cases (msg : string) :
  (strings.TrimSpace msg = msg /\ GetAllIterationsOfSMSMessage msg = [msg]) \/
  (strings.TrimSpace msg <> msg /\
   GetAllIterationsOfSMSMessage msg = [msg; msg]).
Proof.
  unfold GetAllIterationsOfSMSMessage. case_bool_decide; [right | left].
  - done.
  - split; [|done]. by destruct (decide (strings.TrimSpace msg = msg)).
Qed.

(** Whenever trimming changes the message, the expansion is the original
    twice. *)
Lemma GetAllIterationsOfSMSMessage_trimmed (msg : string) :
  strings.TrimSpace msg <> msg ->
  GetAllIterationsOfSMSMessage msg = [msg; msg].
Proof.
  intros Hne. destruct (GetAllIterationsOfSMSMessage_cases msg) as [[]|[]]; done.
Qed.

(** C1, at the message ["  hello  "]: trimming gives ["hello"], which
    differs from the message, and the expansion is the message twice; its
    second entry is not the trimmed form and the sequence has a duplicate. *)
Theorem C1_trimmed_variant_is_the_original :
  let msg := "  hello  "%string in
  strings.TrimSpace msg = "hello"%string /\
  strings.TrimSpace msg <> msg /\
  GetAllIterationsOfSMSMessage msg = [msg; msg] /\
  GetAllIterationsOfSMSMessage msg !! 1%nat <> Some (strings.TrimSpace msg) /\
  ~ NoDup (GetAllIterationsOfSMSMessage msg).
Proof.
  cbv zeta.
  assert (Ht : strings.TrimSpace "  hello  " = "hello"%string)
    by (vm_compute; reflexivity).
  assert (Hne : strings.TrimSpace "  hello  " <> "  hello  "%string)
    by (rewrite Ht; discriminate).
  rewrite (GetAllIterationsOfSMSMessage_trimmed _ Hne).
  split; [exact Ht|]. split; [exact Hne|]. split; [reflexivity|]. split.
  - rewrite Ht. cbn. discriminate.
  - intros Hnd. apply NoDup_cons in Hnd as [Hin _].
    apply Hin. by left.
Qed.

(** C6: the expansion is never empty and starts with the message as
    given; a message with no white space at either end expands to itself
    alone. *)
Theorem C6_first_is_original (msg : string) :
  GetAllIterationsOfSMSMessage msg <> [] /\
  head (GetAllIterationsOfSMSMessage msg) = Some msg /\
  (hasLeadingSpace msg = false -> hasTrailingSpace msg = false ->
   GetAllIterationsOfSMSMessage msg = [msg] /\
   length (GetAllIterationsOfSMSMessage msg) = 1%nat).
Proof.
  split_and!.
  - destruct (GetAllIterationsOfSMSMessage_cases msg) as [[_ ->]|[_ ->]]; done.
  - destruct (GetAllIterationsOfSMSMessage_cases msg) as [[_ ->]|[_ ->]]; done.
  - intros Hl Hr. pose proof (TrimSpace_id msg Hl Hr) as Hid.
    destruct (GetAllIterationsOfSMSMessage_cases msg) as [[_ ->]|[Hne _]]; done.
Qed.

Lemma C6_first_is_original_witness :
  hasLeadingSpace "hello!" = false /\ hasTrailingSpace "hello!" = false /\
  GetAllIterationsOfSMSMessage "hello!" = ["hello!"%string].
Proof.
  split; [reflexivity|]. split; [reflexivity|].
  apply (C6_first_is_original "hello!"); reflexivity.
Defined.

(** Every variant is the message itself, and there are at most two. *)
Lemma GetAllIterationsOfSMSMessage_all_original (msg : string) :
  Forall (fun v => v = msg) (GetAllIterationsOfSMSMessage msg) /\
  (length (GetAllIterationsOfSMSMessage msg) <= 2)%nat.
Proof.
  destruct (GetAllIterationsOfSMSMessage_cases msg) as [[_ ->]|[_ ->]];
    (split; [repeat constructor | cbn; lia]).
Qed.

End Variants.

(** ** Hash derivation *)

Section HashingFacts.

Context {L : GoLib}.

Import hashing.

(** Unfold the plumbing of the two monads. *)
Ltac run :=
  unfold mbind, mret, M_bind, M_ret, outcome_bind, outcome_ret,
         checked, lift, throw, emit, propagated, returned in *;
  cbn beta iota in *.

Lemma ReadFull_length (r : hkdf.reader) (n : nat) (buf : list byte) :
  io.ReadFull r n = Ok buf -> length buf = n.
Proof.
  unfold io.ReadFull, hkdf.Read.
  destruct (Nat.eqb_spec n 0) as [->|Hn]; [by intros [= <-]|].
  destruct (Nat.ltb_spec (length (hkdf.remaining r)) n); [done|].
  intros [= <-]. rewrite length_take. lia.
Qed.

Lemma deriveHashForSMSMessage_length (sharedSecret msg hash : list byte) :
  deriveHashForSMSMessage sharedSecret msg = Ok hash -> length hash = 32%nat.
Proof.
  unfold deriveHashForSMSMessage. run.
  destruct (io.ReadFull _ _) as [buf| |] eqn:Hread; [|done..].
  intros [= <-]. by apply ReadFull_length in Hread.
Qed.

Lemma deriveHashForSMSMessage_no_panic (sharedSecret msg : list byte) (r : string) :
  deriveHashForSMSMessage sharedSecret msg <> Panic r.
Proof.
  unfold deriveHashForSMSMessage, io.ReadFull. run.
  repeat case_match; done.
Qed.

Lemma getPublicKeyFromPublicKeyPayload_no_panic (payload r : string) :
  getPublicKeyFromPublicKeyPayload payload <> Panic r.
Proof.
  unfold getPublicKeyFromPublicKeyPayload. run.
  repeat case_match; done.
Qed.

(** A run of [ecdhDeriveSecret] from any trace: the result does not
    depend on the trace, and the trace grows by the events of the run. *)
Lemma ecdhDeriveSecret_run (privateKey : ecdsa.PrivateKey)
                           (publicKey : ecdsa.PublicKey) (t : trace) :
  ecdhDeriveSecret privateKey publicKey t =
  (fst (ecdhDeriveSecret privateKey publicKey []),
   t ++ snd (ecdhDeriveSecret privateKey publicKey [])).
Proof.
  unfold ecdhDeriveSecret. run.
  destruct (P384_IsOnCurve _ _); cbn [negb fst snd].
  - destruct (P384_ScalarMult _ _ _). reflexivity.
  - by rewrite app_nil_r.
Qed.

(** The same for [GetHashForSMSMessage]. *)
Lemma GetHashForSMSMessage_run (publicKey : string)
                               (agentPrivateKey : ecdsa.PrivateKey)
                               (smsMessage : list byte) (t : trace) :
  GetHashForSMSMessage publicKey agentPrivateKey smsMessage t =
  (hashOutcome publicKey agentPrivateKey smsMessage,
   t ++ hashEvents publicKey agentPrivateKey smsMessage).
Proof.
  unfold hashOutcome, hashEvents, GetHashForSMSMessage.
  unfold mbind, M_bind, checked, lift.
  destruct (getPublicKeyFromPublicKeyPayload publicKey) as [key|e|r];
    cbn [propagated fst snd]; rewrite ?app_nil_r; try reflexivity.
  rewrite (ecdhDeriveSecret_run _ _ t).
  destruct (ecdhDeriveSecret agentPrivateKey key []) as [[secret|e|r] evs];
    cbn [propagated fst snd]; reflexivity.
Qed.

Lemma hashOutcome_length publicKey agentPrivateKey smsMessage hash :
  hashOutcome publicKey agentPrivateKey smsMessage = Ok hash ->
  length hash = 32%nat.
Proof.
  unfold hashOutcome, GetHashForSMSMessage, ecdhDeriveSecret. run.
  destruct (getPublicKeyFromPublicKeyPayload publicKey) as [key|e|r];
    [|done..].
  destruct (P384_IsOnCurve _ _); cbn [negb fst]; [|done].
  destruct (P384_ScalarMult _ _ _). cbn [fst].
  apply deriveHashForSMSMessage_length.
Qed.

Lemma hashOutcome_no_panic publicKey agentPrivateKey smsMessage r :
  hashOutcome publicKey agentPrivateKey smsMessage <> Panic r.
Proof.
  unfold hashOutcome, GetHashForSMSMessage, ecdhDeriveSecret. run.
  pose proof (getPublicKeyFromPublicKeyPayload_no_panic publicKey) as Hkey.
  destruct (getPublicKeyFromPublicKeyPayload publicKey) as [key|e|r'];
    [|cbn; done|by destruct (Hkey r')].
  destruct (P384_IsOnCurve _ _); cbn [negb fst]; [|done].
  destruct (P384_ScalarMult _ _ _). cbn [fst].
  apply deriveHashForSMSMessage_no_panic.
Qed.

(** Hash derivation sends nothing. *)
Lemma hashEvents_no_request publicKey agentPrivateKey smsMessage :
  Forall (fun e => isRequest e = false)
         (hashEvents publicKey agentPrivateKey smsMessage).
Proof.
  unfold hashEvents, GetHashForSMSMessage, ecdhDeriveSecret. run.
  destruct (getPublicKeyFromPublicKeyPayload publicKey) as [key|e|r];
    cbn [snd]; [|done..].
  destruct (P384_IsOnCurve _ _); cbn [negb snd]; [|done].
  destruct (P384_ScalarMult _ _ _). cbn [snd].
  by repeat constructor.
Qed.

End HashingFacts.

Section HashingClaims.

Context {L : GoLib}.

Import hashing.

(** The error [ecdhDeriveSecret] returns for a key it rejects. *)
Lemma ecdhDeriveSecret_rejected privateKey publicKey (t : trace) :
  P384_IsOnCurve (ecdsa.X publicKey) (ecdsa.Y publicKey) = false ->
  exists message params,
    ecdhDeriveSecret privateKey publicKey t
    = (Err (PreconditionFailed ErrPreconditionFailed message params), t) /\
    params !! "public_key.x"%string = Some (big.String (ecdsa.X publicKey)) /\
    params !! "public_key.y"%string = Some (big.String (ecdsa.Y publicKey)) /\
    params !! "public_key.curve_name"%string
    = Some (elliptic.Name (ecdsa.Curve publicKey)).
Proof.
  intros Hoff. unfold ecdhDeriveSecret. rewrite Hoff. cbn [negb].
  eexists _, _. split; [reflexivity|].
  split_and!.
  - by rewrite lookup_insert_eq.
  - rewrite lookup_insert_ne by done. by rewrite lookup_insert_eq.
  - rewrite !lookup_insert_ne by done. by rewrite lookup_insert_eq.
Qed.

(** Every scalar multiplication [ecdhDeriveSecret] performs is on a point
    of the curve. *)
Lemma ecdhDeriveSecret_multiplies_on_curve privateKey publicKey (t : trace) x y k :
  EvScalarMult x y k ∈ snd (ecdhDeriveSecret privateKey publicKey t) ->
  EvScalarMult x y k ∈ t \/
  elliptic.satisfiesEquation elliptic.P384 x y = true.
Proof.
  unfold ecdhDeriveSecret.
  destruct (P384_IsOnCurve _ _) eqn:Hon; cbn [negb].
  - unfold mbind, mret, M_bind, M_ret, emit.
    destruct (P384_ScalarMult _ _ _). cbn [snd].
    rewrite elem_of_app, list_elem_of_singleton. intros [Hin|Heq]; [by left|].
    right. inversion Heq; subst. by apply P384_IsOnCurve_equation.
  - cbn. by left.
Qed.

(** C4: a public key whose point does not satisfy the equation of P-384
    makes [ecdhDeriveSecret] return a PreconditionFailed error whose
    params hold the two coordinates and the name of the key's curve; the
    trace is unchanged, so no scalar multiplication took place. *)
Theorem C4_off_curve_key_rejected privateKey publicKey (t : trace) :
  elliptic.satisfiesEquation elliptic.P384
    (ecdsa.X publicKey) (ecdsa.Y publicKey) = false ->
  exists message params,
    ecdhDeriveSecret privateKey publicKey t
    = (Err (PreconditionFailed ErrPreconditionFailed message params), t) /\
    params !! "public_key.x"%string = Some (big.String (ecdsa.X publicKey)) /\
    params !! "public_key.y"%string = Some (big.String (ecdsa.Y publicKey)) /\
    params !! "public_key.curve_name"%string
    = Some (elliptic.Name (ecdsa.Curve publicKey)) /\
    forall x y k,
      EvScalarMult x y k ∈ snd (ecdhDeriveSecret privateKey publicKey t) ->
      EvScalarMult x y k ∈ t.
Proof.
  intros Hoff.
  assert (Hrej : P384_IsOnCurve (ecdsa.X publicKey) (ecdsa.Y publicKey) = false).
  { destruct (P384_IsOnCurve _ _) eqn:Hon; [|done].
    apply P384_IsOnCurve_equation in Hon. congruence. }
  destruct (ecdhDeriveSecret_rejected privateKey publicKey t Hrej)
    as (message & params & Hrun & Hx & Hy & Hname).
  exists message, params. split_and!; try done.
  intros x y k. by rewrite Hrun.
Qed.

(** C5: the hash of a (private key, public key, message) triple is the
    same whatever has happened before the call, and it has 32 bytes. *)
Theorem C5_hash_deterministic publicKey agentPrivateKey smsMessage
                              (t1 t2 : trace) :
  fst (GetHashForSMSMessage publicKey agentPrivateKey smsMessage t1)
  = fst (GetHashForSMSMessage publicKey agentPrivateKey smsMessage t2) /\
  forall hash,
    fst (GetHashForSMSMessage publicKey agentPrivateKey smsMessage t1) = Ok hash ->
    fst (GetHashForSMSMessage publicKey agentPrivateKey smsMessage t2) = Ok hash /\
    length hash = 32%nat.
Proof.
  rewrite !GetHashForSMSMessage_run. cbn [fst]. split; [done|].
  intros hash Hhash. split; [done|]. by eapply hashOutcome_length.
Qed.

Lemma getPublicKeyFromPublicKeyPayload_Ok payload key :
  getPublicKeyFromPublicKeyPayload payload = Ok key ->
  exists keyBytes,
    base64_DecodeString payload = inr keyBytes /\
    x509_ParsePKIXPublicKey keyBytes = inr (x509.ECDSA key).
Proof.
  unfold getPublicKeyFromPublicKeyPayload, mbind, outcome_bind.
  destruct (base64_DecodeString payload) as [e|keyBytes]; [done|].
  cbn [returned propagated].
  destruct (x509_ParsePKIXPublicKey keyBytes) as [e|[]] eqn:Hparse;
    cbn [returned propagated]; try done.
  intros [= ->]. by exists keyBytes.
Qed.

(** C10: a payload that decodes and parses to a key that is not an ECDSA
    key makes [GetHashForSMSMessage] return an error, with no event; and
    whenever a hash is returned, the payload decoded and parsed to an
    ECDSA key whose point [IsOnCurve] accepted and which satisfies the
    equation of P-384. *)
Theorem C10_only_ecdsa_keys_hash publicKeyString agentPrivateKey smsMessage
                                 (t : trace) :
  (forall keyBytes key,
     base64_DecodeString publicKeyString = inr keyBytes ->
     x509_ParsePKIXPublicKey keyBytes = inr key ->
     (forall k, key <> x509.ECDSA k) ->
     GetHashForSMSMessage publicKeyString agentPrivateKey smsMessage t
     = (Err (Propagate (InternalService ErrInternalService
                          "failed to unmarshal into ECDSA" ∅)), t)) /\
  (forall hash t',
     GetHashForSMSMessage publicKeyString agentPrivateKey smsMessage t
     = (Ok hash, t') ->
     exists keyBytes k,
       base64_DecodeString publicKeyString = inr keyBytes /\
       x509_ParsePKIXPublicKey keyBytes = inr (x509.ECDSA k) /\
       P384_IsOnCurve (ecdsa.X k) (ecdsa.Y k) = true /\
       elliptic.satisfiesEquation elliptic.P384 (ecdsa.X k) (ecdsa.Y k) = true).
Proof.
  split.
  - intros keyBytes key Hdecode Hparse Hother.
    unfold GetHashForSMSMessage, getPublicKeyFromPublicKeyPayload.
    unfold mbind, M_bind, outcome_bind, checked, lift.
    rewrite Hdecode. cbn [returned propagated]. rewrite Hparse.
    cbn [returned propagated].
    destruct key; try reflexivity. by destruct (Hother k).
  - intros hash t'. unfold GetHashForSMSMessage.
    unfold mbind, M_bind, checked, lift.
    destruct (getPublicKeyFromPublicKeyPayload publicKeyString)
      as [k|e|r] eqn:Hkey; cbn [propagated]; [|done..].
    apply getPublicKeyFromPublicKeyPayload_Ok in Hkey as (keyBytes & Hdecode & Hparse).
    destruct (P384_IsOnCurve (ecdsa.X k) (ecdsa.Y k)) eqn:Hon.
    + intros _. exists keyBytes, k. split_and!; try done.
      by apply P384_IsOnCurve_equation.
    + destruct (ecdhDeriveSecret_rejected agentPrivateKey k t Hon)
        as (message & params & -> & _). done.
Qed.

End HashingClaims.

Lemma C4_off_curve_key_rejected_witness :
  elliptic.satisfiesEquation elliptic.P384
    (ecdsa.X Fake.generator256) (ecdsa.Y Fake.generator256) = false /\
  exists message params,
    hashing.ecdhDeriveSecret (L := Fake.lib) (PrivateKey Fake.agent)
      Fake.generator256 []
    = (Err (PreconditionFailed ErrPreconditionFailed message params), []) /\
    params !! "public_key.curve_name"%string = Some "P-256"%string.
Proof.
  assert (Hoff : elliptic.satisfiesEquation elliptic.P384
            (ecdsa.X Fake.generator256) (ecdsa.Y Fake.generator256) = false)
    by (vm_compute; reflexivity).
  split; [exact Hoff|].
  destruct (C4_off_curve_key_rejected (L := Fake.lib) (PrivateKey Fake.agent)
              Fake.generator256 [] Hoff)
    as (message & params & Hrun & _ & _ & Hname & _).
  exists message, params. split; [exact Hrun | exact Hname].
Defined.

Lemma C5_hash_deterministic_witness :
  exists hash,
    fst (hashing.GetHashForSMSMessage (L := Fake.lib) "EC-P384"
           (PrivateKey Fake.agent) (bytes_of "hello!") []) = Ok hash /\
    fst (hashing.GetHashForSMSMessage (L := Fake.lib) "EC-P384"
           (PrivateKey Fake.agent) (bytes_of "hello!") [EvExpand "hello!"])
    = Ok hash /\
    length hash = 32%nat.
Proof.
  eexists. split; [vm_compute; reflexivity|].
  apply (C5_hash_deterministic (L := Fake.lib) "EC-P384"
           (PrivateKey Fake.agent) (bytes_of "hello!") [] [EvExpand "hello!"]).
  vm_compute; reflexivity.
Defined.

Lemma C10_only_ecdsa_keys_hash_witness :
  base64_DecodeString (GoLib := Fake.lib) "RSA" = inr (bytes_of "RSA") /\
  x509_ParsePKIXPublicKey (GoLib := Fake.lib) (bytes_of "RSA")
  = inr (x509.RSA 3233 17) /\
  hashing.GetHashForSMSMessage (L := Fake.lib) "RSA" (PrivateKey Fake.agent)
    (bytes_of "hello!") []
  = (Err (Propagate (InternalService ErrInternalService
                       "failed to unmarshal into ECDSA" ∅)), []).
Proof.
  split; [reflexivity|]. split; [reflexivity|].
  apply (proj1 (C10_only_ecdsa_keys_hash (L := Fake.lib) "RSA"
                  (PrivateKey Fake.agent) (bytes_of "hello!") []))
    with (keyBytes := bytes_of "RSA") (key := x509.RSA 3233 17);
    [reflexivity | reflexivity | discriminate].
Defined.

(** ** The orchestrator *)

Section OrchestratorFacts.

Context {L : GoLib}.

Lemma bind_run {A B} (c : M A) (f : A -> M B) (t : trace) :
  (c ≫= f) t =
  match c t with
  | (Ok a, t') => f a t'
  | (Err e, t') => (Err e, t')
  | (Panic r, t') => (Panic r, t')
  end.
Proof. reflexivity. Qed.

Lemma checked_lift_run {A} (o : outcome A) (t : trace) :
  checked (lift o) t = (propagated o, t).
Proof. reflexivity. Qed.

(** One turn of the inner loop. *)
Lemma hashEntry_run agent publicKey acc variant (t : trace) :
  hashEntry agent publicKey acc variant t =
  (match hashOutcome publicKey (PrivateKey agent) (bytes_of variant) with
   | Ok _ => Ok (acc ++ [submission agent publicKey variant])
   | Err e => Err (Propagate e)
   | Panic r => Panic r
   end,
   t ++ EvHash publicKey (bytes_of variant)
       :: hashEvents publicKey (PrivateKey agent) (bytes_of variant)).
Proof.
  unfold hashEntry, submission, hashOf.
  rewrite bind_run. unfold emit. rewrite bind_run. unfold checked.
  rewrite GetHashForSMSMessage_run.
  rewrite <- app_assoc. cbn [app].
  destruct (hashOutcome _ _ _); reflexivity.
Qed.

Lemma hashOutcome_cases publicKey agentPrivateKey smsMessage :
  isOk (hashOutcome publicKey agentPrivateKey smsMessage) = true \/
  isErr (hashOutcome publicKey agentPrivateKey smsMessage) = true.
Proof.
  pose proof (hashOutcome_no_panic publicKey agentPrivateKey smsMessage) as Hnp.
  destruct (hashOutcome _ _ _) as [h|e|r]; [by left | by right | by destruct (Hnp r)].
Qed.

(** The inner loop, over the variants of one key: it sends nothing, and
    it either appends one entry per variant, in order, or returns the
    error of a derivation that failed. *)
Lemma inner_loop_run agent publicKey variants acc (t : trace) :
  exists evs,
    Forall (fun e => isRequest e = false) evs /\
    snd (rangeM (hashEntry agent publicKey) variants acc t) = t ++ evs /\
    ((Forall (fun v => isOk (hashOutcome publicKey (PrivateKey agent)
                               (bytes_of v)) = true) variants /\
      fst (rangeM (hashEntry agent publicKey) variants acc t)
      = Ok (acc ++ map (submission agent publicKey) variants)) \/
     (Exists (fun v => isErr (hashOutcome publicKey (PrivateKey agent)
                                (bytes_of v)) = true) variants /\
      exists e, fst (rangeM (hashEntry agent publicKey) variants acc t) = Err e)).
Proof.
  revert acc t. induction variants as [|v variants IH]; intros acc t.
  - exists []. cbn. rewrite !app_nil_r. split_and!; try done. by left.
  - cbn [rangeM]. rewrite bind_run, hashEntry_run.
    pose proof (hashEvents_no_request publicKey (PrivateKey agent) (bytes_of v)) as Hev.
    destruct (hashOutcome_cases publicKey (PrivateKey agent) (bytes_of v)) as [Hok|Herr].
    + destruct (hashOutcome _ _ _) as [h|e|r] eqn:Hout; try done.
      destruct (IH (acc ++ [submission agent publicKey v])
                  (t ++ EvHash publicKey (bytes_of v)
                     :: hashEvents publicKey (PrivateKey agent) (bytes_of v)))
        as (evs & Hevs & Htrace & Hres).
      exists ((EvHash publicKey (bytes_of v)
               :: hashEvents publicKey (PrivateKey agent) (bytes_of v)) ++ evs).
      split_and!.
      * apply Forall_app. split; [by constructor | done].
      * rewrite Htrace. by rewrite <- app_assoc.
      * destruct Hres as [[Hall Hfst]|[Hex Hfst]].
        -- left. split; [constructor; [by rewrite Hout | done]|].
           rewrite Hfst. cbn [map]. by rewrite <- app_assoc.
        -- right. split; [by apply Exists_cons_tl | done].
    + destruct (hashOutcome _ _ _) as [h|e|r] eqn:Hout; try done.
      exists (EvHash publicKey (bytes_of v)
              :: hashEvents publicKey (PrivateKey agent) (bytes_of v)).
      split_and!; [by constructor | done |].
      right. split; [apply Exists_cons_hd; by rewrite Hout | by eexists].
Qed.

(** The two loops together. *)
Lemma outer_loop_run agent variants publicKeys acc (t : trace) :
  let loops :=
    rangeM (fun messagesToGoogle publicKey =>
              rangeM (hashEntry agent publicKey) variants messagesToGoogle)
           publicKeys acc t in
  exists evs,
    Forall (fun e => isRequest e = false) evs /\
    snd loops = t ++ evs /\
    ((Forall (fun pk =>
                Forall (fun v => isOk (hashOutcome pk (PrivateKey agent)
                                         (bytes_of v)) = true) variants)
             publicKeys /\
      fst loops = Ok (acc ++ batchOf agent publicKeys variants)) \/
     (Exists (fun pk =>
                Exists (fun v => isErr (hashOutcome pk (PrivateKey agent)
                                          (bytes_of v)) = true) variants)
             publicKeys /\
      exists e, fst loops = Err e)).
Proof.
  cbv zeta. revert acc t.
  induction publicKeys as [|pk publicKeys IH]; intros acc t.
  - exists []. cbn. rewrite !app_nil_r. split_and!; try done. by left.
  - cbn [rangeM]. rewrite bind_run.
    destruct (inner_loop_run agent pk variants acc t)
      as (evs1 & Hevs1 & Htrace1 & Hres1).
    destruct (rangeM (hashEntry agent pk) variants acc t) as [o1 t1].
    cbn [fst snd] in *. subst t1.
    destruct Hres1 as [[Hall ->]|[Hex [e ->]]].
    + destruct (IH (acc ++ map (submission agent pk) variants) (t ++ evs1))
        as (evs & Hevs & Htrace & Hres).
      exists (evs1 ++ evs). split_and!.
      * by apply Forall_app.
      * rewrite Htrace. by rewrite <- app_assoc.
      * destruct Hres as [[Hall' Hfst]|[Hex Hfst]].
        -- left. split; [by constructor|].
           rewrite Hfst. unfold batchOf. cbn [flat_map].
           by rewrite <- app_assoc.
        -- right. split; [by apply Exists_cons_tl | done].
    + exists evs1. split_and!; [done..|].
      right. split; [by apply Exists_cons_hd | by eexists].
Qed.

(** The entries of the batch, by position: the entry for key [i] and
    variant [j] is at [i * v + j]. *)
Lemma batchOf_lookup agent publicKeys variants (i j : nat) pk variant :
  publicKeys !! i = Some pk -> variants !! j = Some variant ->
  batchOf agent publicKeys variants !! (i * length variants + j)%nat
  = Some (submission agent pk variant).
Proof.
  revert i. induction publicKeys as [|pk0 publicKeys IH]; intros i Hi Hj; [done|].
  unfold batchOf. cbn [flat_map].
  destruct i as [|i]; cbn in Hi.
  - injection Hi as ->. cbn [Nat.mul Nat.add].
    rewrite lookup_app_l by (rewrite length_map; by eapply lookup_lt_Some).
    by rewrite list_lookup_fmap, Hj.
  - rewrite lookup_app_r by (rewrite length_map; cbn; lia).
    rewrite length_map.
    replace (S i * length variants + j - length variants)%nat
      with (i * length variants + j)%nat by (cbn; lia).
    by apply IH.
Qed.

Lemma batchOf_length agent publicKeys variants :
  length (batchOf agent publicKeys variants)
  = (length publicKeys * length variants)%nat.
Proof.
  unfold batchOf. induction publicKeys as [|pk publicKeys IH]; [done|].
  cbn [flat_map length Nat.mul]. by rewrite length_app, length_map, IH.
Qed.

Lemma batchOf_elem agent publicKeys variants m :
  m ∈ batchOf agent publicKeys variants ->
  exists pk variant,
    pk ∈ publicKeys /\ variant ∈ variants /\ m = submission agent pk variant.
Proof.
  unfold batchOf. rewrite list_elem_of_In, in_flat_map.
  intros (pk & Hpk & Hm). apply list_elem_of_In, list_elem_of_fmap in Hm
    as (variant & -> & Hv).
  exists pk, variant. by rewrite list_elem_of_In.
Qed.

(** The filtering loop of [GetPhoneNumberPublicKeys]. *)
Lemma filter_loop (phoneNumber : string) (keys : list verifiedSMSResponseUserKeys)
                  (acc : list string) :
  fold_left (fun publicKeys keys =>
               if bool_decide (PhoneNumber keys = phoneNumber)
               then publicKeys ++ [PublicKey keys]
               else publicKeys) keys acc
  = acc ++ map PublicKey
             (filter (fun keys => PhoneNumber keys = phoneNumber) keys).
Proof.
  revert acc. induction keys as [|k keys IH]; intros acc; cbn [fold_left].
  - by rewrite app_nil_r.
  - rewrite IH, filter_cons. case_bool_decide.
    + rewrite decide_True by done. cbn [map]. by rewrite <- app_assoc.
    + by rewrite decide_False by done.
Qed.

(** Key resolution sends nothing to the submission endpoint. *)
Lemma GetPhoneNumberPublicKeys_trace partner ctx phoneNumber (t : trace) :
  exists evs,
    snd (GetPhoneNumberPublicKeys partner ctx phoneNumber t) = t ++ evs /\
    Forall (fun e => isSubmission e = false) evs.
Proof.
  unfold GetPhoneNumberPublicKeys.
  rewrite bind_run, checked_lift_run.
  destruct (returned (json_Marshal_phoneNumbers _)) as [requestBody|e|r];
    cbn [propagated]; try (exists []; by rewrite app_nil_r).
  rewrite bind_run, checked_lift_run. unfold http_NewRequest.
  destruct (http_NewRequest_check _ _) as [e|];
    cbn [propagated]; try (exists []; by rewrite app_nil_r).
  rewrite bind_run, checked_lift_run.
  destruct (oauth2.GetHttpClient _ _) as [client|e|r];
    cbn [propagated]; try (exists []; by rewrite app_nil_r).
  rewrite bind_run. unfold checked at 1, Do.
  match goal with |- context [EvDo client ?r] => set (request := r) end.
  exists [EvDo client request].
  assert (Forall (fun e => isSubmission e = false) [EvDo client request])
    by (repeat constructor).
  destruct (returned (http_Client_Do t client request)) as [httpResponse|e|r];
    cbn [propagated]; try done.
  destruct (badStatus httpResponse); [done|].
  rewrite bind_run, checked_lift_run.
  by destruct (returned (json_Decode_verifiedSMSResponse _)).
Qed.

End OrchestratorFacts.

Section OrchestratorClaims.

Context {L : GoLib}.

(** A successful key resolution sent exactly the lookup request and
    returns the keys of the decoded response that carry the phone number
    asked for. *)
Lemma GetPhoneNumberPublicKeys_Ok partner ctx phoneNumber (t t1 : trace) publicKeys :
  GetPhoneNumberPublicKeys partner ctx phoneNumber t = (Ok publicKeys, t1) ->
  exists requestBody client httpResponse response,
    json_Marshal_phoneNumbers {[ "phoneNumbers"%string := [phoneNumber] ]}
    = inr requestBody /\
    oauth2.GetHttpClient ctx (ServiceAccountJSONFile partner) = Ok client /\
    http_Client_Do t client (requestTo ApiGetPublicKeysUrl requestBody)
    = inr httpResponse /\
    badStatus httpResponse = false /\
    json_Decode_verifiedSMSResponse (http.ResponseBody httpResponse)
    = inr response /\
    publicKeys = map PublicKey
                   (filter (fun keys => PhoneNumber keys = phoneNumber)
                           (UserKeys response)) /\
    t1 = t ++ [EvDo client (requestTo ApiGetPublicKeysUrl requestBody)].
Proof.
  unfold GetPhoneNumberPublicKeys.
  rewrite bind_run, checked_lift_run.
  destruct (json_Marshal_phoneNumbers _) as [e|requestBody] eqn:Hbody;
    cbn [returned propagated]; [done|].
  rewrite bind_run, checked_lift_run. unfold http_NewRequest.
  destruct (http_NewRequest_check _ _) as [e|]; cbn [propagated]; [done|].
  rewrite bind_run, checked_lift_run.
  destruct (oauth2.GetHttpClient _ _) as [client|e|r] eqn:Hclient;
    cbn [propagated]; try done.
  rewrite bind_run. unfold checked at 1, Do.
  change (http.Header_Set (http.Header_Set _ _ _) _ _)
    with (requestTo ApiGetPublicKeysUrl requestBody).
  destruct (http_Client_Do t client _) as [e|httpResponse] eqn:Hdo;
    cbn [returned propagated]; [done|].
  destruct (badStatus httpResponse) eqn:Hstatus; [done|].
  rewrite bind_run, checked_lift_run.
  destruct (json_Decode_verifiedSMSResponse _) as [e|response] eqn:Hdecode;
    cbn [returned propagated]; [done|].
  rewrite filter_loop. cbn [app]. intros [= <- <-].
  by exists requestBody, client, httpResponse, response.
Qed.

(** C8: when the lookup request is answered with a success status and a
    body that decodes, [GetPhoneNumberPublicKeys] returns, without error,
    the [publicKey] fields of the entries whose [phoneNumber] is the one
    asked for, in the order of the response; this holds also when no
    entry is left. *)
Theorem C8_keys_filtered_by_phone_number partner ctx phoneNumber (t : trace)
    requestBody client httpResponse response :
  json_Marshal_phoneNumbers {[ "phoneNumbers"%string := [phoneNumber] ]}
  = inr requestBody ->
  http_NewRequest_check "POST" ApiGetPublicKeysUrl = None ->
  oauth2.GetHttpClient ctx (ServiceAccountJSONFile partner) = Ok client ->
  http_Client_Do t client (requestTo ApiGetPublicKeysUrl requestBody)
  = inr httpResponse ->
  badStatus httpResponse = false ->
  json_Decode_verifiedSMSResponse (http.ResponseBody httpResponse)
  = inr response ->
  GetPhoneNumberPublicKeys partner ctx phoneNumber t
  = (Ok (map PublicKey
           (filter (fun keys => PhoneNumber keys = phoneNumber)
                   (UserKeys response))),
     t ++ [EvDo client (requestTo ApiGetPublicKeysUrl requestBody)]).
Proof.
  intros Hbody Hcheck Hclient Hdo Hstatus Hdecode.
  unfold GetPhoneNumberPublicKeys.
  rewrite bind_run, checked_lift_run, Hbody. cbn [returned propagated].
  rewrite bind_run, checked_lift_run. unfold http_NewRequest. rewrite Hcheck.
  cbn [propagated].
  rewrite bind_run, checked_lift_run, Hclient. cbn [propagated].
  rewrite bind_run. unfold checked at 1, Do.
  change (http.Header_Set (http.Header_Set _ _ _) _ _)
    with (requestTo ApiGetPublicKeysUrl requestBody).
  rewrite Hdo. cbn [returned propagated]. rewrite Hstatus.
  rewrite bind_run, checked_lift_run, Hdecode. cbn [returned propagated].
  by rewrite filter_loop.
Qed.

(** [MarkSMSAsVerified] once key resolution has returned at least one
    key: the two loops, then the last leg. *)
Lemma MarkSMSAsVerified_with_keys partner ctx phoneNumber agent smsMessage
    (t t1 : trace) publicKeys :
  GetPhoneNumberPublicKeys partner ctx phoneNumber t = (Ok publicKeys, t1) ->
  publicKeys <> [] ->
  MarkSMSAsVerified partner ctx phoneNumber agent smsMessage t =
  match rangeM (fun messagesToGoogle publicKey =>
                  rangeM (hashEntry agent publicKey)
                    (data_munging.GetAllIterationsOfSMSMessage smsMessage)
                    messagesToGoogle)
               publicKeys [] (t1 ++ [EvExpand smsMessage]) with
  | (Ok batch, t2) => submitRun partner ctx batch t2
  | (Err e, t2) => (Err e, t2)
  | (Panic r, t2) => (Panic r, t2)
  end.
Proof.
  intros Hkeys Hne.
  unfold MarkSMSAsVerified. rewrite bind_run. unfold checked at 1.
  rewrite Hkeys. cbn [propagated].
  destruct publicKeys as [|pk0 pks] eqn:Hpks; [done|]. cbn [length Nat.eqb].
  rewrite <- Hpks in *. clear Hne.
  rewrite bind_run. unfold emit at 1. rewrite bind_run.
  destruct (rangeM _ publicKeys [] (t1 ++ [EvExpand smsMessage]))
    as [[batch|e|r] t2]; try reflexivity.
  unfold submitRun.
  rewrite bind_run, checked_lift_run.
  destruct (json_Marshal_batchSubmitRequest _) as [e|requestBody];
    cbn [returned propagated]; [reflexivity|].
  rewrite bind_run, checked_lift_run. unfold http_NewRequest.
  destruct (http_NewRequest_check _ _) as [e|]; cbn [propagated];
    [reflexivity|].
  rewrite bind_run, checked_lift_run.
  destruct (oauth2.GetHttpClient _ _) as [client|e|r]; cbn [propagated];
    try reflexivity.
  rewrite bind_run. unfold checked at 1, Do.
  change (http.Header_Set (http.Header_Set _ _ _) _ _)
    with (requestTo ApiSubmitHashesUrl requestBody).
  destruct (http_Client_Do _ client _) as [e|httpResponse];
    cbn [returned propagated]; [reflexivity|].
  by destruct (badStatus httpResponse).
Qed.

(** The last leg never returns [(false, nil)], and it sends at most the
    submission request. *)
Lemma submitRun_not_false partner ctx batch (t t' : trace) :
  submitRun partner ctx batch t <> (Ok false, t').
Proof.
  unfold submitRun. repeat case_match; done.
Qed.

Lemma submitRun_Ok partner ctx batch (t t' : trace) b :
  submitRun partner ctx batch t = (Ok b, t') ->
  b = true /\
  exists requestBody client,
    json_Marshal_batchSubmitRequest {| Messages := batch |} = inr requestBody /\
    t' = t ++ [EvDo client (requestTo ApiSubmitHashesUrl requestBody)].
Proof.
  unfold submitRun.
  destruct (json_Marshal_batchSubmitRequest _) as [e|requestBody]; [done|].
  destruct (http_NewRequest_check _ _); [done|].
  destruct (oauth2.GetHttpClient _ _) as [client|e|r]; try done.
  destruct (http_Client_Do _ _ _) as [e|httpResponse]; [done|].
  destruct (badStatus httpResponse); [done|].
  intros [= <- <-]. split; [done|]. by exists requestBody, client.
Qed.

(** C2: when key resolution has returned keys and the derivation fails
    for one pair of a key and a variant, [MarkSMSAsVerified] returns an
    error, and none of the events of the call is a request to the
    submission endpoint. *)
Theorem C2_failed_derivation_submits_nothing
    partner ctx phoneNumber agent smsMessage (t t0 : trace)
    publicKeys publicKey variant err :
  fst (GetPhoneNumberPublicKeys partner ctx phoneNumber t) = Ok publicKeys ->
  publicKey ∈ publicKeys ->
  variant ∈ data_munging.GetAllIterationsOfSMSMessage smsMessage ->
  fst (hashing.GetHashForSMSMessage publicKey (PrivateKey agent)
         (bytes_of variant) t0) = Err err ->
  exists e evs,
    MarkSMSAsVerified partner ctx phoneNumber agent smsMessage t
    = (Err e, t ++ evs) /\
    Forall (fun ev => isSubmission ev = false) evs.
Proof.
  intros Hkeys Hpk Hv Hfail.
  rewrite GetHashForSMSMessage_run in Hfail. cbn [fst] in Hfail.
  destruct (GetPhoneNumberPublicKeys_trace partner ctx phoneNumber t)
    as (evs0 & Htrace0 & Hevs0).
  destruct (GetPhoneNumberPublicKeys partner ctx phoneNumber t)
    as [o t1] eqn:Hrun.
  cbn [fst snd] in Hkeys, Htrace0. subst o t1.
  assert (Hne : publicKeys <> []) by (intros ->; by apply elem_of_nil in Hpk).
  rewrite (MarkSMSAsVerified_with_keys _ _ _ _ _ _ _ _ Hrun Hne).
  destruct (outer_loop_run agent
              (data_munging.GetAllIterationsOfSMSMessage smsMessage)
              publicKeys [] ((t ++ evs0) ++ [EvExpand smsMessage]))
    as (evs & Hevs & Htrace & Hres).
  cbv zeta in Htrace, Hres.
  destruct (rangeM _ publicKeys [] _) as [o t2].
  cbn [fst snd] in Htrace, Hres. subst t2.
  destruct Hres as [[Hall _]|[_ [e ->]]].
  - rewrite Forall_forall in Hall. specialize (Hall _ Hpk).
    rewrite Forall_forall in Hall. specialize (Hall _ Hv).
    by rewrite Hfail in Hall.
  - exists e, (evs0 ++ [EvExpand smsMessage] ++ evs).
    split; [by rewrite <- !app_assoc|].
    apply Forall_app. split; [done|].
    apply Forall_app. split; [by repeat constructor|].
    eapply Forall_impl; [exact Hevs|].
    intros [] Hreq; done.
Qed.

(** C3: when key resolution returns no key, [MarkSMSAsVerified] returns
    [(false, nil)] and leaves the trace as key resolution left it, with
    the lookup request as the only event of the call, whatever the agent
    and the message; and [(false, nil)] is returned in no other case. *)
Theorem C3_no_keys_is_not_supported
    partner ctx phoneNumber agent smsMessage (t t1 : trace) :
  (GetPhoneNumberPublicKeys partner ctx phoneNumber t = (Ok [], t1) ->
   MarkSMSAsVerified partner ctx phoneNumber agent smsMessage t
   = (Ok false, t1) /\
   exists client requestBody,
     t1 = t ++ [EvDo client (requestTo ApiGetPublicKeysUrl requestBody)]) /\
  (MarkSMSAsVerified partner ctx phoneNumber agent smsMessage t
   = (Ok false, t1) ->
   GetPhoneNumberPublicKeys partner ctx phoneNumber t = (Ok [], t1)).
Proof.
  split.
  - intros Hkeys. split.
    + unfold MarkSMSAsVerified. rewrite bind_run. unfold checked at 1.
      by rewrite Hkeys.
    + apply GetPhoneNumberPublicKeys_Ok in Hkeys
        as (requestBody & client & _ & _ & _ & _ & _ & _ & _ & _ & ->).
      by exists client, requestBody.
  - destruct (GetPhoneNumberPublicKeys partner ctx phoneNumber t)
      as [[publicKeys|e|r] t1'] eqn:Hkeys.
    + destruct (decide (publicKeys = [])) as [->|Hne].
      * unfold MarkSMSAsVerified. rewrite bind_run. unfold checked at 1.
        rewrite Hkeys. cbn. by intros [= <-].
      * rewrite (MarkSMSAsVerified_with_keys _ _ _ _ _ _ _ _ Hkeys Hne).
        destruct (rangeM _ publicKeys [] _) as [[batch|e|r] t2]; try done.
        intros Hsubmit. by apply submitRun_not_false in Hsubmit.
    + unfold MarkSMSAsVerified. rewrite bind_run. unfold checked at 1.
      by rewrite Hkeys.
    + unfold MarkSMSAsVerified. rewrite bind_run. unfold checked at 1.
      by rewrite Hkeys.
Qed.

(** A successful call, taken apart. *)
Lemma MarkSMSAsVerified_true partner ctx phoneNumber agent smsMessage
    (t t' : trace) :
  MarkSMSAsVerified partner ctx phoneNumber agent smsMessage t = (Ok true, t') ->
  let variants := data_munging.GetAllIterationsOfSMSMessage smsMessage in
  exists publicKeys t1 evs requestBody client,
    GetPhoneNumberPublicKeys partner ctx phoneNumber t = (Ok publicKeys, t1) /\
    publicKeys <> [] /\
    Forall (fun pk =>
              Forall (fun v => isOk (hashOutcome pk (PrivateKey agent)
                                       (bytes_of v)) = true) variants)
           publicKeys /\
    json_Marshal_batchSubmitRequest
      {| Messages := batchOf agent publicKeys variants |} = inr requestBody /\
    Forall (fun e => isRequest e = false) evs /\
    t' = t1 ++ evs ++ [EvDo client (requestTo ApiSubmitHashesUrl requestBody)].
Proof.
  intros Hrun variants.
  destruct (GetPhoneNumberPublicKeys partner ctx phoneNumber t)
    as [[publicKeys|e|r] t1] eqn:Hkeys.
  2,3: unfold MarkSMSAsVerified in Hrun; rewrite bind_run in Hrun;
       unfold checked at 1 in Hrun; by rewrite Hkeys in Hrun.
  destruct (decide (publicKeys = [])) as [->|Hne].
  { unfold MarkSMSAsVerified in Hrun. rewrite bind_run in Hrun.
    unfold checked at 1 in Hrun. by rewrite Hkeys in Hrun. }
  rewrite (MarkSMSAsVerified_with_keys _ _ _ _ _ _ _ _ Hkeys Hne) in Hrun.
  destruct (outer_loop_run agent variants publicKeys []
              (t1 ++ [EvExpand smsMessage]))
    as (evs & Hevs & Htrace & Hres).
  cbv zeta in Htrace, Hres. fold variants in Hrun.
  destruct (rangeM _ publicKeys [] _) as [o t2].
  cbn [fst snd] in Htrace, Hres. subst t2.
  destruct Hres as [[Hall ->]|[_ [e ->]]]; [|done].
  cbn [app] in Hrun.
  apply submitRun_Ok in Hrun as (_ & requestBody & client & Hbody & ->).
  exists publicKeys, t1, (EvExpand smsMessage :: evs), requestBody, client.
  split_and!; try done.
  - by constructor.
  - by rewrite <- !app_assoc.
Qed.

(** C7: after a successful call the one request to the submission
    endpoint carries the batch for the resolved keys and the variants:
    [k * v] entries, each with the agent's id, the entry for key [i] and
    variant [j] at position [i * v + j]. *)
Theorem C7_batch_is_keys_times_variants
    partner ctx phoneNumber agent smsMessage (t t' : trace) :
  MarkSMSAsVerified partner ctx phoneNumber agent smsMessage t = (Ok true, t') ->
  let variants := data_munging.GetAllIterationsOfSMSMessage smsMessage in
  exists publicKeys t1 evs requestBody client batch,
    GetPhoneNumberPublicKeys partner ctx phoneNumber t = (Ok publicKeys, t1) /\
    json_Marshal_batchSubmitRequest {| Messages := batch |} = inr requestBody /\
    t' = t1 ++ evs ++ [EvDo client (requestTo ApiSubmitHashesUrl requestBody)] /\
    Forall (fun e => isRequest e = false) evs /\
    length batch = (length publicKeys * length variants)%nat /\
    Forall (fun m => AgentId m = ID agent) batch /\
    forall i j pk variant,
      publicKeys !! i = Some pk -> variants !! j = Some variant ->
      exists hash,
        fst (hashing.GetHashForSMSMessage pk (PrivateKey agent)
               (bytes_of variant) t) = Ok hash /\
        batch !! (i * length variants + j)%nat
        = Some {| Hash := base64_EncodeToString hash; AgentId := ID agent |}.
Proof.
  intros Hrun variants.
  destruct (MarkSMSAsVerified_true _ _ _ _ _ _ _ Hrun)
    as (publicKeys & t1 & evs & requestBody & client
        & Hkeys & Hne & Hall & Hbody & Hevs & ->).
  fold variants in Hall, Hbody.
  exists publicKeys, t1, evs, requestBody, client,
         (batchOf agent publicKeys variants).
  split_and!; try done.
  - apply batchOf_length.
  - apply Forall_forall. intros m Hm.
    apply batchOf_elem in Hm as (pk & v & _ & _ & ->). reflexivity.
  - intros i j pk variant Hi Hj.
    rewrite GetHashForSMSMessage_run. cbn [fst].
    rewrite Forall_forall in Hall.
    specialize (Hall pk (list_elem_of_lookup_2 _ _ _ Hi)).
    rewrite Forall_forall in Hall.
    specialize (Hall variant (list_elem_of_lookup_2 _ _ _ Hj)).
    rewrite (batchOf_lookup _ _ _ _ _ _ _ Hi Hj).
    unfold submission, hashOf.
    destruct (hashOutcome pk (PrivateKey agent) (bytes_of variant))
      as [hash| |]; [|done..].
    by exists hash.
Qed.

(** The last leg sends nothing or the one submission request, whose body
    is the marshalled batch. *)
Lemma submitRun_events partner ctx batch (t t' : trace) (o : outcome bool) :
  submitRun partner ctx batch t = (o, t') ->
  t' = t \/
  exists requestBody client,
    json_Marshal_batchSubmitRequest {| Messages := batch |} = inr requestBody /\
    t' = t ++ [EvDo client (requestTo ApiSubmitHashesUrl requestBody)].
Proof.
  unfold submitRun.
  destruct (json_Marshal_batchSubmitRequest _) as [e|requestBody];
    [intros [= _ <-]; by left|].
  destruct (http_NewRequest_check _ _); [intros [= _ <-]; by left|].
  destruct (oauth2.GetHttpClient _ _) as [client|e|r];
    [|intros [= _ <-]; by left..].
  intros [= _ <-]. right. by exists requestBody, client.
Qed.

(** Whatever a call returns, a request to the submission endpoint among
    its events carries the marshalled batch of the resolved keys and the
    variants, all of whose derivations succeeded. *)
Lemma MarkSMSAsVerified_submissions partner ctx phoneNumber agent smsMessage
    (t t' : trace) (o : outcome bool) :
  MarkSMSAsVerified partner ctx phoneNumber agent smsMessage t = (o, t') ->
  let variants := data_munging.GetAllIterationsOfSMSMessage smsMessage in
  exists evs,
    t' = t ++ evs /\
    forall client request,
      EvDo client request ∈ evs ->
      http.URL request = ApiSubmitHashesUrl ->
      exists publicKeys t1,
        GetPhoneNumberPublicKeys partner ctx phoneNumber t = (Ok publicKeys, t1) /\
        Forall (fun pk =>
                  Forall (fun v => isOk (hashOutcome pk (PrivateKey agent)
                                           (bytes_of v)) = true) variants)
               publicKeys /\
        json_Marshal_batchSubmitRequest
          {| Messages := batchOf agent publicKeys variants |}
        = inr (http.Body request).
Proof.
  intros Hrun variants.
  destruct (GetPhoneNumberPublicKeys_trace partner ctx phoneNumber t)
    as (evs0 & Htrace0 & Hevs0).
  assert (Hnot0 : forall client request,
            EvDo client request ∈ evs0 ->
            http.URL request = ApiSubmitHashesUrl -> False).
  { intros client request Hin Hurl. rewrite Forall_forall in Hevs0.
    specialize (Hevs0 _ Hin). cbn in Hevs0.
    by rewrite bool_decide_eq_false in Hevs0. }
  destruct (GetPhoneNumberPublicKeys partner ctx phoneNumber t)
    as [o1 t1] eqn:Hkeys. cbn [snd] in Htrace0. subst t1.
  assert (Hearly :
    exists evs,
      t ++ evs0 = t ++ evs /\
      forall client request,
        EvDo client request ∈ evs ->
        http.URL request = ApiSubmitHashesUrl ->
        exists publicKeys t1,
          (o1, t ++ evs0) = (Ok publicKeys, t1) /\
          Forall (fun pk =>
                    Forall (fun v => isOk (hashOutcome pk (PrivateKey agent)
                                             (bytes_of v)) = true) variants)
                 publicKeys /\
          json_Marshal_batchSubmitRequest
            {| Messages := batchOf agent publicKeys variants |}
          = inr (http.Body request)).
  { exists evs0. split; [done|].
    intros client request Hin Hurl. by destruct (Hnot0 _ _ Hin Hurl). }
  destruct o1 as [publicKeys|e|r].
  2,3: unfold MarkSMSAsVerified in Hrun; rewrite bind_run in Hrun;
       unfold checked at 1 in Hrun; rewrite Hkeys in Hrun;
       cbn [propagated] in Hrun; injection Hrun as <- <-; by apply Hearly.
  destruct (decide (publicKeys = [])) as [->|Hne].
  { unfold MarkSMSAsVerified in Hrun. rewrite bind_run in Hrun.
    unfold checked at 1 in Hrun. rewrite Hkeys in Hrun.
    cbn in Hrun. injection Hrun as <- <-. by apply Hearly. }
  clear Hearly.
  rewrite (MarkSMSAsVerified_with_keys _ _ _ _ _ _ _ _ Hkeys Hne) in Hrun.
  destruct (outer_loop_run agent variants publicKeys []
              ((t ++ evs0) ++ [EvExpand smsMessage]))
    as (evs & Hevs & Htrace & Hres).
  cbv zeta in Htrace, Hres. fold variants in Hrun.
  destruct (rangeM _ publicKeys [] _) as [o2 t2].
  cbn [fst snd] in Htrace, Hres. subst t2.
  assert (Hnot : forall client request,
            EvDo client request ∈ evs0 ++ [EvExpand smsMessage] ++ evs ->
            http.URL request = ApiSubmitHashesUrl -> False).
  { intros client request Hin Hurl.
    rewrite !elem_of_app in Hin. destruct Hin as [Hin|[Hin|Hin]].
    - by apply (Hnot0 _ _ Hin).
    - apply list_elem_of_singleton in Hin. done.
    - rewrite Forall_forall in Hevs. by specialize (Hevs _ Hin). }
  destruct Hres as [[Hall ->]|[_ [e ->]]].
  - cbn [app] in Hrun.
    apply submitRun_events in Hrun
      as [->|(requestBody & client & Hbody & ->)].
    + exists (evs0 ++ [EvExpand smsMessage] ++ evs).
      split; [by rewrite <- !app_assoc|].
      intros client request Hin Hurl. by destruct (Hnot _ _ Hin Hurl).
    + exists ((evs0 ++ [EvExpand smsMessage] ++ evs)
              ++ [EvDo client (requestTo ApiSubmitHashesUrl requestBody)]).
      split; [by rewrite <- !app_assoc|].
      intros client' request Hin Hurl.
      apply elem_of_app in Hin as [Hin|Hin];
        [by destruct (Hnot _ _ Hin Hurl)|].
      apply list_elem_of_singleton in Hin. injection Hin as -> ->.
      by exists publicKeys, (t ++ evs0).
  - injection Hrun as <- <-.
    exists (evs0 ++ [EvExpand smsMessage] ++ evs).
    split; [by rewrite <- !app_assoc|].
    intros client request Hin Hurl. by destruct (Hnot _ _ Hin Hurl).
Qed.

(** C9: every variant is the message as given and there are at most two;
    so every entry of a batch the call submits holds the hash of the
    message as given, under one of the resolved keys. This is so for the
    batch of a successful call, and for the body of every request to the
    submission endpoint among the events of a call, whatever the call
    returns (the submission may be answered with an error status or break
    in transport after the batch was sent). *)
Theorem C9_variants_are_the_original
    partner ctx phoneNumber agent smsMessage (t t' : trace) :
  Forall (fun v => v = smsMessage)
         (data_munging.GetAllIterationsOfSMSMessage smsMessage) /\
  (length (data_munging.GetAllIterationsOfSMSMessage smsMessage) <= 2)%nat /\
  (MarkSMSAsVerified partner ctx phoneNumber agent smsMessage t = (Ok true, t') ->
   exists publicKeys t1 evs requestBody client batch,
     GetPhoneNumberPublicKeys partner ctx phoneNumber t = (Ok publicKeys, t1) /\
     json_Marshal_batchSubmitRequest {| Messages := batch |} = inr requestBody /\
     t' = t1 ++ evs ++ [EvDo client (requestTo ApiSubmitHashesUrl requestBody)] /\
     Forall (fun e => isRequest e = false) evs /\
     Forall (fun m =>
               exists pk hash,
                 pk ∈ publicKeys /\
                 fst (hashing.GetHashForSMSMessage pk (PrivateKey agent)
                        (bytes_of smsMessage) t) = Ok hash /\
                 Hash m = base64_EncodeToString hash)
            batch) /\
  (forall o : outcome bool,
     MarkSMSAsVerified partner ctx phoneNumber agent smsMessage t = (o, t') ->
     exists evs,
       t' = t ++ evs /\
       forall client request,
         EvDo client request ∈ evs ->
         http.URL request = ApiSubmitHashesUrl ->
         exists publicKeys t1 batch,
           GetPhoneNumberPublicKeys partner ctx phoneNumber t
           = (Ok publicKeys, t1) /\
           json_Marshal_batchSubmitRequest {| Messages := batch |}
           = inr (http.Body request) /\
           Forall (fun m =>
                     exists pk hash,
                       pk ∈ publicKeys /\
                       fst (hashing.GetHashForSMSMessage pk (PrivateKey agent)
                              (bytes_of smsMessage) t) = Ok hash /\
                       Hash m = base64_EncodeToString hash)
                  batch).
Proof.
  destruct (GetAllIterationsOfSMSMessage_all_original smsMessage)
    as [Hsame Hlen].
  assert (Hbatch : forall publicKeys,
    Forall (fun pk =>
              Forall (fun v => isOk (hashOutcome pk (PrivateKey agent)
                                       (bytes_of v)) = true)
                     (data_munging.GetAllIterationsOfSMSMessage smsMessage))
           publicKeys ->
    Forall (fun m =>
              exists pk hash,
                pk ∈ publicKeys /\
                fst (hashing.GetHashForSMSMessage pk (PrivateKey agent)
                       (bytes_of smsMessage) t) = Ok hash /\
                Hash m = base64_EncodeToString hash)
           (batchOf agent publicKeys
              (data_munging.GetAllIterationsOfSMSMessage smsMessage))).
  { intros publicKeys Hall. apply Forall_forall. intros m Hm.
    apply batchOf_elem in Hm as (pk & v & Hpk & Hv & ->).
    rewrite Forall_forall in Hsame. pose proof (Hsame v Hv) as ->.
    rewrite Forall_forall in Hall. specialize (Hall pk Hpk).
    rewrite Forall_forall in Hall. specialize (Hall smsMessage Hv).
    unfold submission, hashOf. cbn [Hash].
    destruct (hashOutcome pk (PrivateKey agent) (bytes_of smsMessage))
      as [hash| |] eqn:Hhash; [|done..].
    exists pk, hash. split_and!; [done| |done].
    by rewrite GetHashForSMSMessage_run. }
  split_and!; [done..| |].
  - intros Hrun.
    destruct (MarkSMSAsVerified_true _ _ _ _ _ _ _ Hrun)
      as (publicKeys & t1 & evs & requestBody & client
          & Hkeys & Hne & Hall & Hbody & Hevs & ->).
    exists publicKeys, t1, evs, requestBody, client,
           (batchOf agent publicKeys
              (data_munging.GetAllIterationsOfSMSMessage smsMessage)).
    split_and!; try done. by apply Hbatch.
  - intros o Hrun.
    destruct (MarkSMSAsVerified_submissions _ _ _ _ _ _ _ _ Hrun)
      as (evs & -> & Hsub).
    exists evs. split; [done|].
    intros client request Hin Hurl.
    destruct (Hsub client request Hin Hurl)
      as (publicKeys & t1 & Hkeys & Hall & Hbody).
    exists publicKeys, t1,
           (batchOf agent publicKeys
              (data_munging.GetAllIterationsOfSMSMessage smsMessage)).
    split_and!; [done..|]. by apply Hbatch.
Qed.

End OrchestratorClaims.

(** ** The orchestrator on the in-memory double *)

Module FakeRuns.

Import Fake.

(** Two keys are registered for the number and the second one is an RSA
    key: the first derivation succeeds, the second fails, and nothing is
    submitted. *)
Lemma C2_failed_derivation_submits_nothing_witness :
  fst (resolve Fake.phoneWithKeys []) = Ok ["EC-P384"; "RSA"]%string /\
  isOk (fst (hashing.GetHashForSMSMessage (L := Fake.lib) "EC-P384"
               (PrivateKey Fake.agent) (bytes_of "hello!") [])) = true /\
  exists e evs,
    mark Fake.phoneWithKeys Fake.agent "hello!"%string [] = (Err e, [] ++ evs) /\
    Forall (fun ev => isSubmission ev = false) evs.
Proof.
  split; [vm_compute; reflexivity|]. split; [vm_compute; reflexivity|].
  apply (C2_failed_derivation_submits_nothing (L := Fake.lib)
           Fake.partner tt Fake.phoneWithKeys Fake.agent "hello!" [] []
           ["EC-P384"; "RSA"]%string "RSA" "hello!"
           (Propagate (InternalService ErrInternalService
                         "failed to unmarshal into ECDSA" ∅))).
  - vm_compute; reflexivity.
  - apply list_elem_of_further, list_elem_of_here.
  - change (data_munging.GetAllIterationsOfSMSMessage "hello!")
      with ["hello!"%string]. apply list_elem_of_here.
  - vm_compute; reflexivity.
Defined.

Lemma C3_no_keys_is_not_supported_witness :
  let t1 := snd (resolve "+447700900000" []) in
  resolve "+447700900000" [] = (Ok [], t1) /\
  mark "+447700900000" Fake.agent "hello!"%string [] = (Ok false, t1) /\
  length t1 = 1%nat.
Proof.
  cbv zeta.
  assert (Hkeys : resolve "+447700900000" []
                  = (Ok [], snd (resolve "+447700900000" [])))
    by (vm_compute; reflexivity).
  split; [exact Hkeys|]. split; [|vm_compute; reflexivity].
  exact (proj1 (proj1 (C3_no_keys_is_not_supported (L := Fake.lib)
                         Fake.partner tt "+447700900000" Fake.agent
                         "hello!" [] _) Hkeys)).
Defined.

Lemma C7_batch_is_keys_times_variants_witness :
  mark "+447700900123" Fake.agent "  hello  "%string []
  = (Ok true, snd (mark "+447700900123" Fake.agent "  hello  "%string [])) /\
  exists publicKeys (batch : list messageSubmissionToGoogle),
    fst (resolve "+447700900123" []) = Ok publicKeys /\
    length batch = (length publicKeys * 2)%nat.
Proof.
  cbv zeta.
  assert (Hrun : mark "+447700900123" Fake.agent "  hello  "%string []
                 = (Ok true,
                    snd (mark "+447700900123" Fake.agent "  hello  "%string [])))
    by (vm_compute; reflexivity).
  split; [exact Hrun|].
  destruct (C7_batch_is_keys_times_variants (L := Fake.lib)
              Fake.partner tt "+447700900123" Fake.agent "  hello  " [] _ Hrun)
    as (publicKeys & t1 & evs & requestBody & client & batch
        & Hkeys & _ & _ & _ & Hlen & _).
  exists publicKeys, batch. split.
  - replace (resolve "+447700900123" []) with (Ok publicKeys, t1). reflexivity.
  - exact Hlen.
Defined.

Lemma C8_keys_filtered_by_phone_number_witness :
  resolve phoneWithKeys []
  = (Ok ["EC-P384"; "RSA"]%string,
     [EvDo client (requestTo ApiGetPublicKeysUrl phoneWithKeys)]) /\
  resolve "+447700900000" []
  = (Ok [], [EvDo client (requestTo ApiGetPublicKeysUrl "+447700900000")]).
Proof.
  split.
  - exact (C8_keys_filtered_by_phone_number (L := lib)
             partner tt phoneWithKeys [] phoneWithKeys client
             {| http.StatusCode := 200; http.Status := "200 OK";
                http.ResponseBody := phoneWithKeys |}
             {| UserKeys :=
                  [ {| PhoneNumber := phoneWithKeys; PublicKey := "EC-P384" |};
                    {| PhoneNumber := "+447700900999"; PublicKey := "EC-P256" |};
                    {| PhoneNumber := phoneWithKeys; PublicKey := "RSA" |} ] |}
             eq_refl eq_refl eq_refl eq_refl eq_refl eq_refl).
  - exact (C8_keys_filtered_by_phone_number (L := lib)
             partner tt "+447700900000" [] "+447700900000" client
             {| http.StatusCode := 200; http.Status := "200 OK";
                http.ResponseBody := "+447700900000" |}
             {| UserKeys := [] |}
             eq_refl eq_refl eq_refl eq_refl eq_refl eq_refl).
Defined.

Lemma C9_variants_are_the_original_witness :
  data_munging.GetAllIterationsOfSMSMessage "  hello  "
  = ["  hello  "; "  hello  "]%string /\
  mark "+447700900123" Fake.agent "  hello  "%string []
  = (Ok true, snd (mark "+447700900123" Fake.agent "  hello  "%string [])) /\
  (exists batch,
     Forall (fun m =>
               exists pk hash,
                 fst (hashing.GetHashForSMSMessage (L := Fake.lib) pk
                        (PrivateKey Fake.agent) (bytes_of "  hello  ") [])
                 = Ok hash /\
                 Hash m = base64_EncodeToString (GoLib := lib) hash)
            batch) /\
  (exists t' client request,
     Flaky.mark "+447700900123" Fake.agent "  hello  "%string []
     = (Err (InternalService ErrInternalService
               "bad response from Google: 500 Internal Server Error" ∅), t') /\
     EvDo client request ∈ t' /\
     http.URL request = ApiSubmitHashesUrl /\
     exists batch,
       json_Marshal_batchSubmitRequest (GoLib := Flaky.lib)
         {| Messages := batch |} = inr (http.Body request) /\
       Forall (fun m =>
                 exists pk hash,
                   fst (hashing.GetHashForSMSMessage (L := Flaky.lib) pk
                          (PrivateKey Fake.agent) (bytes_of "  hello  ") [])
                   = Ok hash /\
                   Hash m = base64_EncodeToString (GoLib := Flaky.lib) hash)
              batch).
Proof.
  split; [vm_compute; reflexivity|].
  assert (Hrun : mark "+447700900123" Fake.agent "  hello  "%string []
                 = (Ok true,
                    snd (mark "+447700900123" Fake.agent "  hello  "%string [])))
    by (vm_compute; reflexivity).
  split; [exact Hrun|]. split.
  - destruct (proj1 (proj2 (proj2 (C9_variants_are_the_original (L := Fake.lib)
                Fake.partner tt "+447700900123" Fake.agent "  hello  " [] _)))
                Hrun)
      as (publicKeys & t1 & evs & requestBody & client & batch
          & _ & _ & _ & _ & Hall).
    exists batch. eapply Forall_impl; [exact Hall|].
    intros m (pk & hash & _ & Hhash & Hm). exists pk, hash.
    split; [exact Hhash | exact Hm].
  - pose (run := Flaky.mark "+447700900123" Fake.agent "  hello  "%string []).
    destruct (proj2 (proj2 (proj2 (C9_variants_are_the_original (L := Flaky.lib)
                Fake.partner tt "+447700900123" Fake.agent "  hello  " []
                (snd run)))) (fst run) (surjective_pairing run))
      as (evs & Hevs & Hsub).
    cbn [app] in Hevs.
    assert (Hin : exists client request,
              EvDo client request ∈ snd run /\
              http.URL request = ApiSubmitHashesUrl).
    { eexists _, _. split.
      - vm_compute. do 6 apply list_elem_of_further. apply list_elem_of_here.
      - reflexivity. }
    destruct Hin as (client & request & Hin & Hurl).
    exists (snd run), client, request.
    split; [vm_compute; reflexivity|].
    split; [exact Hin|]. split; [exact Hurl|].
    rewrite Hevs in Hin.
    destruct (Hsub client request Hin Hurl)
      as (publicKeys & t1 & batch & _ & Hbody & Hall).
    exists batch. split; [exact Hbody|].
    eapply Forall_impl; [exact Hall|].
    intros m (pk & hash & _ & Hhash & Hm). exists pk, hash.
    split; [exact Hhash | exact Hm].
Defined.

End FakeRuns.

(** ** What [strings.TrimSpace] returns *)

Section TrimOutput.

Import utf8 strings.

(** Continuation bytes are exactly 0x80..0xBF. *)
Lemma RuneStart_bv (b : byte) :
  RuneStart (bv b) = negb ((0x80 <=? bv b) && (bv b <=? 0xBF)).
Proof. destruct b; reflexivity. Qed.

(** A continuation byte cannot start an encoding. *)
Lemma first_continuation (b : byte) :
  RuneStart (bv b) = false -> first (bv b) = xx.
Proof. destruct b; (reflexivity || discriminate). Qed.

Lemma byteAt_bv (s : list byte) (i : nat) : exists b, byteAt s i = bv b.
Proof.
  unfold byteAt. destruct (s !! i) as [b|]; [by exists b | by exists x00].
Qed.

Lemma byteAt_app_l (a b : list byte) (i : nat) :
  (i < length a)%nat -> byteAt (a ++ b) i = byteAt a i.
Proof. intros Hi. unfold byteAt. by rewrite lookup_app_l. Qed.

Lemma byteAt_take (s : list byte) (i j : nat) :
  (i < j)%nat -> byteAt (take j s) i = byteAt s i.
Proof. intros Hi. unfold byteAt. by rewrite lookup_take_lt. Qed.

(** A rune other than [RuneError] starts at a byte that can start one. *)
Lemma DecodeRuneInString_start (s : list byte) (r : Z) (w : nat) :
  DecodeRuneInString s = (r, w) -> r <> RuneError ->
  s <> [] /\ RuneStart (byteAt s 0) = true.
Proof.
  intros Hdec Hr. destruct s as [|b s].
  { cbn in Hdec. by inversion Hdec. }
  split; [done|]. rewrite byteAt_cons_0.
  destruct (RuneStart (bv b)) eqn:Hstart; [done|].
  apply first_continuation in Hstart.
  unfold DecodeRuneInString in Hdec. cbn [length Nat.ltb Nat.leb] in Hdec.
  rewrite byteAt_cons_0, Hstart in Hdec.
  cbn -[Z.land Z.lor Z.lnot bv] in Hdec.
  change (Z.lnot (-1)) with 0 in Hdec. rewrite Z.land_0_r in Hdec.
  inversion Hdec. by subst.
Qed.

Lemma DecodeLastRuneInString_start (s : list byte) (r : Z) (size : nat) :
  DecodeLastRuneInString s = (r, size) -> r <> RuneError ->
  RuneStart (byteAt s (length s - size)) = true.
Proof.
  intros Hlast Hr. unfold DecodeLastRuneInString in Hlast.
  destruct (Z.eqb_spec (Z.of_nat (length s)) 0).
  { by inversion Hlast. }
  replace (Z.to_nat (Z.of_nat (length s) - 1)) with (length s - 1)%nat in Hlast by lia.
  destruct (Z.ltb_spec (byteAt s (length s - 1)) RuneSelf) as [Hlt|Hge].
  { inversion Hlast; subst.
    destruct (byteAt_bv s (length s - 1)) as [b Hb]. rewrite Hb in *.
    rewrite RuneStart_bv. unfold RuneSelf in Hlt.
    destruct (Z.leb_spec 0x80 (bv b)); [lia | done]. }
  set (start0 := lastRuneStart s _ _) in Hlast.
  assert (Hstart0 : start0 <= Z.of_nat (length s) - 2)
    by apply lastRuneStart_le.
  set (start := if start0 <? 0 then 0 else start0) in Hlast.
  assert (Hstart : 0 <= start < Z.of_nat (length s)).
  { subst start. destruct (Z.ltb_spec start0 0); lia. }
  clearbody start. clear start0 Hstart0.
  destruct (DecodeRuneInString (drop (Z.to_nat start) s)) as [r' size'] eqn:Hdec.
  destruct (Z.eqb_spec (start + Z.of_nat size') (Z.of_nat (length s))) as [Heq|Hne];
    cbn [negb] in Hlast; inversion Hlast; subst; [|done].
  apply DecodeRuneInString_start in Hdec as [_ Hrs]; [|done].
  rewrite byteAt_drop, Nat.add_0_r in Hrs.
  by replace (length s - size)%nat with (Z.to_nat start) by lia.
Qed.

(** Turn boolean comparisons in hypotheses into propositions. *)
Ltac boolprops :=
  repeat match goal with
  | H : (_ || _) = false |- _ => apply orb_false_iff in H as [? ?]
  | H : (_ || _) = true |- _ => apply orb_true_iff in H
  | H : (_ <? _) = false |- _ => apply Z.ltb_ge in H
  | H : (_ <? _) = true |- _ => apply Z.ltb_lt in H
  | H : (_ <=? _) = false |- _ => apply Z.leb_gt in H
  | H : (_ <=? _) = true |- _ => apply Z.leb_le in H
  end.

(** The second byte of an encoding is looked for among the continuation
    bytes. *)
Lemma first_accept (b : byte) :
  (as_ <=? first (bv b)) = false ->
  0x80 <= lo (acceptRanges (Z.shiftr (first (bv b)) 4)) /\
  hi (acceptRanges (Z.shiftr (first (bv b)) 4)) <= 0xBF.
Proof. destruct b; vm_compute; (discriminate || (intros _; split; discriminate)). Qed.

(** Bytes that follow a string do not change its first rune when they
    begin with a byte that can start a rune. *)
Lemma DecodeRuneInString_app (a b : list byte) :
  a <> [] -> (b = [] \/ RuneStart (byteAt b 0) = true) ->
  DecodeRuneInString (a ++ b) = DecodeRuneInString a.
Proof.
  intros Ha Hb. destruct b as [|c b']; [by rewrite app_nil_r|].
  destruct Hb as [|Hc]; [done|]. rewrite byteAt_cons_0, RuneStart_bv in Hc.
  assert (Hc' : bv c < 0x80 \/ 0xBF < bv c).
  { destruct (Z.leb_spec 0x80 (bv c)), (Z.leb_spec (bv c) 0xBF);
      cbn in Hc; try done; lia. }
  clear Hc.
  destruct a as [|a0 a']; [done|]. clear Ha.
  unfold DecodeRuneInString. rewrite <- app_comm_cons.
  assert (Hb0 : forall l, byteAt (a0 :: l) 0 = bv a0) by reflexivity.
  rewrite !Hb0. clear Hb0.
  replace ((length (a0 :: a' ++ c :: b') <? 1)%nat) with false
    by (symmetry; apply Nat.ltb_ge; cbn; lia).
  replace ((length (a0 :: a') <? 1)%nat) with false
    by (symmetry; apply Nat.ltb_ge; cbn; lia).
  destruct (as_ <=? first (bv a0)) eqn:Hx; [reflexivity|].
  pose proof (first_size _ Hx) as Hsz.
  pose proof (first_accept _ Hx) as [Hlo Hhi].
  set (sz := Z.to_nat (Z.land (first (bv a0)) 7)) in *.
  set (accept := acceptRanges (Z.shiftr (first (bv a0)) 4)) in *.
  clearbody sz accept. clear Hx.
  assert (Hcases : (sz = 2 \/ sz = 3 \/ sz = 4)%nat) by lia.
  clear Hsz.
  destruct Hcases as [Hs|[Hs|Hs]]; subst sz;
    destruct a' as [|a1 [|a2 [|a3 a'']]]; cbn [app length];
    unfold byteAt; cbn [lookup list_lookup Nat.ltb Nat.leb];
    repeat (case_match; try reflexivity); boolprops;
    unfold locb, hicb in *; lia.
Qed.

Lemma trimLeftLoop_out (f : Z -> bool) (fuel : nat) (s : list byte) :
  trimLeftLoop f fuel s = [] \/
  f (fst (DecodeRuneInString (trimLeftLoop f fuel s))) = false.
Proof.
  revert s. induction fuel as [|fuel IH]; intros s; [by left|].
  cbn [trimLeftLoop]. destruct s as [|b s]; [by left|].
  destruct (DecodeRuneInString (b :: s)) as [r w] eqn:Hdec.
  destruct (f r) eqn:Hf; [apply IH|].
  right. by rewrite Hdec.
Qed.

(** The index [lastIndexFunc] finds is where the last rune of a prefix
    starts, that rune is rejected by [f], and the prefix ends where a rune
    can start. *)
Lemma lastIndexLoop_Some (f : Z -> bool) (s : list byte) (fuel i k : nat) :
  f RuneError = false ->
  (i <= length s)%nat ->
  (i = length s \/ RuneStart (byteAt s i) = true) ->
  lastIndexLoop f fuel s i = Some k ->
  exists j r size,
    (0 < j <= length s)%nat /\
    (j = length s \/ RuneStart (byteAt s j) = true) /\
    DecodeLastRuneInString (take j s) = (r, size) /\
    f r = false /\ k = (j - size)%nat.
Proof.
  intros Hferr. revert i. induction fuel as [|fuel IH]; intros i Hi Hinv; [done|].
  cbn [lastIndexLoop]. destruct (Nat.ltb_spec 0 i); [|done].
  assert (Hlen : length (take i s) = i) by (rewrite length_take; lia).
  assert (Hne : take i s <> [])
    by (intros Hnil; rewrite Hnil in Hlen; cbn in Hlen; lia).
  destruct (DecodeLastRuneInString (take i s)) as [r size] eqn:Hlast.
  destruct (DecodeLastRuneInString_width _ _ _ Hne Hlast) as [Hsize _].
  rewrite Hlen in Hsize.
  destruct (f r) eqn:Hfr; cbn [negb].
  - intros Hloop. apply (IH (i - size)%nat).
    + lia.
    + right. assert (Hr : r <> RuneError) by congruence.
      pose proof (DecodeLastRuneInString_start _ _ _ Hlast Hr) as Hrs.
      rewrite Hlen in Hrs. rewrite byteAt_take in Hrs; [exact Hrs | lia].
    + done.
  - intros [= <-]. exists i, r, size. split_and!; try done; lia.
Qed.

Lemma drop_take_app (s : list byte) (i j : nat) :
  (i <= j)%nat -> drop i s = drop i (take j s) ++ drop j s.
Proof.
  intros Hij. destruct (decide (j <= length s)%nat).
  - rewrite <- (take_drop j s) at 1.
    by rewrite drop_app_le by (rewrite length_take; lia).
  - rewrite (drop_ge s j) by lia. rewrite take_ge by lia.
    by rewrite app_nil_r.
Qed.

(** [TrimRightFunc] returns the empty string or a prefix whose last rune
    [f] rejects and whose first rune is the first rune of the string. *)
Lemma TrimRightFunc_out (f : Z -> bool) (s : list byte) :
  f RuneError = false ->
  TrimRightFunc s f = [] \/
  (f (fst (DecodeLastRuneInString (TrimRightFunc s f))) = false /\
   DecodeRuneInString (TrimRightFunc s f) = DecodeRuneInString s).
Proof.
  intros Hferr. unfold TrimRightFunc, lastIndexFunc.
  destruct (lastIndexLoop f (S (length s)) s (length s)) as [k|] eqn:Hloop;
    [|by left].
  apply lastIndexLoop_Some in Hloop
    as (j & r & size & Hj & Hinv & Hlast & Hfr & ->); [|done|lia|by left].
  assert (Hlen : length (take j s) = j) by (rewrite length_take; lia).
  assert (Hne : take j s <> [])
    by (intros Hnil; rewrite Hnil in Hlen; cbn in Hlen; lia).
  destruct (DecodeLastRuneInString_width _ _ _ Hne Hlast) as [Hsize Hfwd].
  rewrite Hlen in Hsize, Hfwd.
  rewrite byteAt_take in Hfwd by lia.
  assert (Hrest : drop j s = [] \/ RuneStart (byteAt (drop j s) 0) = true).
  { destruct Hinv as [->|Hrs]; [left; by rewrite drop_all|].
    right. by rewrite byteAt_drop, Nat.add_0_r. }
  assert (Hout : (if RuneSelf <=? byteAt s (j - size)
                  then let '(_, wid) := DecodeRuneInString (drop (j - size) s) in
                       take (j - size + wid) s
                  else take (j - size + 1) s) = take j s).
  { destruct (RuneSelf <=? byteAt s (j - size)).
    - rewrite (drop_take_app s (j - size) j) by lia.
      rewrite DecodeRuneInString_app; [| |done].
      + destruct (DecodeRuneInString (drop (j - size) (take j s))) as [r' wid].
        cbn [snd] in Hfwd. subst wid. f_equal. lia.
      + intros Hnil. apply (f_equal length) in Hnil.
        rewrite length_drop, Hlen in Hnil. cbn in Hnil. lia.
    - subst size. f_equal. lia. }
  rewrite Hout. right. split; [by rewrite Hlast|].
  rewrite <- (take_drop j s) at 2. symmetry.
  by apply DecodeRuneInString_app.
Qed.

Lemma IsSpace_RuneError : unicode.IsSpace RuneError = false.
Proof. reflexivity. Qed.

(** [TrimFunc] with [unicode.IsSpace] returns a string that neither
    starts nor ends with white space. *)
Lemma TrimFunc_out (s : list byte) :
  unicode.IsSpace (fst (DecodeRuneInString (TrimFunc s unicode.IsSpace))) = false /\
  unicode.IsSpace (fst (DecodeLastRuneInString (TrimFunc s unicode.IsSpace))) = false.
Proof.
  unfold TrimFunc, TrimLeftFunc.
  set (v := trimLeftLoop unicode.IsSpace (length s) s).
  destruct (TrimRightFunc_out unicode.IsSpace v IsSpace_RuneError)
    as [->|[Hlast Hfirst]]; [by split|].
  split; [|done]. rewrite Hfirst.
  destruct (trimLeftLoop_out unicode.IsSpace (length s) s) as [Hv|Hv];
    fold v in Hv; [by rewrite Hv | done].
Qed.

Lemma scanStart_Stopped (s t : list byte) :
  scanStart s = Stopped t ->
  (exists p, s = p ++ t) /\
  (t = [] \/ exists c t', t = c :: t' /\ bv c < RuneSelf /\
                          asciiSpace (bv c) = false).
Proof.
  induction s as [|c s IH]; cbn [scanStart].
  - intros [= <-]. split; [by exists [] | by left].
  - destruct (Z.leb_spec RuneSelf (bv c)); [done|].
    destruct (asciiSpace (bv c)) eqn:Hsp.
    + intros Hs. destruct (IH Hs) as [[p ->] Ht]. split; [by exists (c :: p) | done].
    + intros [= <-]. split; [by exists []|]. right. by exists c, s.
Qed.

Lemma scanStop_eq (r : list byte) : scanStop r = scanStart r.
Proof. induction r as [|c r IH]; cbn; [done|]. by rewrite IH. Qed.

(** The result of [strings.TrimSpace] neither starts nor ends with white
    space. *)
Lemma TrimSpaceBytes_out (s : list byte) :
  unicode.IsSpace (fst (DecodeRuneInString (TrimSpaceBytes s))) = false /\
  unicode.IsSpace (fst (DecodeLastRuneInString (TrimSpaceBytes s))) = false.
Proof.
  unfold TrimSpaceBytes.
  destruct (scanStart s) as [t|rest] eqn:Hstart; [|apply TrimFunc_out].
  destruct (scanStop (rev t)) as [r|r'] eqn:Hstop; [|apply TrimFunc_out].
  rewrite scanStop_eq in Hstop.
  apply scanStart_Stopped in Hstart as [_ Ht].
  apply scanStart_Stopped in Hstop as [[p Hp] Hr].
  destruct Hr as [->|(d & r' & -> & Hd & Hdsp)]; [by split|].
  cbn [rev]. pose proof (bv_range d).
  split.
  - assert (Ht' : t = (rev r' ++ [d]) ++ rev p).
    { rewrite <- (rev_involutive t), Hp, rev_app_distr. by cbn [rev]. }
    destruct Ht as [->|(c & t' & -> & Hc & Hcsp)].
    { by destruct (rev r'). }
    pose proof (bv_range c).
    destruct (rev r' ++ [d]) as [|c' o'] eqn:Ho.
    { by destruct (rev r'). }
    cbn in Ht'. injection Ht' as <- _.
    rewrite DecodeRuneInString_ascii by done. cbn [fst].
    by rewrite IsSpace_ascii by lia.
  - rewrite DecodeLastRuneInString_ascii by done. cbn [fst].
    by rewrite IsSpace_ascii by lia.
Qed.

(** A message is left as it is exactly when it neither starts nor ends
    with white space. *)
Lemma TrimSpace_fixed (s : string) :
  TrimSpace s = s <->
  hasLeadingSpace s = false /\ hasTrailingSpace s = false.
Proof.
  split; [|intros [Hl Hr]; by apply TrimSpace_id].
  unfold TrimSpace, hasLeadingSpace, hasTrailingSpace, of_bytes, bytes_of.
  intros Hfix.
  assert (Hb : TrimSpaceBytes (list_byte_of_string s) = list_byte_of_string s).
  { rewrite <- Hfix at 2. by rewrite list_byte_of_string_of_list_byte. }
  rewrite <- Hb. apply TrimSpaceBytes_out.
Qed.

(** The variant generator returns two entries exactly for the messages
    with white space at either end. *)
Lemma GetAllIterationsOfSMSMessage_count (msg : string) :
  data_munging.GetAllIterationsOfSMSMessage msg =
  if hasLeadingSpace msg || hasTrailingSpace msg then [msg; msg] else [msg].
Proof.
  destruct (GetAllIterationsOfSMSMessage_cases msg) as [[Hfix ->]|[Hne ->]].
  - apply TrimSpace_fixed in Hfix as [-> ->]. reflexivity.
  - destruct (hasLeadingSpace msg) eqn:Hl; [done|].
    destruct (hasTrailingSpace msg) eqn:Hr; [done|].
    destruct Hne. by apply TrimSpace_fixed.
Qed.

End TrimOutput.

(** * Further properties *)

(** ** The variant generator *)

(** X1: the expansion has two entries, both the message as given, exactly
    when the first or the last rune of the message is white space; it is
    the message alone otherwise. *)
Theorem X1_two_variants_iff_surrounding_space (msg : string) :
  data_munging.GetAllIterationsOfSMSMessage msg
  = (if hasLeadingSpace msg || hasTrailingSpace msg
     then [msg; msg] else [msg]) /\
  (length (data_munging.GetAllIterationsOfSMSMessage msg) = 2%nat <->
   hasLeadingSpace msg = true \/ hasTrailingSpace msg = true).
Proof.
  rewrite GetAllIterationsOfSMSMessage_count. split; [done|].
  destruct (hasLeadingSpace msg), (hasTrailingSpace msg); cbn; split;
    intros H; try done; auto; by destruct H.
Qed.

(** ** Hash derivation *)

Section HashingExtras.

Context {L : GoLib}.

Import hashing.

(** The bytes of a positive number end, most significant first, begin,
    with a byte that is not zero. *)
Lemma bytesLE_last (fuel : nat) (n : Z) :
  0 < n < 256 ^ Z.of_nat fuel ->
  exists l b, big.bytesLE fuel n = l ++ [b] /\ bv b <> 0.
Proof.
  revert n. induction fuel as [|fuel IH]; intros n Hn; [cbn in Hn; lia|].
  cbn [big.bytesLE]. destruct (Z.eqb_spec n 0); [lia|].
  rewrite Nat2Z.inj_succ, Z.pow_succ_r in Hn by lia.
  destruct (Z.eq_dec (n / 256) 0) as [Hq|Hq].
  - exists [], (default x00 (Byte.of_N (Z.to_N (n mod 256)))).
    rewrite Hq. split.
    + by destruct fuel.
    + rewrite bv_of_N by (apply Z.mod_pos_bound; lia).
      pose proof (Z.div_mod n 256 ltac:(lia)). lia.
  - destruct (IH (n / 256)) as (l & b & -> & Hb).
    { split.
      - pose proof (Z.div_pos n 256 ltac:(lia) ltac:(lia)). lia.
      - apply Z.div_lt_upper_bound; lia. }
    by exists (default x00 (Byte.of_N (Z.to_N (n mod 256))) :: l), b.
Qed.

Lemma Bytes_head (x : Z) :
  (x = 0 /\ big.Bytes x = []) \/
  (x <> 0 /\ exists b rest, big.Bytes x = b :: rest /\ bv b <> 0).
Proof.
  unfold big.Bytes. destruct (Z.eq_dec x 0) as [->|Hx]; [by left|].
  right. split; [done|].
  set (n := Z.abs x). assert (0 < n) by (subst n; lia).
  destruct (bytesLE_last (S (Z.to_nat (Z.log2 n))) n) as (l & b & -> & Hb).
  { pose proof (Z.log2_spec n ltac:(lia)) as [_ Hlt].
    pose proof (Z.log2_nonneg n).
    split; [lia|].
    rewrite Nat2Z.inj_succ, Z2Nat.id by lia.
    eapply Z.lt_le_trans; [exact Hlt|].
    apply Z.pow_le_mono_l. lia. }
  exists b, (rev l). split; [|done].
  by rewrite rev_app_distr.
Qed.

Lemma ecdhDeriveSecret_Ok privateKey publicKey (t t' : trace) secret :
  ecdhDeriveSecret privateKey publicKey t = (Ok secret, t') ->
  P384_IsOnCurve (ecdsa.X publicKey) (ecdsa.Y publicKey) = true /\
  secret = secretOf privateKey publicKey /\
  t' = t ++ [scalarMultOf privateKey publicKey].
Proof.
  unfold ecdhDeriveSecret, secretOf, scalarMultOf.
  destruct (P384_IsOnCurve _ _); cbn [negb]; [|done].
  unfold mbind, mret, M_bind, M_ret, emit.
  destruct (P384_ScalarMult _ _ _) as [x y]. cbn [fst].
  by intros [= <- <-].
Qed.

(** X3: the shared secret [ecdhDeriveSecret] returns is the x coordinate
    of the product in big-endian bytes without leading zero bytes: it
    stands for that number, it is empty when the number is zero and
    begins with a byte other than zero otherwise; and one scalar
    multiplication, of the key's point by the bytes of the private scalar,
    has been performed. *)
Theorem X3_shared_secret_is_minimal_big_endian
    privateKey publicKey (t t' : trace) secret :
  ecdhDeriveSecret privateKey publicKey t = (Ok secret, t') ->
  let x := fst (P384_ScalarMult (ecdsa.X publicKey) (ecdsa.Y publicKey)
                  (big.Bytes (ecdsa.D privateKey))) in
  valueBE secret = Z.abs x /\
  (x = 0 -> secret = []) /\
  (x <> 0 -> exists b rest, secret = b :: rest /\ bv b <> 0) /\
  t' = t ++ [EvScalarMult (ecdsa.X publicKey) (ecdsa.Y publicKey)
                          (big.Bytes (ecdsa.D privateKey))].
Proof.
  intros Hrun x.
  apply ecdhDeriveSecret_Ok in Hrun as (_ & -> & ->).
  unfold secretOf. fold x. split_and!.
  - apply Bytes_value.
  - intros ->. reflexivity.
  - intros Hx. destruct (Bytes_head x) as [[? _]|[_ Hhead]]; done.
  - reflexivity.
Qed.

Lemma deriveHashForSMSMessage_Ok (sharedSecret msg hash : list byte) :
  deriveHashForSMSMessage sharedSecret msg = Ok hash <->
  (32 <= length (hkdf_sha256_stream sharedSecret [] msg))%nat /\
  hash = take 32 (hkdf_sha256_stream sharedSecret [] msg).
Proof.
  unfold deriveHashForSMSMessage, io.ReadFull, hkdf.Read, hkdf.New.
  unfold mbind, outcome_bind. cbn [Nat.eqb hkdf.remaining].
  destruct (Nat.ltb_spec (length (hkdf_sha256_stream sharedSecret [] msg)) 32);
    cbn [propagated].
  - split; [done | lia].
  - split; [by intros [= <-] | by intros [_ ->]].
Qed.

(** A successful derivation performed one scalar multiplication, on the
    decoded key. *)
Lemma GetHashForSMSMessage_Ok_events
    publicKeyString agentPrivateKey smsMessage (t t' : trace) hash :
  GetHashForSMSMessage publicKeyString agentPrivateKey smsMessage t
  = (Ok hash, t') ->
  exists k, t' = t ++ [EvScalarMult (ecdsa.X k) (ecdsa.Y k)
                                    (big.Bytes (ecdsa.D agentPrivateKey))].
Proof.
  unfold GetHashForSMSMessage. unfold mbind at 1 2, M_bind, checked, lift.
  destruct (getPublicKeyFromPublicKeyPayload publicKeyString)
    as [k|e|r]; cbn [propagated]; [|done..].
  destruct (ecdhDeriveSecret agentPrivateKey k t) as [[secret|e|r] t1] eqn:Hsecret;
    cbn [propagated]; [|done..].
  apply ecdhDeriveSecret_Ok in Hsecret as (_ & _ & ->).
  intros [= _ <-]. by exists k.
Qed.

(** X2: [GetHashForSMSMessage] returns a hash exactly when the payload
    decodes from base64 and parses to an ECDSA key whose point
    [IsOnCurve] accepts and HKDF can supply 32 bytes; the hash is then the
    first 32 bytes of HKDF-SHA256 with the shared secret as key material,
    no salt and the message as info, and the one event is the scalar
    multiplication. Neither the curve the key declares nor the public part
    of the private key enters the result. *)
Theorem X2_hash_is_hkdf_of_shared_secret
    publicKeyString agentPrivateKey smsMessage (t t' : trace) hash :
  GetHashForSMSMessage publicKeyString agentPrivateKey smsMessage t
  = (Ok hash, t') <->
  exists keyBytes k,
    base64_DecodeString publicKeyString = inr keyBytes /\
    x509_ParsePKIXPublicKey keyBytes = inr (x509.ECDSA k) /\
    P384_IsOnCurve (ecdsa.X k) (ecdsa.Y k) = true /\
    let secret :=
      big.Bytes (fst (P384_ScalarMult (ecdsa.X k) (ecdsa.Y k)
                        (big.Bytes (ecdsa.D agentPrivateKey)))) in
    (32 <= length (hkdf_sha256_stream secret [] smsMessage))%nat /\
    hash = take 32 (hkdf_sha256_stream secret [] smsMessage) /\
    t' = t ++ [EvScalarMult (ecdsa.X k) (ecdsa.Y k)
                            (big.Bytes (ecdsa.D agentPrivateKey))].
Proof.
  unfold GetHashForSMSMessage. unfold mbind at 1 2, M_bind, checked, lift.
  split.
  - destruct (getPublicKeyFromPublicKeyPayload publicKeyString)
      as [k|e|r] eqn:Hkey; cbn [propagated]; [|done..].
    apply getPublicKeyFromPublicKeyPayload_Ok in Hkey
      as (keyBytes & Hdecode & Hparse).
    destruct (ecdhDeriveSecret agentPrivateKey k t) as [[secret|e|r] t1] eqn:Hsecret;
      cbn [propagated]; [|done..].
    apply ecdhDeriveSecret_Ok in Hsecret as (Hon & -> & ->).
    intros [= Hhash <-]. apply deriveHashForSMSMessage_Ok in Hhash as [Hlen ->].
    by exists keyBytes, k.
  - intros (keyBytes & k & Hdecode & Hparse & Hon & Hlen & -> & ->).
    unfold getPublicKeyFromPublicKeyPayload, mbind, outcome_bind.
    rewrite Hdecode. cbn [returned propagated]. rewrite Hparse.
    cbn [returned propagated].
    unfold ecdhDeriveSecret. rewrite Hon. cbn [negb].
    unfold mbind, mret, M_bind, M_ret, emit.
    destruct (P384_ScalarMult _ _ _) as [x y] eqn:Hmult. cbn [fst propagated] in *.
    f_equal. by apply deriveHashForSMSMessage_Ok.
Qed.

End HashingExtras.

Lemma X3_shared_secret_is_minimal_big_endian_witness :
  exists secret,
    hashing.ecdhDeriveSecret (L := Fake.lib) (PrivateKey Fake.agent)
      Fake.generator384 [] = (Ok secret, [scalarMultOf (L := Fake.lib)
                                           (PrivateKey Fake.agent)
                                           Fake.generator384]) /\
    valueBE secret = elliptic.Gx elliptic.P384 /\
    length secret = 48%nat.
Proof.
  eexists. split; [vm_compute; reflexivity|].
  split; [|vm_compute; reflexivity].
  refine (proj1 (X3_shared_secret_is_minimal_big_endian (L := Fake.lib)
                   (PrivateKey Fake.agent) Fake.generator384 [] _ _ _)).
  vm_compute; reflexivity.
Defined.

(** ** The two loops as one loop over the pairs *)

Section LoopFacts.

Context {L : GoLib}.

Lemma rangeM_app {A B} (body : B -> A -> M B) (xs ys : list A) (acc : B)
                 (t : trace) :
  rangeM body (xs ++ ys) acc t =
  match rangeM body xs acc t with
  | (Ok acc', t') => rangeM body ys acc' t'
  | (Err e, t') => (Err e, t')
  | (Panic r, t') => (Panic r, t')
  end.
Proof.
  revert acc t. induction xs as [|x xs IH]; intros acc t; [done|].
  cbn [app rangeM]. rewrite !bind_run.
  destruct (body acc x t) as [[acc'|e|r] t']; [apply IH | done..].
Qed.

Lemma rangeM_map {A A' B} (body : B -> A' -> M B) (h : A -> A')
                 (xs : list A) (acc : B) (t : trace) :
  rangeM body (map h xs) acc t = rangeM (fun b x => body b (h x)) xs acc t.
Proof.
  revert acc t. induction xs as [|x xs IH]; intros acc t; [done|].
  cbn [map rangeM]. rewrite !bind_run.
  destruct (body acc (h x) t) as [[acc'|e|r] t']; [apply IH | done..].
Qed.

(** The nested loops visit the pairs of [list_prod]: keys outermost. *)
Lemma loops_as_pairs agent variants publicKeys acc (t : trace) :
  rangeM (fun messagesToGoogle publicKey =>
            rangeM (hashEntry agent publicKey) variants messagesToGoogle)
         publicKeys acc t
  = rangeM (pairStep agent) (list_prod publicKeys variants) acc t.
Proof.
  revert acc t. induction publicKeys as [|pk publicKeys IH]; intros acc t;
    [done|].
  cbn [rangeM list_prod]. rewrite bind_run, rangeM_app, rangeM_map.
  unfold pairStep at 1. cbn [fst snd].
  destruct (rangeM _ variants acc t) as [[acc'|e|r] t']; [apply IH | done..].
Qed.

Lemma pairStep_run agent acc pair (t : trace) :
  pairStep agent acc pair t =
  (match hashOutcome (fst pair) (PrivateKey agent) (bytes_of (snd pair)) with
   | Ok _ => Ok (acc ++ [submission agent (fst pair) (snd pair)])
   | Err e => Err (Propagate e)
   | Panic r => Panic r
   end, t ++ pairEvents agent pair).
Proof. unfold pairStep, pairEvents. apply hashEntry_run. Qed.

(** When every derivation succeeds the loop appends one entry per pair and
    records the events of every pair, in order. *)
Lemma pairs_all_ok agent pairs acc (t : trace) :
  Forall (fun p => pairOk agent p = true) pairs ->
  rangeM (pairStep agent) pairs acc t =
  (Ok (acc ++ map (fun p => submission agent (fst p) (snd p)) pairs),
   t ++ flat_map (pairEvents agent) pairs).
Proof.
  revert acc t. induction pairs as [|p pairs IH]; intros acc t Hall.
  - cbn. by rewrite !app_nil_r.
  - apply Forall_cons in Hall as [Hp Hall]. unfold pairOk in Hp.
    cbn [rangeM]. rewrite bind_run, pairStep_run.
    destruct (hashOutcome _ _ _); try done.
    rewrite IH by done. cbn [map flat_map]. by rewrite <- !app_assoc.
Qed.

(** The loop stops at the first pair whose derivation fails, with that
    error propagated, after the events of the pairs up to it. *)
Lemma pairs_first_failure agent done_ pair rest e acc (t : trace) :
  Forall (fun p => pairOk agent p = true) done_ ->
  hashOutcome (fst pair) (PrivateKey agent) (bytes_of (snd pair)) = Err e ->
  rangeM (pairStep agent) (done_ ++ pair :: rest) acc t =
  (Err (Propagate e), t ++ flat_map (pairEvents agent) (done_ ++ [pair])).
Proof.
  intros Hdone Hfail. rewrite rangeM_app, pairs_all_ok by done.
  cbn [rangeM]. rewrite bind_run, pairStep_run, Hfail.
  rewrite flat_map_app. cbn [flat_map]. by rewrite app_nil_r, <- app_assoc.
Qed.

Lemma batchOf_pairs agent publicKeys variants :
  map (fun p => submission agent (fst p) (snd p)) (list_prod publicKeys variants)
  = batchOf agent publicKeys variants.
Proof.
  unfold batchOf. induction publicKeys as [|pk publicKeys IH]; [done|].
  cbn [list_prod flat_map]. rewrite map_app, IH. f_equal.
  by rewrite map_map.
Qed.

(** The events of a pair whose derivation succeeds: the call and one
    scalar multiplication. *)
Lemma pairEvents_ok agent pair :
  pairOk agent pair = true ->
  exists x y,
    pairEvents agent pair =
    [EvHash (fst pair) (bytes_of (snd pair));
     EvScalarMult x y (big.Bytes (ecdsa.D (PrivateKey agent)))].
Proof.
  unfold pairOk, pairEvents, hashOutcome, hashEvents.
  destruct (hashing.GetHashForSMSMessage _ _ _ []) as [[hash|e|r] t'] eqn:Hrun;
    cbn [fst snd isOk]; [|done..].
  intros _. apply GetHashForSMSMessage_Ok_events in Hrun
    as (k & ->). by exists (ecdsa.X k), (ecdsa.Y k).
Qed.

End LoopFacts.

(** ** Key resolution and the orchestrator, case by case *)

Section OrchestratorExtras.

Context {L : GoLib}.

Lemma badStatus_false (httpResponse : http.Response) :
  badStatus httpResponse = false <->
  200 <= http.StatusCode httpResponse <= 299.
Proof.
  unfold badStatus. rewrite orb_false_iff, !Z.ltb_ge. lia.
Qed.

Lemma requestsOf_app (evs1 evs2 : trace) :
  requestsOf (evs1 ++ evs2) = requestsOf evs1 ++ requestsOf evs2.
Proof. apply List.filter_app. Qed.

Lemma requestsOf_none (evs : trace) :
  Forall (fun e => isRequest e = false) evs -> requestsOf evs = [].
Proof.
  induction 1 as [|e evs He _ IH]; [done|].
  unfold requestsOf in *. cbn [List.filter]. by rewrite He.
Qed.

(** Key resolution sends nothing, or the lookup request and nothing else. *)
Lemma GetPhoneNumberPublicKeys_events partner ctx phoneNumber (t : trace) :
  snd (GetPhoneNumberPublicKeys partner ctx phoneNumber t) = t \/
  exists requestBody client,
    json_Marshal_phoneNumbers {[ "phoneNumbers"%string := [phoneNumber] ]}
    = inr requestBody /\
    oauth2.GetHttpClient ctx (ServiceAccountJSONFile partner) = Ok client /\
    snd (GetPhoneNumberPublicKeys partner ctx phoneNumber t)
    = t ++ [EvDo client (requestTo ApiGetPublicKeysUrl requestBody)].
Proof.
  unfold GetPhoneNumberPublicKeys.
  rewrite bind_run, checked_lift_run.
  destruct (json_Marshal_phoneNumbers _) as [e|requestBody] eqn:Hbody;
    cbn [returned propagated]; [by left|].
  rewrite bind_run, checked_lift_run. unfold http_NewRequest.
  destruct (http_NewRequest_check _ _) as [e|]; cbn [propagated]; [by left|].
  rewrite bind_run, checked_lift_run.
  destruct (oauth2.GetHttpClient _ _) as [client|e|r] eqn:Hclient;
    cbn [propagated]; try by left.
  right. exists requestBody, client. split_and!; [done..|].
  rewrite bind_run. unfold checked at 1, Do.
  change (http.Header_Set (http.Header_Set _ _ _) _ _)
    with (requestTo ApiGetPublicKeysUrl requestBody).
  destruct (http_Client_Do t client _) as [e|httpResponse];
    cbn [returned propagated]; [done|].
  destruct (badStatus httpResponse); [done|].
  rewrite bind_run, checked_lift_run.
  by destruct (json_Decode_verifiedSMSResponse _).
Qed.

(** When key resolution does not return keys, [MarkSMSAsVerified] ends
    there. *)
Lemma MarkSMSAsVerified_without_keys partner ctx phoneNumber agent smsMessage
    (t : trace) :
  match GetPhoneNumberPublicKeys partner ctx phoneNumber t with
  | (Ok [], t1) =>
      MarkSMSAsVerified partner ctx phoneNumber agent smsMessage t
      = (Ok false, t1)
  | (Ok _, _) => True
  | (Err e, t1) =>
      MarkSMSAsVerified partner ctx phoneNumber agent smsMessage t
      = (Err (Propagate e), t1)
  | (Panic r, t1) =>
      MarkSMSAsVerified partner ctx phoneNumber agent smsMessage t
      = (Panic r, t1)
  end.
Proof.
  destruct (GetPhoneNumberPublicKeys partner ctx phoneNumber t)
    as [[[|pk pks]|e|r] t1] eqn:Hkeys; try done;
    unfold MarkSMSAsVerified; rewrite bind_run; unfold checked at 1;
    by rewrite Hkeys.
Qed.

(** X4: a successful key resolution called [client.Do] once, with the
    lookup request, and this call is its one event; the answer had a
    status from 200 to 299 and a body that decoded, and the keys returned
    are the [publicKey] fields of the entries of the queried phone number,
    in order: every key returned belongs to an entry of that number, and
    there are no more keys than entries. The event is the program's call:
    the token grant that the client's transport posts to its token
    endpoint within [client.Do] is not an event. *)
Theorem X4_keys_come_from_a_decoded_success_response
    partner ctx phoneNumber (t t1 : trace) publicKeys :
  GetPhoneNumberPublicKeys partner ctx phoneNumber t = (Ok publicKeys, t1) ->
  exists requestBody client httpResponse response,
    json_Marshal_phoneNumbers {[ "phoneNumbers"%string := [phoneNumber] ]}
    = inr requestBody /\
    oauth2.GetHttpClient ctx (ServiceAccountJSONFile partner) = Ok client /\
    t1 = t ++ [EvDo client (requestTo ApiGetPublicKeysUrl requestBody)] /\
    http_Client_Do t client (requestTo ApiGetPublicKeysUrl requestBody)
    = inr httpResponse /\
    200 <= http.StatusCode httpResponse <= 299 /\
    json_Decode_verifiedSMSResponse (http.ResponseBody httpResponse)
    = inr response /\
    publicKeys = map PublicKey
                   (filter (fun keys => PhoneNumber keys = phoneNumber)
                           (UserKeys response)) /\
    (forall key, key ∈ publicKeys ->
       exists entry, entry ∈ UserKeys response /\
                     PhoneNumber entry = phoneNumber /\
                     PublicKey entry = key) /\
    (length publicKeys <= length (UserKeys response))%nat.
Proof.
  intros Hrun.
  apply GetPhoneNumberPublicKeys_Ok in Hrun
    as (requestBody & client & httpResponse & response
        & Hbody & Hclient & Hdo & Hstatus & Hdecode & -> & ->).
  exists requestBody, client, httpResponse, response.
  apply badStatus_false in Hstatus.
  split_and!; try done; try lia.
  - intros key Hkey. apply list_elem_of_fmap in Hkey as (entry & -> & Hentry).
    apply list_elem_of_filter in Hentry as [Hphone Hentry]. by exists entry.
  - rewrite length_map. apply length_filter.
Qed.

(** X5: when the call of [client.Do] with the lookup request is answered
    with a status outside 200..299, key resolution returns the
    InternalService error whose message ends with the status text, without
    decoding the body, and [MarkSMSAsVerified] returns that error
    propagated; that call of [client.Do] is the one event of either run
    (the token grant the client's transport posts within the call is not
    an event). *)
Theorem X5_lookup_status_outside_2xx_is_an_error
    partner ctx phoneNumber agent smsMessage (t : trace)
    requestBody client httpResponse :
  json_Marshal_phoneNumbers {[ "phoneNumbers"%string := [phoneNumber] ]}
  = inr requestBody ->
  http_NewRequest_check "POST" ApiGetPublicKeysUrl = None ->
  oauth2.GetHttpClient ctx (ServiceAccountJSONFile partner) = Ok client ->
  http_Client_Do t client (requestTo ApiGetPublicKeysUrl requestBody)
  = inr httpResponse ->
  ~ (200 <= http.StatusCode httpResponse <= 299) ->
  let err := InternalService ErrInternalService
               ("bad response from Google: " +:+ http.Status httpResponse) ∅ in
  let t1 := t ++ [EvDo client (requestTo ApiGetPublicKeysUrl requestBody)] in
  GetPhoneNumberPublicKeys partner ctx phoneNumber t = (Err err, t1) /\
  MarkSMSAsVerified partner ctx phoneNumber agent smsMessage t
  = (Err (Propagate err), t1).
Proof.
  intros Hbody Hcheck Hclient Hdo Hstatus err t1.
  assert (Hbad : badStatus httpResponse = true).
  { destruct (badStatus httpResponse) eqn:Hb; [done|].
    by apply badStatus_false in Hb. }
  assert (Hrun : GetPhoneNumberPublicKeys partner ctx phoneNumber t = (Err err, t1)).
  { unfold GetPhoneNumberPublicKeys.
    rewrite bind_run, checked_lift_run, Hbody. cbn [returned propagated].
    rewrite bind_run, checked_lift_run. unfold http_NewRequest. rewrite Hcheck.
    cbn [propagated].
    rewrite bind_run, checked_lift_run, Hclient. cbn [propagated].
    rewrite bind_run. unfold checked at 1, Do.
    change (http.Header_Set (http.Header_Set _ _ _) _ _)
      with (requestTo ApiGetPublicKeysUrl requestBody).
    rewrite Hdo. cbn [returned propagated]. by rewrite Hbad. }
  split; [done|].
  pose proof (MarkSMSAsVerified_without_keys partner ctx phoneNumber agent
                smsMessage t) as Hmark.
  by rewrite Hrun in Hmark.
Qed.

(** X6: when the service-account file parses but its private key holds no
    PEM block, [GetHttpClient] panics, and so do key resolution and
    [MarkSMSAsVerified], before any request is sent. *)
Theorem X6_key_without_pem_block_panics
    partner ctx phoneNumber agent smsMessage (t : trace)
    requestBody serviceAccount :
  json_Marshal_phoneNumbers {[ "phoneNumbers"%string := [phoneNumber] ]}
  = inr requestBody ->
  http_NewRequest_check "POST" ApiGetPublicKeysUrl = None ->
  json_Unmarshal_serviceAccountDetails (ServiceAccountJSONFile partner)
  = inr serviceAccount ->
  pem_Decode (bytes_of (PrivateKeyPEM serviceAccount)) = None ->
  exists reason,
    oauth2.GetHttpClient ctx (ServiceAccountJSONFile partner) = Panic reason /\
    GetPhoneNumberPublicKeys partner ctx phoneNumber t = (Panic reason, t) /\
    MarkSMSAsVerified partner ctx phoneNumber agent smsMessage t
    = (Panic reason, t).
Proof.
  intros Hbody Hcheck Hjson Hpem.
  assert (Hclient : oauth2.GetHttpClient ctx (ServiceAccountJSONFile partner)
                    = Panic "invalid memory address or nil pointer dereference").
  { unfold oauth2.GetHttpClient, mbind, outcome_bind.
    rewrite Hjson. cbn [returned propagated]. by rewrite Hpem. }
  eexists. split; [exact Hclient|].
  assert (Hrun : GetPhoneNumberPublicKeys partner ctx phoneNumber t
                 = (Panic "invalid memory address or nil pointer dereference", t)).
  { unfold GetPhoneNumberPublicKeys.
    rewrite bind_run, checked_lift_run, Hbody. cbn [returned propagated].
    rewrite bind_run, checked_lift_run. unfold http_NewRequest. rewrite Hcheck.
    cbn [propagated].
    by rewrite bind_run, checked_lift_run, Hclient. }
  split; [done|].
  pose proof (MarkSMSAsVerified_without_keys partner ctx phoneNumber agent
                smsMessage t) as Hmark.
  by rewrite Hrun in Hmark.
Qed.

(** [MarkSMSAsVerified] once key resolution has returned at least one
    key, with the loops as one loop over the pairs. *)
Lemma MarkSMSAsVerified_pairs partner ctx phoneNumber agent smsMessage
    (t t1 : trace) publicKeys :
  GetPhoneNumberPublicKeys partner ctx phoneNumber t = (Ok publicKeys, t1) ->
  publicKeys <> [] ->
  MarkSMSAsVerified partner ctx phoneNumber agent smsMessage t =
  match rangeM (pairStep agent)
          (list_prod publicKeys
             (data_munging.GetAllIterationsOfSMSMessage smsMessage))
          [] (t1 ++ [EvExpand smsMessage]) with
  | (Ok batch, t2) => submitRun partner ctx batch t2
  | (Err e, t2) => (Err e, t2)
  | (Panic r, t2) => (Panic r, t2)
  end.
Proof.
  intros Hkeys Hne.
  rewrite (MarkSMSAsVerified_with_keys _ _ _ _ _ _ _ _ Hkeys Hne).
  by rewrite loops_as_pairs.
Qed.

Lemma pairOk_run agent pair (t : trace) :
  pairOk agent pair =
  isOk (fst (hashing.GetHashForSMSMessage (fst pair) (PrivateKey agent)
               (bytes_of (snd pair)) t)).
Proof. unfold pairOk. by rewrite GetHashForSMSMessage_run. Qed.

(** X7: the derivations run in key-major order and the first one that
    fails ends the call: its error, propagated once more, is what
    [MarkSMSAsVerified] returns, the pairs before it were derived, it was
    attempted, and no pair after it was. *)
Theorem X7_first_failing_pair_decides_the_error
    partner ctx phoneNumber agent smsMessage (t t1 : trace)
    publicKeys done_ pair rest e :
  GetPhoneNumberPublicKeys partner ctx phoneNumber t = (Ok publicKeys, t1) ->
  list_prod publicKeys (data_munging.GetAllIterationsOfSMSMessage smsMessage)
  = done_ ++ pair :: rest ->
  Forall (fun p =>
            isOk (fst (hashing.GetHashForSMSMessage (fst p) (PrivateKey agent)
                         (bytes_of (snd p)) t)) = true) done_ ->
  fst (hashing.GetHashForSMSMessage (fst pair) (PrivateKey agent)
         (bytes_of (snd pair)) t) = Err e ->
  MarkSMSAsVerified partner ctx phoneNumber agent smsMessage t
  = (Err (Propagate e),
     t1 ++ EvExpand smsMessage
        :: flat_map (pairEvents agent) (done_ ++ [pair])).
Proof.
  intros Hkeys Hpairs Hdone Hfail.
  assert (Hne : publicKeys <> []).
  { intros ->. cbn in Hpairs. by destruct done_. }
  rewrite (MarkSMSAsVerified_pairs _ _ _ _ _ _ _ _ Hkeys Hne), Hpairs.
  rewrite GetHashForSMSMessage_run in Hfail. cbn [fst] in Hfail.
  rewrite (pairs_first_failure agent done_ pair rest e); [|
    eapply Forall_impl; [exact Hdone|]; intros p Hp;
    by rewrite (pairOk_run agent p t) | done].
  by rewrite <- app_assoc.
Qed.

Lemma pairs_ok_of_loops agent publicKeys variants :
  Forall (fun pk =>
            Forall (fun v => isOk (hashOutcome pk (PrivateKey agent)
                                     (bytes_of v)) = true) variants)
         publicKeys ->
  Forall (fun p => pairOk agent p = true) (list_prod publicKeys variants).
Proof.
  intros Hall. apply Forall_forall. intros [pk v] Hin.
  apply list_elem_of_In, in_prod_iff in Hin as [Hpk Hv].
  rewrite Forall_forall in Hall.
  specialize (Hall pk (proj2 (list_elem_of_In _ _) Hpk)).
  rewrite Forall_forall in Hall.
  exact (Hall v (proj2 (list_elem_of_In _ _) Hv)).
Qed.

(** The last leg returns [(true, nil)] only for an answer with a status
    from 200 to 299. *)
Lemma submitRun_true partner ctx batch (t t' : trace) b :
  submitRun partner ctx batch t = (Ok b, t') ->
  exists requestBody client httpResponse,
    json_Marshal_batchSubmitRequest {| Messages := batch |} = inr requestBody /\
    oauth2.GetHttpClient ctx (ServiceAccountJSONFile partner) = Ok client /\
    http_Client_Do t client (requestTo ApiSubmitHashesUrl requestBody)
    = inr httpResponse /\
    badStatus httpResponse = false /\
    t' = t ++ [EvDo client (requestTo ApiSubmitHashesUrl requestBody)].
Proof.
  unfold submitRun.
  destruct (json_Marshal_batchSubmitRequest _) as [e|requestBody]; [done|].
  destruct (http_NewRequest_check _ _); [done|].
  destruct (oauth2.GetHttpClient _ _) as [client|e|r]; try done.
  destruct (http_Client_Do _ _ _) as [e|httpResponse] eqn:Hdo; [done|].
  destruct (badStatus httpResponse) eqn:Hstatus; [done|].
  intros [= <- <-]. by exists requestBody, client, httpResponse.
Qed.

(** A successful call, event by event. *)
Lemma MarkSMSAsVerified_true_run partner ctx phoneNumber agent smsMessage
    (t t' : trace) :
  MarkSMSAsVerified partner ctx phoneNumber agent smsMessage t = (Ok true, t') ->
  exists publicKeys client lookupBody submitBody httpResponse,
    let variants := data_munging.GetAllIterationsOfSMSMessage smsMessage in
    let pairs := list_prod publicKeys variants in
    let lookup := EvDo client (requestTo ApiGetPublicKeysUrl lookupBody) in
    let t2 := t ++ lookup :: EvExpand smsMessage
                :: flat_map (pairEvents agent) pairs in
    GetPhoneNumberPublicKeys partner ctx phoneNumber t
    = (Ok publicKeys, t ++ [lookup]) /\
    publicKeys <> [] /\
    Forall (fun p => pairOk agent p = true) pairs /\
    json_Marshal_batchSubmitRequest
      {| Messages := batchOf agent publicKeys variants |} = inr submitBody /\
    http_Client_Do t2 client (requestTo ApiSubmitHashesUrl submitBody)
    = inr httpResponse /\
    200 <= http.StatusCode httpResponse <= 299 /\
    t' = t2 ++ [EvDo client (requestTo ApiSubmitHashesUrl submitBody)].
Proof.
  intros Hrun.
  pose proof (MarkSMSAsVerified_without_keys partner ctx phoneNumber agent
                smsMessage t) as Hnone.
  destruct (GetPhoneNumberPublicKeys partner ctx phoneNumber t)
    as [[publicKeys|e|r] t1] eqn:Hkeys; [|congruence..].
  destruct (decide (publicKeys = [])) as [->|Hne]; [congruence|]. clear Hnone.
  pose proof Hkeys as Hinv.
  apply GetPhoneNumberPublicKeys_Ok in Hinv
    as (lookupBody & client & _ & _ & _ & Hclient & _ & _ & _ & _ & ->).
  rewrite (MarkSMSAsVerified_pairs _ _ _ _ _ _ _ _ Hkeys Hne) in Hrun.
  destruct (outer_loop_run agent
              (data_munging.GetAllIterationsOfSMSMessage smsMessage)
              publicKeys []
              ((t ++ [EvDo client (requestTo ApiGetPublicKeysUrl lookupBody)])
               ++ [EvExpand smsMessage]))
    as (evs & _ & _ & Hres).
  cbv zeta in Hres. rewrite loops_as_pairs in Hres.
  destruct Hres as [[Hall Hfst]|[_ [e Hfst]]].
  2: { destruct (rangeM _ _ _ _) as [[]]; cbn [fst] in Hfst; congruence. }
  apply pairs_ok_of_loops in Hall.
  rewrite (pairs_all_ok _ _ _ _ Hall) in Hrun. cbn [app] in Hrun.
  rewrite batchOf_pairs in Hrun.
  apply submitRun_true in Hrun
    as (submitBody & client' & httpResponse & Hbody & Hclient' & Hdo & Hstatus & ->).
  assert (client' = client) as -> by congruence.
  rewrite <- !app_assoc in Hdo. cbn [app] in Hdo.
  exists publicKeys, client, lookupBody, submitBody, httpResponse.
  cbv zeta. apply badStatus_false in Hstatus.
  split_and!; try done; try lia.
  by rewrite <- !app_assoc.
Qed.

(** The client [GetHttpClient] builds asks for the verifiedsms scope and
    fetches its tokens from Google's token endpoint. *)
Lemma GetHttpClient_Ok ctx serviceAccountJSON client :
  oauth2.GetHttpClient ctx serviceAccountJSON = Ok client ->
  jwt.TokenURL client = google.JWTTokenURL /\
  jwt.Scopes client = [oauth2.Scope].
Proof.
  unfold oauth2.GetHttpClient, mbind, outcome_bind.
  destruct (json_Unmarshal_serviceAccountDetails _) as [e|serviceAccount];
    cbn [returned propagated]; [done|].
  destruct (pem_Decode _) as [block|]; [|done].
  by intros [= <-].
Qed.

(** X8: the events of a successful call are, in this order: a call of
    [client.Do] with the lookup request, the expansion, for every
    (key, variant) pair in key-major order the derivation with its one
    scalar multiplication, and a call of [client.Do] with the submission
    request, which carries the batch of all pairs and is answered with a
    status from 200 to 299. Each of the two calls is made with a client
    that [GetHttpClient] built from the partner's service-account file,
    whose token endpoint is [google.JWTTokenURL]; the token grants the
    clients' transports post there within [client.Do] are not events. *)
Theorem X8_successful_call_event_by_event
    partner ctx phoneNumber agent smsMessage (t t' : trace) :
  MarkSMSAsVerified partner ctx phoneNumber agent smsMessage t = (Ok true, t') ->
  exists publicKeys lookupClient submitClient lookupBody submitBody httpResponse,
    let variants := data_munging.GetAllIterationsOfSMSMessage smsMessage in
    let pairs := list_prod publicKeys variants in
    let lookup := EvDo lookupClient (requestTo ApiGetPublicKeysUrl lookupBody) in
    let t2 := t ++ lookup :: EvExpand smsMessage
                :: flat_map (pairEvents agent) pairs in
    oauth2.GetHttpClient ctx (ServiceAccountJSONFile partner) = Ok lookupClient /\
    jwt.TokenURL lookupClient = google.JWTTokenURL /\
    oauth2.GetHttpClient ctx (ServiceAccountJSONFile partner) = Ok submitClient /\
    jwt.TokenURL submitClient = google.JWTTokenURL /\
    GetPhoneNumberPublicKeys partner ctx phoneNumber t
    = (Ok publicKeys, t ++ [lookup]) /\
    Forall (fun p =>
              exists x y,
                pairEvents agent p =
                [EvHash (fst p) (bytes_of (snd p));
                 EvScalarMult x y (big.Bytes (ecdsa.D (PrivateKey agent)))])
           pairs /\
    json_Marshal_batchSubmitRequest
      {| Messages := batchOf agent publicKeys variants |} = inr submitBody /\
    http_Client_Do t2 submitClient (requestTo ApiSubmitHashesUrl submitBody)
    = inr httpResponse /\
    200 <= http.StatusCode httpResponse <= 299 /\
    t' = t2 ++ [EvDo submitClient (requestTo ApiSubmitHashesUrl submitBody)].
Proof.
  intros Hrun.
  destruct (MarkSMSAsVerified_true_run _ _ _ _ _ _ _ Hrun)
    as (publicKeys & client & lookupBody & submitBody & httpResponse
        & Hkeys & _ & Hall & Hbody & Hdo & Hstatus & ->).
  cbv zeta in Hkeys, Hall, Hbody, Hdo, Hstatus.
  pose proof Hkeys as Hinv.
  apply GetPhoneNumberPublicKeys_Ok in Hinv
    as (lookupBody' & client' & _ & _ & _ & Hclient & _ & _ & _ & _ & Hsame).
  apply app_inv_head in Hsame.
  assert (client' = client) as -> by congruence.
  destruct (GetHttpClient_Ok _ _ _ Hclient) as [Htoken _].
  exists publicKeys, client, client, lookupBody, submitBody, httpResponse.
  cbv zeta. split_and!; try done; try lia.
  eapply Forall_impl; [exact Hall|]. intros p Hp. by apply pairEvents_ok.
Qed.

(** X9: when every derivation succeeded and the submission service
    answers with a status outside 200..299, [MarkSMSAsVerified] returns
    the InternalService error whose message ends with the status text,
    after the submission request has been sent. *)
Theorem X9_submission_status_outside_2xx_is_an_error
    partner ctx phoneNumber agent smsMessage (t t1 : trace)
    publicKeys submitBody client httpResponse :
  let variants := data_munging.GetAllIterationsOfSMSMessage smsMessage in
  let pairs := list_prod publicKeys variants in
  let t2 := t1 ++ EvExpand smsMessage :: flat_map (pairEvents agent) pairs in
  GetPhoneNumberPublicKeys partner ctx phoneNumber t = (Ok publicKeys, t1) ->
  publicKeys <> [] ->
  Forall (fun p =>
            isOk (fst (hashing.GetHashForSMSMessage (fst p) (PrivateKey agent)
                         (bytes_of (snd p)) t)) = true) pairs ->
  json_Marshal_batchSubmitRequest
    {| Messages := batchOf agent publicKeys variants |} = inr submitBody ->
  http_NewRequest_check "POST" ApiSubmitHashesUrl = None ->
  oauth2.GetHttpClient ctx (ServiceAccountJSONFile partner) = Ok client ->
  http_Client_Do t2 client (requestTo ApiSubmitHashesUrl submitBody)
  = inr httpResponse ->
  ~ (200 <= http.StatusCode httpResponse <= 299) ->
  MarkSMSAsVerified partner ctx phoneNumber agent smsMessage t
  = (Err (InternalService ErrInternalService
            ("bad response from Google: " +:+ http.Status httpResponse) ∅),
     t2 ++ [EvDo client (requestTo ApiSubmitHashesUrl submitBody)]).
Proof.
  cbv zeta. intros Hkeys Hne Hall Hbody Hcheck Hclient Hdo Hstatus.
  assert (Hbad : badStatus httpResponse = true).
  { destruct (badStatus httpResponse) eqn:Hb; [done|].
    by apply badStatus_false in Hb. }
  rewrite (MarkSMSAsVerified_pairs _ _ _ _ _ _ _ _ Hkeys Hne).
  rewrite pairs_all_ok.
  2: { eapply Forall_impl; [exact Hall|]. intros p Hp.
       by rewrite (pairOk_run agent p t). }
  cbn [app]. rewrite batchOf_pairs. unfold submitRun.
  rewrite Hbody, Hcheck, Hclient. rewrite <- app_assoc. cbn [app].
  by rewrite Hdo, Hbad.
Qed.

(** The calls of [client.Do] among the events of a call, whatever it
    returns. *)
Lemma MarkSMSAsVerified_requests
    partner ctx phoneNumber agent smsMessage (t : trace) :
  exists evs,
    snd (MarkSMSAsVerified partner ctx phoneNumber agent smsMessage t)
    = t ++ evs /\
    (requestsOf evs = [] \/
     exists client lookupBody,
       oauth2.GetHttpClient ctx (ServiceAccountJSONFile partner) = Ok client /\
       json_Marshal_phoneNumbers {[ "phoneNumbers"%string := [phoneNumber] ]}
       = inr lookupBody /\
       (requestsOf evs
        = [EvDo client (requestTo ApiGetPublicKeysUrl lookupBody)] \/
        exists submitBody,
          requestsOf evs
          = [EvDo client (requestTo ApiGetPublicKeysUrl lookupBody);
             EvDo client (requestTo ApiSubmitHashesUrl submitBody)])).
Proof.
  pose proof (MarkSMSAsVerified_without_keys partner ctx phoneNumber agent
                smsMessage t) as Hnone.
  pose proof (GetPhoneNumberPublicKeys_events partner ctx phoneNumber t) as Hev.
  destruct (GetPhoneNumberPublicKeys partner ctx phoneNumber t)
    as [o t1] eqn:Hkeys. cbn [snd] in Hev.
  assert (Hshort :
    snd (MarkSMSAsVerified partner ctx phoneNumber agent smsMessage t) = t1 ->
    exists evs,
      snd (MarkSMSAsVerified partner ctx phoneNumber agent smsMessage t)
      = t ++ evs /\
      (requestsOf evs = [] \/
       exists client lookupBody,
         oauth2.GetHttpClient ctx (ServiceAccountJSONFile partner) = Ok client /\
         json_Marshal_phoneNumbers {[ "phoneNumbers"%string := [phoneNumber] ]}
         = inr lookupBody /\
         (requestsOf evs
          = [EvDo client (requestTo ApiGetPublicKeysUrl lookupBody)] \/
          exists submitBody,
            requestsOf evs
            = [EvDo client (requestTo ApiGetPublicKeysUrl lookupBody);
               EvDo client (requestTo ApiSubmitHashesUrl submitBody)]))).
  { intros ->. destruct Hev as [->|(lookupBody & client & Hbody & Hclient & ->)].
    - exists []. split; [by rewrite app_nil_r | by left].
    - eexists. split; [done|]. right. exists client, lookupBody.
      split_and!; [done..|]. by left. }
  destruct o as [publicKeys|e|r]; [|apply Hshort; by rewrite Hnone..].
  destruct (decide (publicKeys = [])) as [->|Hne];
    [apply Hshort; by rewrite Hnone|]. clear Hnone Hshort Hev.
  pose proof Hkeys as Hinv.
  apply GetPhoneNumberPublicKeys_Ok in Hinv
    as (lookupBody & client & _ & _ & Hbody & Hclient & _ & _ & _ & _ & ->).
  rewrite (MarkSMSAsVerified_with_keys _ _ _ _ _ _ _ _ Hkeys Hne).
  destruct (outer_loop_run agent
              (data_munging.GetAllIterationsOfSMSMessage smsMessage)
              publicKeys []
              ((t ++ [EvDo client (requestTo ApiGetPublicKeysUrl lookupBody)])
               ++ [EvExpand smsMessage]))
    as (evs & Hevs & Htrace & _).
  cbv zeta in Htrace.
  destruct (rangeM _ publicKeys [] _) as [o t2]. cbn [snd] in Htrace. subst t2.
  assert (Hreq : requestsOf
                   ([EvDo client (requestTo ApiGetPublicKeysUrl lookupBody)]
                    ++ [EvExpand smsMessage] ++ evs)
                 = [EvDo client (requestTo ApiGetPublicKeysUrl lookupBody)]).
  { rewrite !requestsOf_app, (requestsOf_none evs) by done. reflexivity. }
  assert (Hstop : forall o' : outcome bool,
    exists evs',
      snd (o', ((t ++ [EvDo client (requestTo ApiGetPublicKeysUrl lookupBody)])
                ++ [EvExpand smsMessage]) ++ evs) = t ++ evs' /\
      requestsOf evs'
      = [EvDo client (requestTo ApiGetPublicKeysUrl lookupBody)]).
  { intros o'. eexists. split; [cbn [snd]; by rewrite <- !app_assoc | done]. }
  destruct o as [batch|e|r].
  2,3: destruct (Hstop (Err (Foreign "" ""))) as (evs' & Hsnd & Hr);
       exists evs'; (split; [exact Hsnd|]); right; exists client, lookupBody;
       split_and!; [done..|]; by left.
  unfold submitRun.
  destruct (json_Marshal_batchSubmitRequest _) as [e|submitBody].
  { destruct (Hstop (Err e)) as (evs' & Hsnd & Hr).
    exists evs'. split; [exact Hsnd|]. right. exists client, lookupBody.
    split_and!; [done..|]. by left. }
  destruct (http_NewRequest_check _ _) as [e|].
  { destruct (Hstop (Err e)) as (evs' & Hsnd & Hr).
    exists evs'. split; [exact Hsnd|]. right. exists client, lookupBody.
    split_and!; [done..|]. by left. }
  rewrite Hclient. cbn [snd].
  exists (([EvDo client (requestTo ApiGetPublicKeysUrl lookupBody)]
           ++ [EvExpand smsMessage] ++ evs)
          ++ [EvDo client (requestTo ApiSubmitHashesUrl submitBody)]).
  split; [by rewrite <- !app_assoc|].
  right. exists client, lookupBody. split_and!; [done..|].
  right. exists submitBody. rewrite requestsOf_app, Hreq. reflexivity.
Qed.

(** X10: whatever happens, [MarkSMSAsVerified] only adds events, and its
    calls of [client.Do] among them are none, or one with the lookup
    request, or that one followed by one with the submission request.
    Both are POST requests with the two fixed headers, and each is made
    with a client that [GetHttpClient] built from the partner's
    service-account file, whose token endpoint is [google.JWTTokenURL].
    The program hands no other request to a client; the token grants that
    the clients' transports post to the token endpoint within [client.Do]
    are not events and are not counted here. *)
Theorem X10_at_most_lookup_then_submission
    partner ctx phoneNumber agent smsMessage (t : trace) :
  exists evs,
    snd (MarkSMSAsVerified partner ctx phoneNumber agent smsMessage t)
    = t ++ evs /\
    (requestsOf evs = [] \/
     exists lookupClient lookupBody,
       oauth2.GetHttpClient ctx (ServiceAccountJSONFile partner)
       = Ok lookupClient /\
       jwt.TokenURL lookupClient = google.JWTTokenURL /\
       json_Marshal_phoneNumbers {[ "phoneNumbers"%string := [phoneNumber] ]}
       = inr lookupBody /\
       (requestsOf evs
        = [EvDo lookupClient (requestTo ApiGetPublicKeysUrl lookupBody)] \/
        exists submitClient submitBody,
          oauth2.GetHttpClient ctx (ServiceAccountJSONFile partner)
          = Ok submitClient /\
          jwt.TokenURL submitClient = google.JWTTokenURL /\
          requestsOf evs
          = [EvDo lookupClient (requestTo ApiGetPublicKeysUrl lookupBody);
             EvDo submitClient (requestTo ApiSubmitHashesUrl submitBody)])).
Proof.
  destruct (MarkSMSAsVerified_requests partner ctx phoneNumber agent
              smsMessage t)
    as (evs & Hsnd & [Hnone|(client & lookupBody & Hclient & Hbody & Hreq)]).
  { exists evs. split; [done | by left]. }
  destruct (GetHttpClient_Ok _ _ _ Hclient) as [Htoken _].
  exists evs. split; [done|]. right. exists client, lookupBody.
  split_and!; [done..|].
  destruct Hreq as [Hreq|(submitBody & Hreq)]; [by left|].
  right. by exists client, submitBody.
Qed.

Lemma bytes_of_inj (s1 s2 : string) : bytes_of s1 = bytes_of s2 -> s1 = s2.
Proof.
  unfold bytes_of. intros Heq.
  rewrite <- (string_of_list_byte_of_string s1),
          <- (string_of_list_byte_of_string s2).
  by rewrite Heq.
Qed.

(** X11: when trimming changes the message, a successful call submits
    every hash twice: the batch holds, for each key in order, the entry of
    the message as given two times, and the trimmed message is never
    handed to hash derivation. *)
Theorem X11_trimmed_message_is_never_hashed
    partner ctx phoneNumber agent smsMessage (t t' : trace) :
  strings.TrimSpace smsMessage <> smsMessage ->
  MarkSMSAsVerified partner ctx phoneNumber agent smsMessage t = (Ok true, t') ->
  exists publicKeys t1 evs submitBody client,
    GetPhoneNumberPublicKeys partner ctx phoneNumber t = (Ok publicKeys, t1) /\
    json_Marshal_batchSubmitRequest
      {| Messages :=
           flat_map (fun pk => [submission agent pk smsMessage;
                                submission agent pk smsMessage])
                    publicKeys |} = inr submitBody /\
    t' = t1 ++ evs ++ [EvDo client (requestTo ApiSubmitHashesUrl submitBody)] /\
    (forall pk,
       EvHash pk (bytes_of (strings.TrimSpace smsMessage)) ∉ evs) /\
    (forall pk, pk ∈ publicKeys ->
       exists hash,
         fst (hashing.GetHashForSMSMessage pk (PrivateKey agent)
                (bytes_of smsMessage) t) = Ok hash /\
         submission agent pk smsMessage
         = {| Hash := base64_EncodeToString hash; AgentId := ID agent |}).
Proof.
  intros Htrim Hrun.
  destruct (MarkSMSAsVerified_true_run _ _ _ _ _ _ _ Hrun)
    as (publicKeys & client & lookupBody & submitBody & httpResponse
        & Hkeys & _ & Hall & Hbody & _ & _ & ->).
  rewrite (GetAllIterationsOfSMSMessage_trimmed _ Htrim) in Hall, Hbody |- *.
  eexists publicKeys, _,
    (EvExpand smsMessage
     :: flat_map (pairEvents agent)
          (list_prod publicKeys [smsMessage; smsMessage])),
    submitBody, client.
  split_and!.
  - exact Hkeys.
  - exact Hbody.
  - by rewrite <- !app_assoc.
  - intros pk Hin. apply elem_of_cons in Hin as [Hin|Hin]; [done|].
    apply list_elem_of_In, in_flat_map in Hin as ([pk' v] & Hp & Hin).
    apply in_prod_iff in Hp as [Hpk' Hv].
    assert (v = smsMessage) as ->.
    { destruct Hv as [->|[->|[]]]; done. }
    rewrite Forall_forall in Hall.
    assert (Hok : pairOk agent (pk', smsMessage) = true).
    { apply Hall, list_elem_of_In, in_prod_iff. split; [done | by left]. }
    destruct (pairEvents_ok agent _ Hok) as (x & y & Hev).
    rewrite Hev in Hin. cbn [fst snd] in Hin.
    destruct Hin as [Heq|[Heq|[]]]; [|done].
    injection Heq as _ Hbytes. by apply bytes_of_inj in Hbytes.
  - intros pk Hpk. rewrite GetHashForSMSMessage_run. cbn [fst].
    rewrite Forall_forall in Hall.
    assert (Hok : pairOk agent (pk, smsMessage) = true).
    { apply Hall, list_elem_of_In, in_prod_iff.
      split; [by apply list_elem_of_In | by left]. }
    unfold pairOk in Hok. cbn [fst snd] in Hok.
    unfold submission, hashOf.
    destruct (hashOutcome pk (PrivateKey agent) (bytes_of smsMessage))
      as [hash| |]; [|done..].
    by exists hash.
Qed.

(** X13: when the lookup request cannot be delivered, or is answered with
    a success status and a body that does not decode, key resolution
    returns that error propagated and [MarkSMSAsVerified] returns it
    propagated once more: a broken lookup is an error, never "not
    supported". *)
Theorem X13_broken_lookup_is_an_error
    partner ctx phoneNumber agent smsMessage (t : trace)
    requestBody client e :
  json_Marshal_phoneNumbers {[ "phoneNumbers"%string := [phoneNumber] ]}
  = inr requestBody ->
  http_NewRequest_check "POST" ApiGetPublicKeysUrl = None ->
  oauth2.GetHttpClient ctx (ServiceAccountJSONFile partner) = Ok client ->
  (http_Client_Do t client (requestTo ApiGetPublicKeysUrl requestBody) = inl e \/
   exists httpResponse,
     http_Client_Do t client (requestTo ApiGetPublicKeysUrl requestBody)
     = inr httpResponse /\
     200 <= http.StatusCode httpResponse <= 299 /\
     json_Decode_verifiedSMSResponse (http.ResponseBody httpResponse) = inl e) ->
  let t1 := t ++ [EvDo client (requestTo ApiGetPublicKeysUrl requestBody)] in
  GetPhoneNumberPublicKeys partner ctx phoneNumber t
  = (Err (Propagate e), t1) /\
  MarkSMSAsVerified partner ctx phoneNumber agent smsMessage t
  = (Err (Propagate (Propagate e)), t1).
Proof.
  intros Hbody Hcheck Hclient Hfail t1.
  assert (Hrun : GetPhoneNumberPublicKeys partner ctx phoneNumber t
                 = (Err (Propagate e), t1)).
  { unfold GetPhoneNumberPublicKeys.
    rewrite bind_run, checked_lift_run, Hbody. cbn [returned propagated].
    rewrite bind_run, checked_lift_run. unfold http_NewRequest. rewrite Hcheck.
    cbn [propagated].
    rewrite bind_run, checked_lift_run, Hclient. cbn [propagated].
    rewrite bind_run. unfold checked at 1, Do.
    change (http.Header_Set (http.Header_Set _ _ _) _ _)
      with (requestTo ApiGetPublicKeysUrl requestBody).
    destruct Hfail as [Hdo|(httpResponse & Hdo & Hstatus & Hdecode)];
      rewrite Hdo; cbn [returned propagated]; [done|].
    apply badStatus_false in Hstatus. rewrite Hstatus.
    by rewrite bind_run, checked_lift_run, Hdecode. }
  split; [done|].
  pose proof (MarkSMSAsVerified_without_keys partner ctx phoneNumber agent
                smsMessage t) as Hmark.
  by rewrite Hrun in Hmark.
Qed.

(** X14: when every derivation succeeded and the submission request
    cannot be delivered, [MarkSMSAsVerified] returns that error
    propagated, the request being the last event. *)
Theorem X14_broken_submission_is_an_error
    partner ctx phoneNumber agent smsMessage (t t1 : trace)
    publicKeys submitBody client e :
  let variants := data_munging.GetAllIterationsOfSMSMessage smsMessage in
  let pairs := list_prod publicKeys variants in
  let t2 := t1 ++ EvExpand smsMessage :: flat_map (pairEvents agent) pairs in
  GetPhoneNumberPublicKeys partner ctx phoneNumber t = (Ok publicKeys, t1) ->
  publicKeys <> [] ->
  Forall (fun p =>
            isOk (fst (hashing.GetHashForSMSMessage (fst p) (PrivateKey agent)
                         (bytes_of (snd p)) t)) = true) pairs ->
  json_Marshal_batchSubmitRequest
    {| Messages := batchOf agent publicKeys variants |} = inr submitBody ->
  http_NewRequest_check "POST" ApiSubmitHashesUrl = None ->
  oauth2.GetHttpClient ctx (ServiceAccountJSONFile partner) = Ok client ->
  http_Client_Do t2 client (requestTo ApiSubmitHashesUrl submitBody) = inl e ->
  MarkSMSAsVerified partner ctx phoneNumber agent smsMessage t
  = (Err (Propagate e),
     t2 ++ [EvDo client (requestTo ApiSubmitHashesUrl submitBody)]).
Proof.
  cbv zeta. intros Hkeys Hne Hall Hbody Hcheck Hclient Hdo.
  rewrite (MarkSMSAsVerified_pairs _ _ _ _ _ _ _ _ Hkeys Hne).
  rewrite pairs_all_ok.
  2: { eapply Forall_impl; [exact Hall|]. intros p Hp.
       by rewrite (pairOk_run agent p t). }
  cbn [app]. rewrite batchOf_pairs. unfold submitRun.
  rewrite Hbody, Hcheck, Hclient. rewrite <- app_assoc. cbn [app].
  by rewrite Hdo.
Qed.

(** X15: when the service-account file does not parse, [GetHttpClient]
    returns that error propagated, and key resolution and
    [MarkSMSAsVerified] return it, each propagating it once more, before
    any request is sent. *)
Theorem X15_malformed_service_account_is_an_error
    partner ctx phoneNumber agent smsMessage (t : trace) requestBody e :
  json_Marshal_phoneNumbers {[ "phoneNumbers"%string := [phoneNumber] ]}
  = inr requestBody ->
  http_NewRequest_check "POST" ApiGetPublicKeysUrl = None ->
  json_Unmarshal_serviceAccountDetails (ServiceAccountJSONFile partner)
  = inl e ->
  oauth2.GetHttpClient ctx (ServiceAccountJSONFile partner)
  = Err (Propagate e) /\
  GetPhoneNumberPublicKeys partner ctx phoneNumber t
  = (Err (Propagate (Propagate e)), t) /\
  MarkSMSAsVerified partner ctx phoneNumber agent smsMessage t
  = (Err (Propagate (Propagate (Propagate e))), t).
Proof.
  intros Hbody Hcheck Hjson.
  assert (Hclient : oauth2.GetHttpClient ctx (ServiceAccountJSONFile partner)
                    = Err (Propagate e)).
  { unfold oauth2.GetHttpClient, mbind, outcome_bind. by rewrite Hjson. }
  split; [done|].
  assert (Hrun : GetPhoneNumberPublicKeys partner ctx phoneNumber t
                 = (Err (Propagate (Propagate e)), t)).
  { unfold GetPhoneNumberPublicKeys.
    rewrite bind_run, checked_lift_run, Hbody. cbn [returned propagated].
    rewrite bind_run, checked_lift_run. unfold http_NewRequest. rewrite Hcheck.
    cbn [propagated].
    by rewrite bind_run, checked_lift_run, Hclient. }
  split; [done|].
  pose proof (MarkSMSAsVerified_without_keys partner ctx phoneNumber agent
                smsMessage t) as Hmark.
  by rewrite Hrun in Hmark.
Qed.

End OrchestratorExtras.

Section HashingErrors.

Context {L : GoLib}.

(** X12: a key payload that is not valid base64, or whose bytes are not a
    PKIX public key, makes [GetHashForSMSMessage] return the error of the
    decoder, propagated twice, without any scalar multiplication. *)
Theorem X12_malformed_key_payload_is_an_error
    publicKeyString agentPrivateKey smsMessage (t : trace) e :
  (base64_DecodeString publicKeyString = inl e \/
   exists keyBytes,
     base64_DecodeString publicKeyString = inr keyBytes /\
     x509_ParsePKIXPublicKey keyBytes = inl e) ->
  hashing.GetHashForSMSMessage publicKeyString agentPrivateKey smsMessage t
  = (Err (Propagate (Propagate e)), t).
Proof.
  intros Hfail.
  unfold hashing.GetHashForSMSMessage, hashing.getPublicKeyFromPublicKeyPayload.
  unfold mbind, M_bind, outcome_bind, checked, lift.
  destruct Hfail as [Hdecode|(keyBytes & Hdecode & Hparse)];
    rewrite Hdecode; cbn [returned propagated]; [done|].
  by rewrite Hparse.
Qed.

End HashingErrors.

(** ** The further properties on the doubles *)

Module ExtraRuns.

Lemma X4_keys_come_from_a_decoded_success_response_witness :
  Fake.resolve Fake.phoneWithKeys []
  = (Ok ["EC-P384"; "RSA"]%string,
     [EvDo Fake.client (requestTo ApiGetPublicKeysUrl Fake.phoneWithKeys)]) /\
  exists response : verifiedSMSResponse,
    (length ["EC-P384"; "RSA"]%string <= length (UserKeys response))%nat.
Proof.
  assert (Hrun : Fake.resolve Fake.phoneWithKeys []
            = (Ok ["EC-P384"; "RSA"]%string,
               [EvDo Fake.client
                  (requestTo ApiGetPublicKeysUrl Fake.phoneWithKeys)]))
    by (vm_compute; reflexivity).
  split; [exact Hrun|].
  destruct (X4_keys_come_from_a_decoded_success_response (L := Fake.lib)
              Fake.partner tt Fake.phoneWithKeys [] _ _ Hrun)
    as (_ & _ & _ & response & _ & _ & _ & _ & _ & _ & _ & _ & Hlen).
  exists response. exact Hlen.
Defined.

Lemma X5_lookup_status_outside_2xx_is_an_error_witness :
  let err := InternalService ErrInternalService
               "bad response from Google: 503 Service Unavailable" ∅ in
  let t1 := [EvDo Fake.client (requestTo ApiGetPublicKeysUrl Flaky.phoneDown)] in
  Flaky.resolve Flaky.phoneDown [] = (Err err, t1) /\
  Flaky.mark Flaky.phoneDown Fake.agent "hello!"%string []
  = (Err (Propagate err), t1).
Proof.
  exact (X5_lookup_status_outside_2xx_is_an_error (L := Flaky.lib)
           Fake.partner tt Flaky.phoneDown Fake.agent "hello!" []
           Flaky.phoneDown Fake.client
           {| http.StatusCode := 503;
              http.Status := "503 Service Unavailable";
              http.ResponseBody := EmptyString |}
           eq_refl eq_refl eq_refl eq_refl
           ltac:(cbn; lia)).
Defined.

Lemma X6_key_without_pem_block_panics_witness :
  exists reason,
    oauth2.GetHttpClient (L := Flaky.lib) tt "no-pem" = Panic reason /\
    GetPhoneNumberPublicKeys (L := Flaky.lib) Flaky.partnerNoPem tt
      "+447700900123" [] = (Panic reason, []) /\
    MarkSMSAsVerified (L := Flaky.lib) Flaky.partnerNoPem tt
      "+447700900123" Fake.agent "hello!" [] = (Panic reason, []).
Proof.
  exact (X6_key_without_pem_block_panics (L := Flaky.lib)
           Flaky.partnerNoPem tt "+447700900123" Fake.agent "hello!" []
           "+447700900123"
           {| PrivateKeyPEM := "no-pem"; ClientEmail := "sa@example.com" |}
           eq_refl eq_refl eq_refl eq_refl).
Defined.

(** Two keys, the second an RSA key, and a message with two variants:
    the first two pairs are derived, the third fails, the fourth is not
    attempted. *)
Lemma X7_first_failing_pair_decides_the_error_witness :
  let msg := "  hello  "%string in
  Fake.mark Fake.phoneWithKeys Fake.agent msg []
  = (Err (Propagate (Propagate
            (InternalService ErrInternalService
               "failed to unmarshal into ECDSA" ∅))),
     [EvDo Fake.client (requestTo ApiGetPublicKeysUrl Fake.phoneWithKeys)]
     ++ EvExpand msg
        :: flat_map (pairEvents (L := Fake.lib) Fake.agent)
             ([("EC-P384"%string, msg); ("EC-P384"%string, msg)]
              ++ [("RSA"%string, msg)])).
Proof.
  cbv zeta.
  apply (X7_first_failing_pair_decides_the_error (L := Fake.lib)
           Fake.partner tt Fake.phoneWithKeys Fake.agent "  hello  " []
           [EvDo Fake.client (requestTo ApiGetPublicKeysUrl Fake.phoneWithKeys)]
           ["EC-P384"; "RSA"]%string
           [("EC-P384", "  hello  "); ("EC-P384", "  hello  ")]%string
           ("RSA", "  hello  ")%string
           [("RSA", "  hello  ")]%string).
  - vm_compute; reflexivity.
  - vm_compute; reflexivity.
  - repeat constructor; vm_compute; reflexivity.
  - vm_compute; reflexivity.
Defined.

Lemma X8_successful_call_event_by_event_witness :
  Fake.mark "+447700900123" Fake.agent "hello!"%string []
  = (Ok true, snd (Fake.mark "+447700900123" Fake.agent "hello!"%string [])) /\
  exists publicKeys (lookupClient submitClient : jwt.Config unit) lookupBody
         (httpResponse : http.Response),
    Fake.resolve "+447700900123" []
    = (Ok publicKeys,
       [] ++ [EvDo lookupClient (requestTo ApiGetPublicKeysUrl lookupBody)]) /\
    jwt.TokenURL lookupClient = google.JWTTokenURL /\
    jwt.TokenURL submitClient = google.JWTTokenURL /\
    200 <= http.StatusCode httpResponse <= 299.
Proof.
  assert (Hrun : Fake.mark "+447700900123" Fake.agent "hello!"%string []
            = (Ok true,
               snd (Fake.mark "+447700900123" Fake.agent "hello!"%string [])))
    by (vm_compute; reflexivity).
  split; [exact Hrun|].
  destruct (X8_successful_call_event_by_event (L := Fake.lib)
              Fake.partner tt "+447700900123" Fake.agent "hello!" [] _ Hrun)
    as (publicKeys & lookupClient & submitClient & lookupBody & submitBody
        & httpResponse
        & _ & Hlookup & _ & Hsubmit & Hkeys & _ & _ & _ & Hstatus & _).
  exists publicKeys, lookupClient, submitClient, lookupBody, httpResponse.
  split; [exact Hkeys|]. split; [exact Hlookup|].
  split; [exact Hsubmit | exact Hstatus].
Defined.

Lemma X9_submission_status_outside_2xx_is_an_error_witness :
  exists t',
    Flaky.mark "+447700900123" Fake.agent "hello!"%string []
    = (Err (InternalService ErrInternalService
              "bad response from Google: 500 Internal Server Error" ∅), t') /\
    length (requestsOf (L := Flaky.lib) t') = 2%nat.
Proof.
  eexists. split.
  - refine (X9_submission_status_outside_2xx_is_an_error (L := Flaky.lib)
              Fake.partner tt "+447700900123" Fake.agent "hello!" []
              [EvDo Fake.client (requestTo ApiGetPublicKeysUrl "+447700900123")]
              ["EC-P384"%string] _ Fake.client
              {| http.StatusCode := 500;
                 http.Status := "500 Internal Server Error";
                 http.ResponseBody := EmptyString |}
              _ _ _ eq_refl eq_refl eq_refl _ _).
    + vm_compute; reflexivity.
    + discriminate.
    + repeat constructor; vm_compute; reflexivity.
    + vm_compute; reflexivity.
    + cbn; lia.
  - vm_compute; reflexivity.
Defined.

Lemma X11_trimmed_message_is_never_hashed_witness :
  strings.TrimSpace "  hello  " = "hello"%string /\
  exists publicKeys submitBody,
    json_Marshal_batchSubmitRequest (GoLib := Fake.lib)
      {| Messages :=
           flat_map (fun pk =>
                       [submission (L := Fake.lib) Fake.agent pk "  hello  ";
                        submission (L := Fake.lib) Fake.agent pk "  hello  "])
                    publicKeys |} = inr submitBody /\
    Fake.resolve "+447700900123" []
    = (Ok publicKeys, snd (Fake.resolve "+447700900123" [])).
Proof.
  assert (Htrim : strings.TrimSpace "  hello  " = "hello"%string)
    by (vm_compute; reflexivity).
  split; [exact Htrim|].
  assert (Hne : strings.TrimSpace "  hello  " <> "  hello  "%string)
    by (rewrite Htrim; discriminate).
  assert (Hrun : Fake.mark "+447700900123" Fake.agent "  hello  "%string []
            = (Ok true,
               snd (Fake.mark "+447700900123" Fake.agent "  hello  "%string [])))
    by (vm_compute; reflexivity).
  destruct (X11_trimmed_message_is_never_hashed (L := Fake.lib)
              Fake.partner tt "+447700900123" Fake.agent "  hello  " [] _
              Hne Hrun)
    as (publicKeys & t1 & evs & submitBody & client & Hkeys & Hbody & _).
  exists publicKeys, submitBody. split; [exact Hbody|].
  unfold Fake.resolve. rewrite Hkeys. reflexivity.
Defined.

Lemma X12_malformed_key_payload_is_an_error_witness :
  hashing.GetHashForSMSMessage (L := Fake.lib) "not-a-key"
    (PrivateKey Fake.agent) (bytes_of "hello!") []
  = (Err (Propagate (Propagate (Foreign "x509" "failed to parse public key"))),
     []).
Proof.
  apply (X12_malformed_key_payload_is_an_error (L := Fake.lib)).
  right. exists (bytes_of "not-a-key"). split; reflexivity.
Defined.

Lemma X13_broken_lookup_is_an_error_witness :
  let t1 := [EvDo Fake.client (requestTo ApiGetPublicKeysUrl "garbage")] in
  Fake.resolve "garbage" []
  = (Err (Propagate (Foreign "json" "invalid character")), t1) /\
  Fake.mark "garbage" Fake.agent "hello!"%string []
  = (Err (Propagate (Propagate (Foreign "json" "invalid character"))), t1).
Proof.
  apply (X13_broken_lookup_is_an_error (L := Fake.lib)
           Fake.partner tt "garbage" Fake.agent "hello!" []
           "garbage" Fake.client); try reflexivity.
  right.
  exists {| http.StatusCode := 200; http.Status := "200 OK";
            http.ResponseBody := "garbage" |}.
  split; [reflexivity|]. split; [cbn; lia | reflexivity].
Defined.

Lemma X14_broken_submission_is_an_error_witness :
  exists t',
    Flaky.mark "+447700900123" Fake.agent "offline"%string []
    = (Err (Propagate (Foreign "net/http" "connection reset by peer")), t') /\
    length (requestsOf (L := Flaky.lib) t') = 2%nat.
Proof.
  eexists. split.
  - refine (X14_broken_submission_is_an_error (L := Flaky.lib)
              Fake.partner tt "+447700900123" Fake.agent "offline" []
              [EvDo Fake.client (requestTo ApiGetPublicKeysUrl "+447700900123")]
              ["EC-P384"%string] _ Fake.client _
              _ _ _ eq_refl eq_refl eq_refl _).
    + vm_compute; reflexivity.
    + discriminate.
    + repeat constructor; vm_compute; reflexivity.
    + vm_compute; reflexivity.
  - vm_compute; reflexivity.
Defined.

Lemma X15_malformed_service_account_is_an_error_witness :
  let partner := {| ServiceAccountJSONFile := EmptyString |} in
  let e := Foreign "json" "unexpected end of JSON input" in
  oauth2.GetHttpClient (L := Fake.lib) tt EmptyString = Err (Propagate e) /\
  GetPhoneNumberPublicKeys (L := Fake.lib) partner tt "+447700900123" []
  = (Err (Propagate (Propagate e)), []) /\
  MarkSMSAsVerified (L := Fake.lib) partner tt "+447700900123" Fake.agent
    "hello!" []
  = (Err (Propagate (Propagate (Propagate e))), []).
Proof.
  exact (X15_malformed_service_account_is_an_error (L := Fake.lib)
           {| ServiceAccountJSONFile := EmptyString |} tt "+447700900123"
           Fake.agent "hello!" [] "+447700900123"
           (Foreign "json" "unexpected end of JSON input")
           eq_refl eq_refl eq_refl).
Defined.


Lemma X1_two_variants_iff_surrounding_space_witness :
  hasLeadingSpace "  hello  " = true /\
  data_munging.GetAllIterationsOfSMSMessage "  hello  "
  = ["  hello  "; "  hello  "]%string /\
  hasLeadingSpace "hello!" = false /\ hasTrailingSpace "hello!" = false /\
  data_munging.GetAllIterationsOfSMSMessage "hello!" = ["hello!"%string].
Proof.
  split; [reflexivity|]. split.
  - exact (proj1 (X1_two_variants_iff_surrounding_space "  hello  ")).
  - split; [reflexivity|]. split; [reflexivity|].
    exact (proj1 (X1_two_variants_iff_surrounding_space "hello!")).
Defined.

Lemma X2_hash_is_hkdf_of_shared_secret_witness :
  let secret := big.Bytes (elliptic.Gx elliptic.P384) in
  let hash := take 32 (hkdf_sha256_stream (GoLib := Fake.lib) secret []
                         (bytes_of "hello!")) in
  hashing.GetHashForSMSMessage (L := Fake.lib) "EC-P384"
    (PrivateKey Fake.agent) (bytes_of "hello!") []
  = (Ok hash,
     [] ++ [EvScalarMult (elliptic.Gx elliptic.P384) (elliptic.Gy elliptic.P384)
                         (big.Bytes 1)]).
Proof.
  cbv zeta.
  apply (proj2 (X2_hash_is_hkdf_of_shared_secret (L := Fake.lib) "EC-P384"
                  (PrivateKey Fake.agent) (bytes_of "hello!") [] _ _)).
  exists (bytes_of "EC-P384"), Fake.generator384.
  split; [reflexivity|]. split; [reflexivity|].
  split; [vm_compute; reflexivity|].
  cbv zeta. split; [vm_compute; lia|]. split; reflexivity.
Defined.

Lemma X10_at_most_lookup_then_submission_witness :
  exists evs,
    snd (Fake.mark "+447700900123" Fake.agent "hello!"%string []) = [] ++ evs /\
    length (requestsOf (L := Fake.lib) evs) = 2%nat.
Proof.
  destruct (X10_at_most_lookup_then_submission (L := Fake.lib)
              Fake.partner tt "+447700900123" Fake.agent "hello!" [])
    as (evs & Hsnd & _).
  exists evs. split; [exact Hsnd|].
  cbn [app] in Hsnd. unfold Fake.mark in Hsnd. rewrite <- Hsnd.
  vm_compute; reflexivity.
Defined.

End ExtraRuns.
